(** * Chunked map-reduce pipeline of the Data Cube UI

    A shallow embedding of the two Celery pipelines
    [apps/coastal_change/tasks.py] (batch mode) and
    [apps/water_detection/tasks.py] (iterative mode): validation,
    chunking, fan-out dispatch, the chunk worker and the two
    recombiners.  Python values are embedded as follows.

    - [None]-or-value results are [option]s; exceptions are the [Raise]
      outcome of [res].
    - A [dict] with string keys (metadata, the variables of an
      [xarray.Dataset]) is a [gmap string _]; [d.update(e)] is the
      union that prefers [e].
    - The task row, the temporary directory and the dispatched Celery
      canvas form the [World], threaded through every stage.
    - The collaborators that the pipeline treats as opaque (the data
      cube, the analysis functions, the raster arithmetic of xarray)
      are the fields of type classes. *)

From Stdlib Require Import ZArith List String Ascii Lia DecimalString.
From Stdlib Require OrderedTypeEx DecimalNat Sorted.
From stdpp Require Import base gmap strings list fin_maps.

Open Scope string_scope.
Open Scope list_scope.
Open Scope Z_scope.

(* ===================================================================== *)
(** ** Python base layer *)
(* ===================================================================== *)

Module Py.

(** The exceptions the modelled code can raise. *)
Inductive exn : Type :=
| IndexError
| KeyError
| TypeError
| ValueError
| AttributeError
| FileNotFoundError.

(** Outcome of a computation that may raise. *)
Inductive res (A : Type) : Type :=
| Ok (a : A)
| Raise (e : exn).
Arguments Ok {A} a.
Arguments Raise {A} e.

Definition bind {A B} (x : res A) (f : A → res B) : res B :=
  match x with
  | Ok a => f a
  | Raise e => Raise e
  end.

(** Whether a computation returns, and what it returns ([d] when it
    raises). *)
Definition returns {A} (x : res A) : bool :=
  match x with
  | Ok _ => true
  | Raise _ => false
  end.

Definition value {A} (d : A) (x : res A) : A :=
  match x with
  | Ok a => a
  | Raise _ => d
  end.

(** Whether a stage returns a result that is not [None]. *)
Definition produced {A B} (x : res (option A * B)) : bool :=
  match x with
  | Ok (Some _, _) => true
  | _ => false
  end.

(** [str(n)] for the non-negative integers produced by [enumerate]. *)
Definition str (n : nat) : string := NilEmpty.string_of_uint (Nat.to_uint n).

(** [str(z)] for any integer. *)
Definition str_int (z : Z) : string :=
  if z <? 0 then "-" +:+ str (Z.to_nat (- z)) else str (Z.to_nat z).

(** [range(n)]. *)
Definition range (n : Z) : list Z := Z.of_nat <$> seq 0 (Z.to_nat n).

(** [s.startswith("/")] and [s.endswith("/")]. *)
Definition startswith_sep (s : string) : bool :=
  match s with
  | String c _ => Ascii.eqb c "/"
  | EmptyString => false
  end.

Fixpoint endswith_sep (s : string) : bool :=
  match s with
  | EmptyString => false
  | String c EmptyString => Ascii.eqb c "/"
  | String _ rest => endswith_sep rest
  end.

(** [os.path.join(a, b)] of posixpath, for two components. *)
Definition os_path_join (a b : string) : string :=
  if startswith_sep b then b
  else if (String.eqb a EmptyString || endswith_sep a)%bool then a +:+ b
  else a +:+ "/" +:+ b.

(** [sorted(l, key=key)] where the keys are strings: Python's sort is
    stable and compares keys with [<] only.  [insert_by_key] puts [x]
    in front of the first element whose key is not smaller, so that
    equal keys keep their arrival order. *)
Section Sorted.
Context {A : Type} (key : A → string).

Fixpoint insert_by_key (x : A) (l : list A) : list A :=
  match l with
  | [] => [x]
  | y :: l' =>
      if String.ltb (key y) (key x) then y :: insert_by_key x l'
      else x :: y :: l'
  end.

Definition sorted (l : list A) : list A := foldr insert_by_key [] l.
End Sorted.

(** [l[0]] and [l[-1]]. *)
Definition first {A} (l : list A) : res A :=
  match l with
  | x :: _ => Ok x
  | [] => Raise IndexError
  end.

Definition last {A} (l : list A) : res A :=
  match List.last (List.map Some l) None with
  | Some x => Ok x
  | None => Raise IndexError
  end.

(** [enumerate(l)]. *)
Definition enumerate {A} (l : list A) : list (nat * A) :=
  List.combine (List.seq 0 (List.length l)) l.

End Py.

Import Py.

Notation "'let*' x ':=' y 'in' z" := (Py.bind y (λ x, z))
  (at level 10, x pattern, y at level 100, z at level 200, only parsing).

(* ===================================================================== *)
(** ** [datetime] *)
(* ===================================================================== *)

(** A naive [datetime.datetime]; hour, minute, second and microsecond
    are kept as the microsecond of the day. *)
Record datetime : Type := mkdt { year : Z; month : Z; day : Z; usec : Z }.

(** [datetime(y, m, d)]. *)
Definition datetime_ymd (y m d : Z) : datetime := mkdt y m d 0.

Definition dt_ltb (a b : datetime) : bool :=
  if year a <? year b then true else if year b <? year a then false
  else if month a <? month b then true else if month b <? month a then false
  else if day a <? day b then true else if day b <? day a then false
  else usec a <? usec b.

Definition is_leap (y : Z) : bool :=
  ((y mod 4 =? 0) && (negb (y mod 100 =? 0) || (y mod 400 =? 0)))%bool.

Definition days_in_month (y m : Z) : Z :=
  if m =? 2 then (if is_leap y then 29 else 28)
  else if ((m =? 4) || (m =? 6) || (m =? 9) || (m =? 11))%bool then 30
  else 31.

(** [dt.replace(year=y)]: 29 February only exists in leap years. *)
Definition replace_year (dt : datetime) (y : Z) : res datetime :=
  if days_in_month y (month dt) <? day dt then Raise ValueError
  else Ok (mkdt y (month dt) (day dt) (usec dt)).

Definition usec_per_day : Z := 86400000000.

(** [dt - timedelta(microseconds=1)] and [dt + timedelta(microseconds=1)]. *)
Definition sub_microsecond (dt : datetime) : datetime :=
  if 0 <? usec dt then mkdt (year dt) (month dt) (day dt) (usec dt - 1)
  else if 1 <? day dt then mkdt (year dt) (month dt) (day dt - 1) (usec_per_day - 1)
  else if 1 <? month dt then
    mkdt (year dt) (month dt - 1) (days_in_month (year dt) (month dt - 1)) (usec_per_day - 1)
  else mkdt (year dt - 1) 12 31 (usec_per_day - 1).

Definition add_microsecond (dt : datetime) : datetime :=
  if usec dt + 1 <? usec_per_day then mkdt (year dt) (month dt) (day dt) (usec dt + 1)
  else if day dt <? days_in_month (year dt) (month dt) then
    mkdt (year dt) (month dt) (day dt + 1) 0
  else if month dt <? 12 then mkdt (year dt) (month dt + 1) 1 0
  else mkdt (year dt + 1) 1 1 0.

(** [min(ts)] and [max(ts)] of a tuple of datetimes: the first smallest
    and the first largest element. *)
Fixpoint dt_min_from (m : datetime) (ts : list datetime) : datetime :=
  match ts with
  | [] => m
  | t :: ts' => dt_min_from (if dt_ltb t m then t else m) ts'
  end.

Fixpoint dt_max_from (m : datetime) (ts : list datetime) : datetime :=
  match ts with
  | [] => m
  | t :: ts' => dt_max_from (if dt_ltb m t then t else m) ts'
  end.

(** The helper nested in both [processing_task]s:
    [(min(time_ranges) - 1us, max(time_ranges) + 1us)]. *)
Definition _get_datetime_range_containing (time_ranges : list datetime)
  : res (datetime * datetime) :=
  match time_ranges with
  | [] => Raise ValueError
  | t :: ts => Ok (sub_microsecond (dt_min_from t ts), add_microsecond (dt_max_from t ts))
  end.

(* ===================================================================== *)
(** ** Rasters, metadata and the temporary directory *)
(* ===================================================================== *)

(** The carrier types the pipeline never looks into, and the two
    operators of xarray it applies itself ([+=] and [/] in
    [combine_intermediates]). *)
Class Raster : Type := {
  DataArray : Type;
  Mask : Type;
  MetaVal : Type;
  Coord : Type;
  xr_add : DataArray → DataArray → DataArray;
  xr_div : DataArray → DataArray → DataArray;
}.

(** An [xarray.Dataset]: its variables and coordinates by name. *)
Abbreviation Dataset := (gmap string DataArray).
(** A metadata [dict]. *)
Abbreviation Metadata := (gmap string MetaVal).

Section Storage.
Context `{Raster}.

(** What a file of the temporary directory holds: a dataset written
    by [to_netcdf], or a picture rendered from a dataset. *)
Inductive file : Type :=
| NetCDF (d : Dataset)
| Image (d : Dataset) (bands : list string).

(** The file system as far as the pipeline sees it. *)
Record FS : Type := mkFS { dirs : gset string; files : gmap string file }.

(** [os.path.exists(p)]. *)
Definition os_path_exists (fs : FS) (p : string) : bool :=
  bool_decide (p ∈ dirs fs) || bool_decide (is_Some (files fs !! p)).

Definition write_file (fs : FS) (p : string) (f : file) : FS :=
  mkFS (dirs fs) (<[p := f]> (files fs)).

(** [xr.open_dataset(p)]. *)
Definition open_dataset (fs : FS) (p : string) : res Dataset :=
  match files fs !! p with
  | Some (NetCDF d) => Ok d
  | Some (Image _ _) => Raise ValueError
  | None => Raise FileNotFoundError
  end.

(** The test [data is None or 'time' not in data] of the chunk workers:
    a fetched cube is usable when it is not [None] and has a [time]
    coordinate. *)
Definition usable (data : option Dataset) : option Dataset :=
  match data with
  | Some d => if bool_decide (is_Some (d !! "time")) then Some d else None
  | None => None
  end.

(** The result tuple [(path, metadata, {'geo_chunk_id': g, 'time_chunk_id': t})]
    of the chunk worker and of both recombiners. *)
Record ChunkResult : Type := mkChunk {
  cr_path : string;
  cr_metadata : Metadata;
  cr_geo_chunk_id : nat;
  cr_time_chunk_id : nat;
}.

(** What Celery hands to a fan-in task: the list of the group's results,
    or the bare result. *)
Inductive chunks_arg : Type :=
| ResultList (l : list (option ChunkResult))
| ResultSingle (c : option ChunkResult).

(** [[chunk for chunk in l if chunk is not None]]. *)
Definition drop_none {A} (l : list (option A)) : list A := omap id l.

(** ["recombined_geo_{}.nc".format(time_chunk_id)], the name both
    geographic recombiners give their artifact. *)
Definition recombined_geo_name (time_chunk_id : nat) : string :=
  "recombined_geo_" +:+ str time_chunk_id +:+ ".nc".

(** Subscripting an element that may be [None] ([x[0]], [x[2]]). *)
Definition subscriptable (c : option ChunkResult) : res ChunkResult :=
  match c with
  | Some r => Ok r
  | None => Raise TypeError
  end.

Fixpoint all_subscriptable (l : list (option ChunkResult)) : res (list ChunkResult) :=
  match l with
  | [] => Ok []
  | c :: l' =>
      let* r := subscriptable c in
      let* rs := all_subscriptable l' in
      Ok (r :: rs)
  end.

(** [total_chunks = [chunks] if not isinstance(chunks, list) else chunks]. *)
Definition as_list (chunks : chunks_arg) : list (option ChunkResult) :=
  match chunks with
  | ResultList l => l
  | ResultSingle c => [c]
  end.

(** The loop [for chunk in total_chunks: metadata.update(chunk[1])] of
    the temporal recombiners, started from [metadata]. *)
Definition update_all (metadata : Metadata) (total_chunks : list ChunkResult)
  : Metadata :=
  foldl (λ md chunk, cr_metadata chunk ∪ md) metadata total_chunks.

(** A geographic chunk: the [dict] with keys [longitude] and [latitude]
    merged into the load parameters. *)
Record GeographicChunk : Type := mkGeo {
  gc_longitude : Coord * Coord;
  gc_latitude : Coord * Coord;
}.

(** One [processing_task.s(...)] signature of the canvas; [P] is the
    parameter dict and [TC] the time chunk of the application. *)
Record Job (P TC : Type) : Type := mkJob {
  job_geo_chunk_id : nat;
  job_time_chunk_id : nat;
  job_geographic_chunk : GeographicChunk;
  job_time_chunk : TC;
  job_parameters : P;
}.

(** The state the stages share: the task row [T], the file system, the
    queries sent to the data cube's raster fetch so far (latest first),
    and the canvas handed to Celery by [apply_async], one group of jobs
    per time chunk. *)
Record World (T P TC : Type) : Type := mkWorld {
  task : T;
  fs : FS;
  fetched : list P;
  canvas : option (list (list (Job P TC)));
}.
End Storage.

Arguments mkJob {_ _ _} _ _ _ _ _.
Arguments job_geo_chunk_id {_ _ _} _.
Arguments job_time_chunk_id {_ _ _} _.
Arguments job_geographic_chunk {_ _ _} _.
Arguments job_time_chunk {_ _ _} _.
Arguments job_parameters {_ _ _} _.
Arguments mkWorld {_ _ _ _} _ _ _ _.
Arguments task {_ _ _ _} _.
Arguments fs {_ _ _ _} _.
Arguments fetched {_ _ _ _} _.
Arguments canvas {_ _ _ _} _.

(* ===================================================================== *)
(** ** apps/coastal_change/tasks.py *)
(* ===================================================================== *)

Module CoastalChange.
Section Pipeline.
Context `{Raster}.

(** The parameter [dict] built by [parse_parameters_from_task]. *)
Record Parameters : Type := mkParams {
  platform : string;
  product : string;
  time : datetime * datetime;
  longitude : Coord * Coord;
  latitude : Coord * Coord;
  measurements : list string;
}.

(** The [CoastalChangeTask] row: the fields and model methods the stages
    read ([time_start], [time_end], [animated_product.animation_id],
    [get_temp_path()], [get_chunk_size()]) and the fields they write. *)
Record Task : Type := mkTask {
  time_start : Z;
  time_end : Z;
  animation_id : string;
  temp_path : string;
  chunk_size_time : option Z;
  chunk_size_geographic : option Coord;
  status : string;
  message : string;
  complete : bool;
  total_scenes : Z;
  scenes_processed : Z;
}.

(** A time chunk is the two-element list [[anchor year's dates, other
    year's dates]]. *)
Abbreviation TimeChunk := (list datetime * list datetime)%type.

Abbreviation W := (World Task Parameters TimeChunk).

(** The return value of [perform_task_chunking]. *)
Record ChunkDetails : Type := mkDetails {
  cd_parameters : Parameters;
  cd_geographic_chunks : list GeographicChunk;
  cd_time_chunks : list TimeChunk;
}.

(** The collaborators imported from [utils] and the model methods that
    compute: the data cube, the mask builders, the analysis functions,
    the chunker's geographic tiling and the raster merges. *)
Class Collaborators : Type := {
  list_acquisition_dates : Parameters → list datetime;
  validate_measurements : string → list string → bool;
  get_dataset_by_extent : Parameters → option Dataset;
  create_cfmask_clean_mask : DataArray → Mask;
  create_bit_mask : DataArray → list Z → Mask;
  metadata_from_dataset : Metadata → Dataset → Mask → Parameters → Metadata;
  processing_method : Dataset → Mask → Dataset;
  compute_coastal_change : Dataset → Dataset → Dataset;
  combine_metadata : Metadata → Metadata → Metadata;
  create_geographic_chunks :
    Coord * Coord → Coord * Coord → option Coord → list GeographicChunk;
  combine_geographic_chunks : list Dataset → Dataset;
  mask_mosaic_with_coastlines : Dataset → Dataset;
  mask_mosaic_with_coastal_change : Dataset → Dataset;
}.
Context `{Collaborators}.

(** *** Field updates *)

Definition set_time (p : Parameters) (t : datetime * datetime) : Parameters :=
  mkParams (platform p) (product p) t (longitude p) (latitude p) (measurements p).

Definition set_measurements (p : Parameters) (m : list string) : Parameters :=
  mkParams (platform p) (product p) (time p) (longitude p) (latitude p) m.

(** [params.update(geographic_chunk)]. *)
Definition update_geographic (p : Parameters) (g : GeographicChunk) : Parameters :=
  mkParams (platform p) (product p) (time p) (gc_longitude g) (gc_latitude g)
           (measurements p).

(** [task.update_status(status, message)]. *)
Definition update_status (st msg : string) (t : Task) : Task :=
  mkTask (time_start t) (time_end t) (animation_id t) (temp_path t)
         (chunk_size_time t) (chunk_size_geographic t)
         st msg (complete t) (total_scenes t) (scenes_processed t).

Definition set_complete (b : bool) (t : Task) : Task :=
  mkTask (time_start t) (time_end t) (animation_id t) (temp_path t)
         (chunk_size_time t) (chunk_size_geographic t)
         (status t) (message t) b (total_scenes t) (scenes_processed t).

Definition set_counters (total processed : Z) (t : Task) : Task :=
  mkTask (time_start t) (time_end t) (animation_id t) (temp_path t)
         (chunk_size_time t) (chunk_size_geographic t)
         (status t) (message t) (complete t) total processed.

(** [task.scenes_processed = F('scenes_processed') + 1; task.save()]:
    the increment is evaluated by the database on the stored row. *)
Definition increment_scenes_processed (t : Task) : Task :=
  set_counters (total_scenes t) (scenes_processed t + 1) t.

Definition with_task (f : Task → Task) (w : W) : W :=
  mkWorld (f (task w)) (fs w) (fetched w) (canvas w).

Definition with_fs (f : FS → FS) (w : W) : W :=
  mkWorld (task w) (f (fs w)) (fetched w) (canvas w).

(** [(task.get_chunk_size()['time'] if ... is not None else 1)]. *)
Definition time_chunk_size_or_1 (t : Task) : Z := default 1 (chunk_size_time t).

(** *** validate_parameters *)

(** The loop [for year in parameters['time']]: the first queried
    window without acquisitions stops validation. *)
Fixpoint acquisitions_missing (parameters : Parameters) (years : list datetime)
  : res bool :=
  match years with
  | [] => Ok false
  | year0 :: rest =>
      let* next := replace_year year0 (year year0 + 1) in
      let acquisitions := list_acquisition_dates (set_time parameters (year0, next)) in
      if (Z.of_nat (length acquisitions) <? 1)%Z then Ok true
      else acquisitions_missing parameters rest
  end.

Definition default_measurements : list string :=
  ["blue"; "green"; "red"; "nir"; "swir1"; "swir2"; "pixel_qa"].

Definition validate_parameters (parameters : Parameters) (w : W)
  : res (option Parameters * W) :=
  let* missing :=
    acquisitions_missing parameters [fst (time parameters); snd (time parameters)] in
  if (missing : bool) then
    Ok (None,
        with_task (λ t, update_status "ERROR"
          "There must be at least one acquisition in both the start and ending year."
          (set_complete true t)) w)
  else
    let w := with_task (update_status "WAIT" "Validated parameters.") w in
    let parameters :=
      if validate_measurements (product parameters) (measurements parameters)
      then parameters
      else set_measurements parameters default_measurements in
    Ok (Some parameters, w).


(** *** perform_task_chunking *)

(** Modelled from the spec: [utils.dc_chunker.group_datetimes_by_year]
    is missing from the sources.  Following section 4.1 ("groups dates
    by calendar period") it is the [dict] that maps every year with an
    acquisition to the acquisitions of that year; the [dict] is kept as
    an association list because the chunker iterates over it. *)
Definition group_datetimes_by_year (dates : list datetime)
  : list (Z * list datetime) :=
  (λ y, (y, filter (λ d, year d = y) dates)) <$> remove_dups (year <$> dates).

(** [d[k]] and [d.pop(k)] on such a [dict]. *)
Fixpoint dict_get (k : Z) (d : list (Z * list datetime)) : res (list datetime) :=
  match d with
  | [] => Raise KeyError
  | (k', v) :: d' => if k' =? k then Ok v else dict_get k d'
  end.

Fixpoint dict_pop (k : Z) (d : list (Z * list datetime))
  : res (list datetime * list (Z * list datetime)) :=
  match d with
  | [] => Raise KeyError
  | (k', v) :: d' =>
      if k' =? k then Ok (v, d')
      else let* (x, rest) := dict_pop k d' in Ok (x, (k', v) :: rest)
  end.

(** The time chunks built from the grouped dates: the first and the
    last year only when no animation is asked for, otherwise the first
    year against every other year. *)
Definition time_chunks_of (t : Task) (grouped_dates : list (Z * list datetime))
  : res (list TimeChunk) :=
  if String.eqb (animation_id t) "none" then
    let* first_year := dict_get (time_start t) grouped_dates in
    let* last_year := dict_get (time_end t) grouped_dates in
    Ok [(first_year, last_year)]
  else
    let* (initial_year, grouped_dates) := dict_pop (time_start t) grouped_dates in
    Ok ((λ kv, (initial_year, snd kv)) <$> grouped_dates).

Definition perform_task_chunking (parameters : option Parameters) (w : W)
  : res (option ChunkDetails * W) :=
  match parameters with
  | None => Ok (None, w)
  | Some parameters =>
      let dates := list_acquisition_dates parameters in
      let geographic_chunks :=
        create_geographic_chunks (longitude parameters) (latitude parameters)
                                 (chunk_size_geographic (task w)) in
      let grouped_dates := group_datetimes_by_year dates in
      let* time_chunks := time_chunks_of (task w) grouped_dates in
      Ok (Some (mkDetails parameters geographic_chunks time_chunks),
          with_task (update_status "WAIT" "Chunked parameter set.") w)
  end.

(** *** start_chunk_processing *)

(** The canvas: for every time chunk, the group of one job per
    geographic chunk (followed by the geographic recombiner), and the
    temporal recombiner and the finalizer after all groups. *)
Definition build_canvas (d : ChunkDetails) : list (list (Job Parameters TimeChunk)) :=
  (λ '(time_index, time_chunk),
     (λ '(geo_index, geographic_chunk),
        mkJob geo_index time_index geographic_chunk time_chunk (cd_parameters d))
     <$> enumerate (cd_geographic_chunks d))
  <$> enumerate (cd_time_chunks d).

Definition start_chunk_processing (chunk_details : option ChunkDetails) (w : W)
  : res (option bool * W) :=
  match chunk_details with
  | None => Ok (None, w)
  | Some d =>
      let total :=
        Z.of_nat (length (cd_geographic_chunks d))
        * Z.of_nat (length (cd_time_chunks d))
        * time_chunk_size_or_1 (task w) in
      let t := update_status "WAIT" "Starting processing."
                 (set_counters total 0 (task w)) in
      Ok (Some true, mkWorld t (fs w) (fetched w) (Some (build_canvas d)))
  end.

(** *** processing_task *)

(** [chunk_id = "_".join([str(geo_chunk_id), str(time_chunk_id)])]. *)
Definition chunk_id (geo_chunk_id time_chunk_id : nat) : string :=
  str geo_chunk_id +:+ "_" +:+ str time_chunk_id.

(** [create_cfmask_clean_mask(data.cf_mask) if 'cf_mask' in data
     else create_bit_mask(data.pixel_qa, [1, 2])]. *)
Definition clear_mask_of (data : Dataset) : res Mask :=
  match data !! "cf_mask" with
  | Some cf_mask => Ok (create_cfmask_clean_mask cf_mask)
  | None =>
      match data !! "pixel_qa" with
      | Some pixel_qa => Ok (create_bit_mask pixel_qa [1; 2])
      | None => Raise AttributeError
      end
  end.

(** The nested helper [_compute_mosaic(time)]; the query is recorded in
    the world. *)
Definition _compute_mosaic (updated_params : Parameters) (time0 : datetime * datetime)
    (w : W) : res (option (Dataset * Metadata) * W) :=
  let updated_params := set_time updated_params time0 in
  let w := mkWorld (task w) (fs w) (updated_params :: fetched w) (canvas w) in
  match usable (get_dataset_by_extent updated_params) with
  | None => Ok (None, w)
  | Some data =>
      let* clear_mask := clear_mask_of data in
      let metadata := metadata_from_dataset ∅ data clear_mask updated_params in
      Ok (Some (processing_method data clear_mask, metadata), w)
  end.

Definition processing_task (geo_chunk_id time_chunk_id : nat)
    (geographic_chunk : GeographicChunk) (time_chunk : TimeChunk)
    (parameters : Parameters) (w : W) : res (option ChunkResult * W) :=
  let chunk := chunk_id geo_chunk_id time_chunk_id in
  if negb (os_path_exists (fs w) (temp_path (task w))) then Ok (None, w)
  else
    let* starting_year := _get_datetime_range_containing (fst time_chunk) in
    let* comparison_year := _get_datetime_range_containing (snd time_chunk) in
    let updated_params := update_geographic parameters geographic_chunk in
    let* (old, w) := _compute_mosaic updated_params starting_year w in
    let* (new, w) := _compute_mosaic updated_params comparison_year w in
    match old, new with
    | Some (old_mosaic, old_metadata), Some (new_mosaic, new_metadata) =>
        let metadata : Metadata := new_metadata ∪ old_metadata in
        let output_product := compute_coastal_change old_mosaic new_mosaic in
        let w := with_task increment_scenes_processed w in
        let path := os_path_join (temp_path (task w)) (chunk +:+ ".nc") in
        let w := with_fs (λ f, write_file f path (NetCDF output_product)) w in
        Ok (Some (mkChunk path metadata geo_chunk_id time_chunk_id), w)
    | _, _ => Ok (None, w)
    end.

(** *** recombine_geographic_chunks *)

(** The loop that merges the metadata and opens every chunk's artifact. *)
Fixpoint open_chunks (f : FS) (metadata : Metadata) (chunk_data : list Dataset)
    (total_chunks : list ChunkResult) : res (Metadata * list Dataset) :=
  match total_chunks with
  | [] => Ok (metadata, chunk_data)
  | chunk :: rest =>
      let metadata := combine_metadata metadata (cr_metadata chunk) in
      let* data := open_dataset f (cr_path chunk) in
      open_chunks f metadata (chunk_data ++ [data]) rest
  end.

Definition recombine_geographic_chunks (chunks : chunks_arg) (w : W)
  : res (ChunkResult * W) :=
  let total_chunks := drop_none (as_list chunks) in
  let* chunk0 := Py.first total_chunks in
  let geo_chunk_id := cr_geo_chunk_id chunk0 in
  let time_chunk_id := cr_time_chunk_id chunk0 in
  let* (metadata, chunk_data) := open_chunks (fs w) ∅ [] total_chunks in
  let combined_data := combine_geographic_chunks chunk_data in
  let w :=
    if negb (String.eqb (animation_id (task w)) "none") then
      let path := os_path_join (temp_path (task w))
                    ("animation_" +:+ str time_chunk_id +:+ ".png") in
      let animated_data :=
        if String.eqb (animation_id (task w)) "coastline_change"
        then mask_mosaic_with_coastlines combined_data
        else mask_mosaic_with_coastal_change combined_data in
      with_fs (λ f, write_file f path (Image animated_data ["red"; "green"; "blue"])) w
    else w in
  let path := os_path_join (temp_path (task w))
                (recombined_geo_name time_chunk_id) in
  let w := with_fs (λ f, write_file f path (NetCDF combined_data)) w in
  Ok (mkChunk path metadata geo_chunk_id time_chunk_id, w).

(** *** recombine_time_chunks *)

(** [sorted(chunks, key=lambda x: x[0]) if isinstance(chunks, list)
     else [chunks]]: the key is the first component of the result
    tuple, the artifact path. *)
Definition total_chunks_by_time (chunks : chunks_arg) : res (list ChunkResult) :=
  match chunks with
  | ResultList l =>
      let* l := all_subscriptable l in
      Ok (sorted cr_path l)
  | ResultSingle c =>
      let* r := subscriptable c in
      Ok [r]
  end.

Definition recombine_time_chunks (chunks : chunks_arg) (w : W)
  : res (ChunkResult * W) :=
  let* total_chunks := total_chunks_by_time chunks in
  let* chunk0 := Py.first total_chunks in
  let geo_chunk_id := cr_geo_chunk_id chunk0 in
  let time_chunk_id := cr_time_chunk_id chunk0 in
  let metadata := update_all ∅ total_chunks in
  let* final := Py.last total_chunks in
  Ok (mkChunk (cr_path final) metadata geo_chunk_id time_chunk_id, w).

(** *** run *)

(** The chain [validate_parameters | perform_task_chunking |
    start_chunk_processing] of [run], applied to parsed parameters:
    every stage receives the previous stage's return value. *)
Definition run_chain (parameters : Parameters) (w : W) : res (option bool * W) :=
  let* (validated, w) := validate_parameters parameters w in
  let* (chunk_details, w) := perform_task_chunking validated w in
  start_chunk_processing chunk_details w.

(** *** The queue *)

(** What the queue delivers to a worker once the canvas is dispatched:
    a chunk job of the canvas, or a fan-in call with the results of
    its group.  The worker task is declared with [acks_late=True]: a
    job is acknowledged after it has run, so the queue may deliver it
    again. *)
Inductive delivery : Type :=
| Process (job : Job Parameters TimeChunk)
| RecombineGeographic (chunks : chunks_arg)
| RecombineTime (chunks : chunks_arg).

(** One delivery that runs to its return. *)
Inductive step : W → delivery → W → Prop :=
| step_process w groups job r w' :
    canvas w = Some groups →
    job ∈ concat groups →
    processing_task (job_geo_chunk_id job) (job_time_chunk_id job)
                    (job_geographic_chunk job) (job_time_chunk job)
                    (job_parameters job) w = Ok (r, w') →
    step w (Process job) w'
| step_recombine_geographic w chunks r w' :
    recombine_geographic_chunks chunks w = Ok (r, w') →
    step w (RecombineGeographic chunks) w'
| step_recombine_time w chunks r w' :
    recombine_time_chunks chunks w = Ok (r, w') →
    step w (RecombineTime chunks) w'.

Inductive run : W → list delivery → W → Prop :=
| run_nil w : run w [] w
| run_cons w d w1 ds w' : step w d w1 → run w1 ds w' → run w (d :: ds) w'.

(** The chunk jobs among the deliveries, in delivery order. *)
Fixpoint processed (ds : list delivery) : list (Job Parameters TimeChunk) :=
  match ds with
  | [] => []
  | Process job :: ds' => job :: processed ds'
  | _ :: ds' => processed ds'
  end.
End Pipeline.

(** A time chunk and the world of the coastal-change pipeline. *)
Abbreviation TimeChunk := (list datetime * list datetime)%type.
Abbreviation W := (World Task Parameters TimeChunk).
End CoastalChange.

(* ===================================================================== *)
(** ** apps/water_detection/tasks.py *)
(* ===================================================================== *)

Module WaterDetection.
Section Pipeline.
Context `{Raster}.

(** The parameter [dict] built by [parse_parameters_from_task]. *)
Record Parameters : Type := mkParams {
  platforms : list string;
  products : list string;
  time : datetime * datetime;
  longitude : Coord * Coord;
  latitude : Coord * Coord;
  measurements : list string;
}.

(** The [WaterDetectionTask] row: the fields and model methods the
    stages read ([animated_product.animation_id],
    [animated_product.data_variable], [get_temp_path()],
    [get_chunk_size()], [get_iterative()], [get_reverse_time()]) and
    the fields they write. *)
Record Task : Type := mkTask {
  animation_id : string;
  data_variable : string;
  temp_path : string;
  chunk_size_time : option Z;
  chunk_size_geographic : option Coord;
  iterative : bool;
  reverse_time : bool;
  status : string;
  message : string;
  complete : bool;
  total_scenes : Z;
  scenes_processed : Z;
}.

(** A time chunk is a list of acquisition dates. *)
Abbreviation TimeChunk := (list datetime).

Abbreviation W := (World Task Parameters TimeChunk).

(** The return value of [perform_task_chunking]. *)
Record ChunkDetails : Type := mkDetails {
  cd_parameters : Parameters;
  cd_geographic_chunks : list GeographicChunk;
  cd_time_chunks : list TimeChunk;
}.

(** The collaborators imported from [utils] and the model methods that
    compute. *)
Class Collaborators : Type := {
  list_combined_acquisition_dates : Parameters → list datetime;
  validate_measurements : string → list string → bool;
  get_stacked_datasets_by_extent : Parameters → option Dataset;
  create_cfmask_clean_mask : DataArray → Mask;
  create_bit_mask : DataArray → list Z → Mask;
  metadata_from_dataset : Metadata → Dataset → Mask → Parameters → Metadata;
  processing_method : Dataset → Mask → Dataset;
  perform_timeseries_analysis : Dataset → string → option Dataset → Dataset;
  isel_time0 : Dataset → Dataset;
  combine_metadata : Metadata → Metadata → Metadata;
  create_geographic_chunks :
    Coord * Coord → Coord * Coord → option Coord → list GeographicChunk;
  create_time_chunks : list datetime → bool → option Z → list TimeChunk;
  combine_geographic_chunks : list Dataset → Dataset;
}.
Context `{Collaborators}.

(** *** Field updates *)

Definition set_time (p : Parameters) (t : datetime * datetime) : Parameters :=
  mkParams (platforms p) (products p) t (longitude p) (latitude p) (measurements p).

Definition set_measurements (p : Parameters) (m : list string) : Parameters :=
  mkParams (platforms p) (products p) (time p) (longitude p) (latitude p) m.

(** [params.update(geographic_chunk)]. *)
Definition update_geographic (p : Parameters) (g : GeographicChunk) : Parameters :=
  mkParams (platforms p) (products p) (time p) (gc_longitude g) (gc_latitude g)
           (measurements p).

(** [task.update_status(status, message)]. *)
Definition update_status (st msg : string) (t : Task) : Task :=
  mkTask (animation_id t) (data_variable t) (temp_path t)
         (chunk_size_time t) (chunk_size_geographic t) (iterative t) (reverse_time t)
         st msg (complete t) (total_scenes t) (scenes_processed t).

Definition set_complete (b : bool) (t : Task) : Task :=
  mkTask (animation_id t) (data_variable t) (temp_path t)
         (chunk_size_time t) (chunk_size_geographic t) (iterative t) (reverse_time t)
         (status t) (message t) b (total_scenes t) (scenes_processed t).

Definition set_counters (total processed : Z) (t : Task) : Task :=
  mkTask (animation_id t) (data_variable t) (temp_path t)
         (chunk_size_time t) (chunk_size_geographic t) (iterative t) (reverse_time t)
         (status t) (message t) (complete t) total processed.

(** [task.scenes_processed = F('scenes_processed') + 1; task.save()]:
    the increment is evaluated by the database on the stored row. *)
Definition increment_scenes_processed (t : Task) : Task :=
  set_counters (total_scenes t) (scenes_processed t + 1) t.

Definition with_task (f : Task → Task) (w : W) : W :=
  mkWorld (f (task w)) (fs w) (fetched w) (canvas w).

Definition with_fs (f : FS → FS) (w : W) : W :=
  mkWorld (task w) (f (fs w)) (fetched w) (canvas w).

(** [(task.get_chunk_size()['time'] if ... is not None else 1)]. *)
Definition time_chunk_size_or_1 (t : Task) : Z := default 1 (chunk_size_time t).

(** *** validate_parameters *)

Definition default_measurements : list string :=
  ["blue"; "green"; "red"; "nir"; "swir1"; "swir2"; "pixel_qa"].

Definition validate_parameters (parameters : Parameters) (w : W)
  : res (option Parameters * W) :=
  let acquisitions := list_combined_acquisition_dates parameters in
  if (Z.of_nat (length acquisitions) <? 1)%Z then
    Ok (None,
        with_task (λ t, update_status "ERROR"
          "There are no acquistions for this parameter set."
          (set_complete true t)) w)
  else
    let w := with_task (update_status "WAIT" "Validated parameters.") w in
    let* product0 := Py.first (products parameters) in
    let parameters :=
      if validate_measurements product0 (measurements parameters)
      then parameters
      else set_measurements parameters default_measurements in
    Ok (Some parameters, w).

(** *** perform_task_chunking *)

Definition perform_task_chunking (parameters : option Parameters) (w : W)
  : res (option ChunkDetails * W) :=
  match parameters with
  | None => Ok (None, w)
  | Some parameters =>
      let dates := list_combined_acquisition_dates parameters in
      let geographic_chunks :=
        create_geographic_chunks (longitude parameters) (latitude parameters)
                                 (chunk_size_geographic (task w)) in
      let time_chunks :=
        create_time_chunks dates (reverse_time (task w)) (chunk_size_time (task w)) in
      Ok (Some (mkDetails parameters geographic_chunks time_chunks),
          with_task (update_status "WAIT" "Chunked parameter set.") w)
  end.

(** *** start_chunk_processing *)

Definition build_canvas (d : ChunkDetails) : list (list (Job Parameters TimeChunk)) :=
  (λ '(time_index, time_chunk),
     (λ '(geo_index, geographic_chunk),
        mkJob geo_index time_index geographic_chunk time_chunk (cd_parameters d))
     <$> enumerate (cd_geographic_chunks d))
  <$> enumerate (cd_time_chunks d).

Definition start_chunk_processing (chunk_details : option ChunkDetails) (w : W)
  : res (option bool * W) :=
  match chunk_details with
  | None => Ok (None, w)
  | Some d =>
      let total :=
        Z.of_nat (length (cd_geographic_chunks d))
        * Z.of_nat (length (cd_time_chunks d))
        * time_chunk_size_or_1 (task w) in
      let t := update_status "WAIT" "Starting processing."
                 (set_counters total 0 (task w)) in
      Ok (Some true, mkWorld t (fs w) (fetched w) (Some (build_canvas d)))
  end.

(** *** processing_task *)

Definition chunk_id (geo_chunk_id time_chunk_id : nat) : string :=
  str geo_chunk_id +:+ "_" +:+ str time_chunk_id.

Definition clear_mask_of (data : Dataset) : res Mask :=
  match data !! "cf_mask" with
  | Some cf_mask => Ok (create_cfmask_clean_mask cf_mask)
  | None =>
      match data !! "pixel_qa" with
      | Some pixel_qa => Ok (create_bit_mask pixel_qa [1; 2])
      | None => Raise AttributeError
      end
  end.

(** Whether the data cube answers the query with a usable cube. *)
Definition has_data (q : Parameters) : bool :=
  bool_decide (is_Some (usable (get_stacked_datasets_by_extent q))).

(** [map(_get_datetime_range_containing, time_chunk)]: every date is
    passed alone. *)
Fixpoint ranges_of_dates (time_chunk : list datetime) : res (list (datetime * datetime)) :=
  match time_chunk with
  | [] => Ok []
  | d :: rest =>
      let* r := _get_datetime_range_containing [d] in
      let* rs := ranges_of_dates rest in
      Ok (r :: rs)
  end.

(** [times]: one range per date of the chunk in iterative mode, else
    the one range from the first to the last date. *)
Definition times_of (t : Task) (time_chunk : TimeChunk) : res (list (datetime * datetime)) :=
  if iterative t then ranges_of_dates time_chunk
  else
    let* a := Py.first time_chunk in
    let* b := Py.last time_chunk in
    let* r := _get_datetime_range_containing [a; b] in
    Ok [r].

(** ["animation_{}_{}.nc".format(str(geo_chunk_id), str(step))]. *)
Definition geo_frame_name (geo_chunk_id : nat) (step : Z) : string :=
  "animation_" +:+ str geo_chunk_id +:+ "_" +:+ str_int step +:+ ".nc".

(** One iteration of [for time_index, time in enumerate(times)], on the
    loop variables [water_analysis] and [metadata] and the world. *)
Definition process_time (geo_chunk_id : nat) (base_index : Z)
    (updated_params : Parameters)
    (st : option Dataset * Metadata * W) (time_index : nat)
    (time0 : datetime * datetime) : res (option Dataset * Metadata * W) :=
  let '(water_analysis, metadata, w) := st in
  let updated_params := set_time updated_params time0 in
  let w := mkWorld (task w) (fs w) (updated_params :: fetched w) (canvas w) in
  match usable (get_stacked_datasets_by_extent updated_params) with
  | None => Ok (water_analysis, metadata, w)
  | Some data =>
      let* clear_mask := clear_mask_of data in
      let wofs_data := processing_method data clear_mask in
      let water_analysis := perform_timeseries_analysis wofs_data "wofs" water_analysis in
      let metadata := metadata_from_dataset metadata wofs_data clear_mask updated_params in
      let w :=
        if negb (String.eqb (animation_id (task w)) "none") then
          let path := os_path_join (temp_path (task w))
                        (geo_frame_name geo_chunk_id (base_index + Z.of_nat time_index)) in
          let animated_data :=
            if String.eqb (animation_id (task w)) "scene"
            then isel_time0 wofs_data else water_analysis in
          with_fs (λ f, write_file f path (NetCDF animated_data)) w
        else w in
      let w := with_task increment_scenes_processed w in
      Ok (Some water_analysis, metadata, w)
  end.

Fixpoint process_times (geo_chunk_id : nat) (base_index : Z)
    (updated_params : Parameters)
    (st : option Dataset * Metadata * W)
    (times : list (nat * (datetime * datetime)))
  : res (option Dataset * Metadata * W) :=
  match times with
  | [] => Ok st
  | (time_index, time0) :: rest =>
      let* st := process_time geo_chunk_id base_index updated_params st time_index time0 in
      process_times geo_chunk_id base_index updated_params st rest
  end.

Definition processing_task (geo_chunk_id time_chunk_id : nat)
    (geographic_chunk : GeographicChunk) (time_chunk : TimeChunk)
    (parameters : Parameters) (w : W) : res (option ChunkResult * W) :=
  let chunk := chunk_id geo_chunk_id time_chunk_id in
  if negb (os_path_exists (fs w) (temp_path (task w))) then Ok (None, w)
  else
    let* times := times_of (task w) time_chunk in
    let updated_params := update_geographic parameters geographic_chunk in
    let base_index := time_chunk_size_or_1 (task w) * Z.of_nat time_chunk_id in
    let* (water_analysis, metadata, w) :=
      process_times geo_chunk_id base_index updated_params (None, ∅, w)
                    (enumerate times) in
    match water_analysis with
    | None => Ok (None, w)
    | Some water_analysis =>
        let path := os_path_join (temp_path (task w)) (chunk +:+ ".nc") in
        let w := with_fs (λ f, write_file f path (NetCDF water_analysis)) w in
        Ok (Some (mkChunk path metadata geo_chunk_id time_chunk_id), w)
    end.

(** *** recombine_geographic_chunks *)

Fixpoint open_chunks (f : FS) (metadata : Metadata) (chunk_data : list Dataset)
    (total_chunks : list ChunkResult) : res (Metadata * list Dataset) :=
  match total_chunks with
  | [] => Ok (metadata, chunk_data)
  | chunk :: rest =>
      let metadata := combine_metadata metadata (cr_metadata chunk) in
      let* data := open_dataset f (cr_path chunk) in
      open_chunks f metadata (chunk_data ++ [data]) rest
  end.

(** The inner loop [for chunk in total_chunks] of the animation part:
    the per-step artifacts of the geographic chunks that exist. *)
Fixpoint open_geo_frames (f : FS) (temp : string) (step : Z)
    (animated_data : list Dataset) (total_chunks : list ChunkResult)
  : res (list Dataset) :=
  match total_chunks with
  | [] => Ok animated_data
  | chunk :: rest =>
      let path := os_path_join temp (geo_frame_name (cr_geo_chunk_id chunk) step) in
      if os_path_exists f path then
        let* data := open_dataset f path in
        open_geo_frames f temp step (animated_data ++ [data]) rest
      else open_geo_frames f temp step animated_data rest
  end.

(** ["animation_{}.nc".format(step)] and ["animation_{}.png".format(step)]. *)
Definition frame_name (step : Z) (ext : string) : string :=
  "animation_" +:+ str_int step +:+ ext.

(** The outer loop [for index in range(time chunk size)]. *)
Fixpoint combine_geo_frames (temp : string) (base_index : Z)
    (total_chunks : list ChunkResult) (indices : list Z) (f : FS) : res FS :=
  match indices with
  | [] => Ok f
  | index :: rest =>
      let* animated_data := open_geo_frames f temp (base_index + index) [] total_chunks in
      let path := os_path_join temp (frame_name (base_index + index) ".nc") in
      let f :=
        if (0 <? Z.of_nat (length animated_data))%Z
        then write_file f path (NetCDF (combine_geographic_chunks animated_data))
        else f in
      combine_geo_frames temp base_index total_chunks rest f
  end.

Definition recombine_geographic_chunks (chunks : chunks_arg) (w : W)
  : res (ChunkResult * W) :=
  let total_chunks := drop_none (as_list chunks) in
  let* chunk0 := Py.first total_chunks in
  let geo_chunk_id := cr_geo_chunk_id chunk0 in
  let time_chunk_id := cr_time_chunk_id chunk0 in
  let* (metadata, chunk_data) := open_chunks (fs w) ∅ [] total_chunks in
  let combined_data := combine_geographic_chunks chunk_data in
  let* f :=
    if negb (String.eqb (animation_id (task w)) "none") then
      let base_index := time_chunk_size_or_1 (task w) * Z.of_nat time_chunk_id in
      combine_geo_frames (temp_path (task w)) base_index total_chunks
                         (range (time_chunk_size_or_1 (task w))) (fs w)
    else Ok (fs w) in
  let path := os_path_join (temp_path (task w))
                (recombined_geo_name time_chunk_id) in
  let f := write_file f path (NetCDF combined_data) in
  Ok (mkChunk path metadata geo_chunk_id time_chunk_id,
      mkWorld (task w) f (fetched w) (canvas w)).

(** *** recombine_time_chunks *)

(** [d[k]] (as the target of [+=]) and the attribute [d.k]. *)
Definition getitem (d : Dataset) (k : string) : res DataArray :=
  match d !! k with
  | Some x => Ok x
  | None => Raise KeyError
  end.

Definition getattr (d : Dataset) (k : string) : res DataArray :=
  match d !! k with
  | Some x => Ok x
  | None => Raise AttributeError
  end.

(** The nested function [combine_intermediates]; the updated
    [dataset_intermediate] is returned. *)
Definition combine_intermediates (dataset dataset_intermediate : Dataset) : res Dataset :=
  let* acc := getitem dataset_intermediate "total_data" in
  let* x := getattr dataset "total_data" in
  let dataset_intermediate := <["total_data" := xr_add acc x]> dataset_intermediate in
  let* acc := getitem dataset_intermediate "total_clean" in
  let* x := getattr dataset "total_clean" in
  let dataset_intermediate := <["total_clean" := xr_add acc x]> dataset_intermediate in
  let* total_data := getitem dataset_intermediate "total_data" in
  let* total_clean := getitem dataset_intermediate "total_clean" in
  Ok (<["normalized_data" := xr_div total_data total_clean]> dataset_intermediate).

(** Truth value of [combined_data]: [None] is false, a dataset is true
    when it has variables. *)
Definition truthy (combined_data : option Dataset) : bool :=
  match combined_data with
  | Some d => negb (bool_decide (d = ∅))
  | None => false
  end.

(** The loop of the nested function [generate_animation]. *)
Fixpoint render_frames (t : Task) (base_index : Z) (combined_data : option Dataset)
    (indices : list Z) (f : FS) : res FS :=
  match indices with
  | [] => Ok f
  | index :: rest =>
      let path := os_path_join (temp_path t) (frame_name (base_index + index) ".nc") in
      if os_path_exists f path then
        let* animated_data := open_dataset f path in
        let* animated_data :=
          match combined_data with
          | Some c =>
              if negb (String.eqb (animation_id t) "scene") && truthy combined_data
              then combine_intermediates c animated_data
              else Ok animated_data
          | None => Ok animated_data
          end in
        let path := os_path_join (temp_path t) (frame_name (base_index + index) ".png") in
        let f := write_file f path (Image animated_data [data_variable t]) in
        render_frames t base_index combined_data rest f
      else render_frames t base_index combined_data rest f
  end.

Definition generate_animation (t : Task) (index : nat) (combined_data : option Dataset)
    (f : FS) : res FS :=
  let base_index := time_chunk_size_or_1 t * Z.of_nat index in
  render_frames t base_index combined_data (range (time_chunk_size_or_1 t)) f.

(** One iteration of [for index, chunk in enumerate(total_chunks)], on
    the loop variables [metadata] and [combined_data] and the file
    system. *)
Definition combine_time (t : Task) (st : Metadata * option Dataset * FS)
    (index : nat) (chunk : ChunkResult) : res (Metadata * option Dataset * FS) :=
  let '(metadata, combined_data, f) := st in
  let metadata : Metadata := cr_metadata chunk ∪ metadata in
  let* data := open_dataset f (cr_path chunk) in
  match combined_data with
  | None =>
      let* f :=
        if negb (String.eqb (animation_id t) "none")
        then generate_animation t index combined_data f else Ok f in
      Ok (metadata, Some data, f)
  | Some c =>
      let* c := combine_intermediates data c in
      let* f :=
        if negb (String.eqb (animation_id t) "none")
        then generate_animation t index (Some c) f else Ok f in
      Ok (metadata, Some c, f)
  end.

Fixpoint combine_times (t : Task) (st : Metadata * option Dataset * FS)
    (total_chunks : list (nat * ChunkResult)) : res (Metadata * option Dataset * FS) :=
  match total_chunks with
  | [] => Ok st
  | (index, chunk) :: rest =>
      let* st := combine_time t st index chunk in
      combine_times t st rest
  end.

(** [sorted([chunk for chunk in chunks if chunk is not None],
            key=lambda x: x[0])]: the key is the first component of
    the result tuple, the artifact path. *)
Definition total_chunks_by_time (chunks : chunks_arg) : list ChunkResult :=
  sorted cr_path (drop_none (as_list chunks)).

Definition recombine_time_chunks (chunks : chunks_arg) (w : W)
  : res (ChunkResult * W) :=
  let total_chunks := total_chunks_by_time chunks in
  let* chunk0 := Py.first total_chunks in
  let geo_chunk_id := cr_geo_chunk_id chunk0 in
  let time_chunk_id := cr_time_chunk_id chunk0 in
  let* (metadata, combined_data, f) :=
    combine_times (task w) (∅, None, fs w) (enumerate total_chunks) in
  match combined_data with
  | None => Raise AttributeError
  | Some combined_data =>
      let path := os_path_join (temp_path (task w))
                    ("recombined_time_" +:+ str geo_chunk_id +:+ ".nc") in
      let f := write_file f path (NetCDF combined_data) in
      Ok (mkChunk path metadata geo_chunk_id time_chunk_id,
          mkWorld (task w) f (fetched w) (canvas w))
  end.

(** The accumulator arithmetic of the loop alone: [combined_data] after
    the datasets [ds] have been taken in turn, the first one as it is
    and every later one through [combine_intermediates]. *)
Fixpoint fold_intermediates (combined_data : option Dataset) (ds : list Dataset)
  : res (option Dataset) :=
  match ds with
  | [] => Ok combined_data
  | data :: rest =>
      match combined_data with
      | None => fold_intermediates (Some data) rest
      | Some c =>
          let* c := combine_intermediates data c in
          fold_intermediates (Some c) rest
      end
  end.

(** The sum of band [b] over the datasets [ds], computed from scratch
    in the order of the list; [None] for an empty list or when a
    dataset lacks the band. *)
Definition band_sum (b : string) (ds : list Dataset) : option DataArray :=
  match ds with
  | [] => None
  | d0 :: rest =>
      foldl (λ acc d, match acc, d !! b with
                      | Some a, Some x => Some (xr_add a x)
                      | _, _ => None
                      end) (d0 !! b) rest
  end.

(** [total_data / total_clean] computed from scratch over [ds]. *)
Definition ratio_from_scratch (ds : list Dataset) : option DataArray :=
  match band_sum "total_data" ds, band_sum "total_clean" ds with
  | Some total_data, Some total_clean => Some (xr_div total_data total_clean)
  | _, _ => None
  end.

(** *** run *)

Definition run_chain (parameters : Parameters) (w : W) : res (option bool * W) :=
  let* (validated, w) := validate_parameters parameters w in
  let* (chunk_details, w) := perform_task_chunking validated w in
  start_chunk_processing chunk_details w.

(** *** The queue *)

(** What the queue delivers to a worker once the canvas is dispatched:
    a chunk job of the canvas, or a fan-in call with the results of
    its group.  The worker task is declared with [acks_late=True]: a
    job is acknowledged after it has run, so the queue may deliver it
    again. *)
Inductive delivery : Type :=
| Process (job : Job Parameters TimeChunk)
| RecombineGeographic (chunks : chunks_arg)
| RecombineTime (chunks : chunks_arg).

(** One delivery that runs to its return. *)
Inductive step : W → delivery → W → Prop :=
| step_process w groups job r w' :
    canvas w = Some groups →
    job ∈ concat groups →
    processing_task (job_geo_chunk_id job) (job_time_chunk_id job)
                    (job_geographic_chunk job) (job_time_chunk job)
                    (job_parameters job) w = Ok (r, w') →
    step w (Process job) w'
| step_recombine_geographic w chunks r w' :
    recombine_geographic_chunks chunks w = Ok (r, w') →
    step w (RecombineGeographic chunks) w'
| step_recombine_time w chunks r w' :
    recombine_time_chunks chunks w = Ok (r, w') →
    step w (RecombineTime chunks) w'.

Inductive run : W → list delivery → W → Prop :=
| run_nil w : run w [] w
| run_cons w d w1 ds w' : step w d w1 → run w1 ds w' → run w (d :: ds) w'.

(** The chunk jobs among the deliveries, in delivery order. *)
Fixpoint processed (ds : list delivery) : list (Job Parameters TimeChunk) :=
  match ds with
  | [] => []
  | Process job :: ds' => job :: processed ds'
  | _ :: ds' => processed ds'
  end.
End Pipeline.

(** A time chunk and the world of the water-detection pipeline. *)
Abbreviation TimeChunk := (list datetime).
Abbreviation W := (World Task Parameters TimeChunk).
End WaterDetection.

(* ===================================================================== *)
(** ** [create_output_products]: the result directory *)
(* ===================================================================== *)

Section Products.
Context `{Raster}.

(** A picture: the dataset it was rendered from and the bands shown. *)
Abbreviation Picture := (Dataset * list string)%type.

(** What the finalizers write into the result directory: the dataset as
    NetCDF ([to_netcdf]), as GeoTIFF with the listed bands
    ([write_geotiff_from_xr]), pictures ([write_png_from_xr],
    [write_single_band_png_from_xr]) and the animation with its frames
    in the order they were appended ([imageio.get_writer]). *)
Inductive product : Type :=
| ProductNetCDF (d : Dataset)
| GeoTIFF (d : Dataset) (bands : list string)
| PNG (d : Dataset) (bands : list string)
| GIF (frames : list Picture).

(** The files of the result directory by path. *)
Abbreviation ResultDir := (gmap string product).

(** [imageio.imread(p)]. *)
Definition imread (f : FS) (p : string) : res Picture :=
  match files f !! p with
  | Some (Image d bands) => Ok (d, bands)
  | Some (NetCDF _) => Raise ValueError
  | None => Raise FileNotFoundError
  end.

(** ["animation_{}.png".format(index)]. *)
Definition animation_png (index : Z) : string :=
  "animation_" +:+ str_int index +:+ ".png".

(** The loop of both finalizers inside [imageio.get_writer]:
    [for index in ...: path = os.path.join(temp, "animation_{}.png".format(index));
     if os.path.exists(path): writer.append_data(imageio.imread(path))]. *)
Fixpoint append_frames (f : FS) (temp : string) (indices : list Z)
    (frames : list Picture) : res (list Picture) :=
  match indices with
  | [] => Ok frames
  | index :: rest =>
      let path := os_path_join temp (animation_png index) in
      if os_path_exists f path then
        let* image := imread f path in
        append_frames f temp rest (frames ++ [image])
      else append_frames f temp rest frames
  end.

(** The exceptions of the finalizers: those of the other stages, and
    [NotADirectoryError] of [shutil.rmtree]. *)
Inductive final_exn : Type :=
| Stage (e : exn)
| NotADirectoryError.

(** Whether [path] lies below the directory [p]. *)
Definition below (p path : string) : bool :=
  String.prefix (if endswith_sep p then p else p +:+ "/") path.

(** [shutil.rmtree(p)]: the directory [p] goes with everything below
    it; a path that does not exist and a path that is a plain file
    raise. *)
Definition rmtree (f : FS) (p : string) : final_exn + FS :=
  if bool_decide (p ∈ dirs f) then
    inr (mkFS (filter (λ d, d ≠ p ∧ below p d = false) (dirs f))
              (filter (λ kv : string * file, below p kv.1 = false) (files f)))
  else if bool_decide (is_Some (files f !! p)) then inl NotADirectoryError
  else inl (Stage FileNotFoundError).
End Products.

(** A picture and the result directory. *)
Abbreviation Picture := (Dataset * list string)%type.
Abbreviation ResultDir := (gmap string product).

Module CoastalChangeProducts.
Section Finalizer.
Context `{Raster}.
Context `{CoastalChange.Collaborators}.
Import CoastalChange.

(** The fields of the [CoastalChangeTask] row the finalizer assigns. *)
Record Results : Type := mkResults {
  result_path : string;
  result_coastal_change_path : string;
  result_mosaic_path : string;
  data_path : string;
  data_netcdf_path : string;
  animation_path : string;
}.

(** [dataset.astype(dtype)]; the model methods
    [final_metadata_from_dataset], [metadata_from_dict] and
    [update_bounds_from_dataset] only assign row fields that no stage
    reads and are left out. *)
Class Output : Type := {
  astype : string → Dataset → Dataset;
}.
Context `{Output}.

Definition geotiff_bands (dataset : Dataset) : list string :=
  if bool_decide (is_Some (dataset !! "cf_mask")) then
    ["blue"; "green"; "red"; "nir"; "swir1"; "swir2"; "cf_mask";
     "coastal_change"; "coastline_old"; "coastline_new"]
  else
    ["blue"; "green"; "red"; "nir"; "swir1"; "swir2"; "pixel_qa";
     "coastal_change"; "coastline_old"; "coastline_new"].

Definition png_bands : list string := ["red"; "green"; "blue"].

(** Everything the finalizer does before [shutil.rmtree];
    [result_dir] is [task.get_result_path()]. *)
Definition write_products (data : ChunkResult) (result_dir : string)
    (w : W) (out : ResultDir) : res (W * ResultDir * Results) :=
  let* dataset := open_dataset (fs w) (cr_path data) in
  let animated := negb (String.eqb (animation_id (task w)) "none") in
  let results :=
    mkResults (os_path_join result_dir "coastline_change.png")
              (os_path_join result_dir "coastal_change.png")
              (os_path_join result_dir "mosaic.png")
              (os_path_join result_dir "data_tif.tif")
              (os_path_join result_dir "data_netcdf.nc")
              (if animated then os_path_join result_dir "animation.gif"
               else EmptyString) in
  let out := <[data_netcdf_path results := ProductNetCDF dataset]> out in
  let out := <[data_path results :=
                 GeoTIFF (astype "int32" dataset) (geotiff_bands dataset)]> out in
  let out := <[result_path results :=
                 PNG (mask_mosaic_with_coastlines dataset) png_bands]> out in
  let out := <[result_coastal_change_path results :=
                 PNG (mask_mosaic_with_coastal_change dataset) png_bands]> out in
  let out := <[result_mosaic_path results := PNG dataset png_bands]> out in
  let* out :=
    if animated then
      let* frames :=
        append_frames (fs w) (temp_path (task w))
                      (range (time_end (task w) - time_start (task w))) [] in
      Ok (<[animation_path results := GIF frames]> out)
    else Ok out in
  let w :=
    with_task (λ t,
      update_status "OK"
        "All products have been generated. Your result will be loaded on the map."
        (set_complete true t)) w in
  Ok (w, out, results).

Definition create_output_products (data : ChunkResult) (result_dir : string)
    (w : W) (out : ResultDir) : final_exn + (bool * W * ResultDir * Results) :=
  match write_products data result_dir w out with
  | Raise e => inl (Stage e)
  | Ok (w, out, results) =>
      match rmtree (fs w) (temp_path (task w)) with
      | inl e => inl e
      | inr f => inr (true, with_fs (λ _, f) w, out, results)
      end
  end.
End Finalizer.
End CoastalChangeProducts.

Module WaterDetectionProducts.
Section Finalizer.
Context `{Raster}.
Context `{WaterDetection.Collaborators}.
Import WaterDetection.

(** The fields of the [WaterDetectionTask] row the finalizer assigns. *)
Record Results : Type := mkResults {
  result_path : string;
  water_observations_path : string;
  clear_observations_path : string;
  data_path : string;
  data_netcdf_path : string;
  animation_path : string;
}.

(** [dataset.astype(dtype)]; the model methods
    [final_metadata_from_dataset], [metadata_from_dict] and
    [update_bounds_from_dataset] only assign row fields that no stage
    reads and are left out. *)
Class Output : Type := {
  astype : string → Dataset → Dataset;
}.
Context `{Output}.

Definition bands : list string := ["normalized_data"; "total_data"; "total_clean"].

(** The loop [for band, band_path in zip(bands, band_paths)]. *)
Definition write_band_pictures (dataset : Dataset) (band_paths : list string)
    (out : ResultDir) : ResultDir :=
  foldl (λ out bp, <[snd bp := PNG dataset [fst bp]]> out) out (zip bands band_paths).

(** Everything the finalizer does before [shutil.rmtree];
    [result_dir] is [task.get_result_path()]. *)
Definition write_products (data : ChunkResult) (result_dir : string)
    (w : W) (out : ResultDir) : res (W * ResultDir * Results) :=
  let full_metadata := cr_metadata data in
  let* dataset := open_dataset (fs w) (cr_path data) in
  let dataset := astype "float64" dataset in
  let animated := negb (String.eqb (animation_id (task w)) "none") in
  let results :=
    mkResults (os_path_join result_dir "water_percentage.png")
              (os_path_join result_dir "water_observations.png")
              (os_path_join result_dir "clear_observations.png")
              (os_path_join result_dir "data_tif.tif")
              (os_path_join result_dir "data_netcdf.nc")
              (if animated then os_path_join result_dir "animation.gif"
               else EmptyString) in
  let band_paths :=
    [result_path results; water_observations_path results;
     clear_observations_path results] in
  let out := <[data_netcdf_path results := ProductNetCDF dataset]> out in
  let out := <[data_path results := GeoTIFF dataset bands]> out in
  let out := write_band_pictures dataset band_paths out in
  let* out :=
    if animated then
      let valid_range := range (Z.of_nat (size full_metadata)) in
      let* frames := append_frames (fs w) (temp_path (task w)) valid_range [] in
      Ok (<[animation_path results := GIF frames]> out)
    else Ok out in
  let w :=
    with_task (λ t,
      update_status "OK"
        "All products have been generated. Your result will be loaded on the map."
        (set_complete true t)) w in
  Ok (w, out, results).

Definition create_output_products (data : ChunkResult) (result_dir : string)
    (w : W) (out : ResultDir) : final_exn + (bool * W * ResultDir * Results) :=
  match write_products data result_dir w out with
  | Raise e => inl (Stage e)
  | Ok (w, out, results) =>
      match rmtree (fs w) (temp_path (task w)) with
      | inl e => inl e
      | inr f => inr (true, with_fs (λ _, f) w, out, results)
      end
  end.
End Finalizer.
End WaterDetectionProducts.

(* ===================================================================== *)
(** ** [parse_parameters_from_task] and [run] *)
(* ===================================================================== *)

(** A row of [Satellite]. *)
Record Satellite : Type := mkSatellite {
  datacube_platform : string;
  product_prefix : string;
}.

(** The exceptions of [run]'s chain: [DoesNotExist] and
    [MultipleObjectsReturned] of the ORM's [get], and those of the
    stages. *)
Inductive run_exn : Type :=
| DoesNotExist
| MultipleObjectsReturned
| Python (e : exn).

(** Sequencing of steps that may raise a [run_exn]. *)
Definition and_then {A B} (x : run_exn + A) (f : A → run_exn + B) : run_exn + B :=
  match x with
  | inl e => inl e
  | inr a => f a
  end.

(** A stage of the pipeline as a step of the chain. *)
Definition stage {A} (x : res A) : run_exn + A :=
  match x with
  | Ok a => inr a
  | Raise e => inl (Python e)
  end.

(** [Satellite.objects.get(datacube_platform=platform)]. *)
Definition Satellite_objects_get (satellites : list Satellite) (platform : string)
  : run_exn + Satellite :=
  match List.filter (λ s, String.eqb (datacube_platform s) platform) satellites with
  | [] => inl DoesNotExist
  | [s] => inr s
  | _ :: _ :: _ => inl MultipleObjectsReturned
  end.

(** [datetime(year, month, day)] for a month and a day that every year
    has: the year must lie between [MINYEAR] and [MAXYEAR]. *)
Definition datetime_in_year (y m d : Z) : run_exn + datetime :=
  if (1 <=? y) && (y <=? 9999) then inr (datetime_ymd y m d)
  else inl (Python ValueError).

(** [s.split(sep)] for a separator of one character; [current] holds
    the characters read since the last separator. *)
Fixpoint split_from (sep : ascii) (current s : string) : list string :=
  match s with
  | EmptyString => [current]
  | String c rest =>
      if Ascii.eqb c sep then current :: split_from sep EmptyString rest
      else split_from sep (current +:+ String c EmptyString) rest
  end.

Definition split (sep : ascii) (s : string) : list string :=
  split_from sep EmptyString s.

Module CoastalChangeRun.
Section Run.
Context `{Raster}.
Context `{CoastalChange.Collaborators}.
Import CoastalChange.

(** The fields of the [CoastalChangeTask] row that only
    [parse_parameters_from_task] reads. *)
Record Row : Type := mkRow {
  row_platform : string;
  row_area_id : string;
  longitude_min : Coord;
  longitude_max : Coord;
  latitude_min : Coord;
  latitude_max : Coord;
  row_measurements : list string;
}.

Definition parse_parameters_from_task (row : Row) (satellites : list Satellite) (w : W)
  : run_exn + (Parameters * W) :=
  and_then (datetime_in_year (time_start (task w)) 1 1) (λ first,
  and_then (datetime_in_year (time_end (task w)) 12 31) (λ last,
  and_then (Satellite_objects_get satellites (row_platform row)) (λ satellite,
  let parameters :=
    mkParams (row_platform row)
             (product_prefix satellite +:+ row_area_id row)
             (first, last)
             (longitude_min row, longitude_max row)
             (latitude_min row, latitude_max row)
             (row_measurements row) in
  inr (parameters, with_task (update_status "WAIT" "Parsed out parameters.") w)))).

(** The chain of [run]: [parse_parameters_from_task | validate_parameters
    | perform_task_chunking | start_chunk_processing]. *)
Definition run (row : Row) (satellites : list Satellite) (w : W)
  : run_exn + (option bool * W) :=
  and_then (parse_parameters_from_task row satellites w) (λ '(parameters, w),
  stage (run_chain parameters w)).
End Run.
End CoastalChangeRun.

Module WaterDetectionRun.
Section Run.
Context `{Raster}.
Context `{WaterDetection.Collaborators}.
Import WaterDetection.

(** The fields of the [WaterDetectionTask] row that only
    [parse_parameters_from_task] reads. *)
Record Row : Type := mkRow {
  row_platform : string;
  row_area_id : string;
  time_start : datetime;
  time_end : datetime;
  longitude_min : Coord;
  longitude_max : Coord;
  latitude_min : Coord;
  latitude_max : Coord;
  row_measurements : list string;
}.

(** The list comprehension over [parameters['platforms']]. *)
Fixpoint products_of (satellites : list Satellite) (area_id : string)
    (platforms : list string) : run_exn + list string :=
  match platforms with
  | [] => inr []
  | platform :: rest =>
      and_then (Satellite_objects_get satellites platform) (λ satellite,
      and_then (products_of satellites area_id rest) (λ products,
      inr ((product_prefix satellite +:+ area_id) :: products)))
  end.

Definition parse_parameters_from_task (row : Row) (satellites : list Satellite) (w : W)
  : run_exn + (Parameters * W) :=
  let platforms := sorted id (split "," (row_platform row)) in
  and_then (products_of satellites (row_area_id row) platforms) (λ products,
  let parameters :=
    mkParams platforms products
             (time_start row, time_end row)
             (longitude_min row, longitude_max row)
             (latitude_min row, latitude_max row)
             (row_measurements row) in
  inr (parameters, with_task (update_status "WAIT" "Parsed out parameters.") w)).

(** The chain of [run]. *)
Definition run (row : Row) (satellites : list Satellite) (w : W)
  : run_exn + (option bool * W) :=
  and_then (parse_parameters_from_task row satellites w) (λ '(parameters, w),
  stage (run_chain parameters w)).
End Run.
End WaterDetectionRun.

(* ===================================================================== *)
(** ** A small data cube *)
(* ===================================================================== *)

(** Concrete collaborators on which the pipelines can be run: rasters
    of one pixel, a cube with four acquisitions in the years 2000 to
    2002, and analysis functions that count. *)
Module Scenario.

#[local] Instance raster : Raster := {|
  DataArray := Z;
  Mask := unit;
  MetaVal := Z;
  Coord := Z;
  xr_add := Z.add;
  xr_div := Z.div;
|}.

Definition acquisitions : list datetime :=
  [mkdt 2000 3 1 0; mkdt 2001 6 1 0; mkdt 2002 9 1 0; mkdt 2002 12 31 0].

Definition in_window (window : datetime * datetime) (d : datetime) : bool :=
  negb (dt_ltb d (fst window)) && negb (dt_ltb (snd window) d).

Definition cube_in (window : datetime * datetime) : option (gmap string Z) :=
  match List.filter (in_window window) acquisitions with
  | [] => None
  | found =>
      Some (<["time" := Z.of_nat (length found)]>
            (<["pixel_qa" := 0]> (<["red" := 7]> ∅)))
  end.

Definition count_acquisitions (md : gmap string Z) (data : gmap string Z)
  : gmap string Z :=
  <["acquisitions" := default 0 (md !! "acquisitions") + default 0 (data !! "time")]> md.

Definition add_metadata (a b : gmap string Z) : gmap string Z :=
  union_with (λ x y, Some (x + y)) a b.

Definition tile (lon lat : Z * Z) (size : option Z) : list (GeographicChunk) :=
  match size with
  | None => [mkGeo lon lat]
  | Some s => [mkGeo (fst lon, s) lat; mkGeo (s, snd lon) lat]
  end.

Definition mosaic (ds : list (gmap string Z)) : gmap string Z :=
  foldr (λ d acc, union_with (λ x y, Some (x + y)) d acc) ∅ ds.

#[local] Instance coastal : CoastalChange.Collaborators := {|
  CoastalChange.list_acquisition_dates p :=
    List.filter (in_window (CoastalChange.time p)) acquisitions;
  CoastalChange.validate_measurements _ _ := true;
  CoastalChange.get_dataset_by_extent p := cube_in (CoastalChange.time p);
  CoastalChange.create_cfmask_clean_mask _ := tt;
  CoastalChange.create_bit_mask _ _ := tt;
  CoastalChange.metadata_from_dataset md data _ _ := count_acquisitions md data;
  CoastalChange.processing_method data _ := data;
  CoastalChange.compute_coastal_change old new := <["coastal_change" := 1]> new;
  CoastalChange.combine_metadata := add_metadata;
  CoastalChange.create_geographic_chunks := tile;
  CoastalChange.combine_geographic_chunks := mosaic;
  CoastalChange.mask_mosaic_with_coastlines d := d;
  CoastalChange.mask_mosaic_with_coastal_change d := d;
|}.

(** The water analysis of one scene and its accumulation. *)
Definition water_step (wofs : gmap string Z) (previous : option (gmap string Z))
  : gmap string Z :=
  let total_data := default 0 (previous ≫= (.!! "total_data")) + default 0 (wofs !! "red") in
  let total_clean := default 0 (previous ≫= (.!! "total_clean")) + 10 in
  <["total_data" := total_data]>
    (<["total_clean" := total_clean]>
       (<["normalized_data" := total_data / total_clean]> ∅)).

Fixpoint windows_of (size : nat) (current : list datetime) (dates : list datetime)
  : list (list datetime) :=
  match dates with
  | [] => match current with [] => [] | _ => [rev current] end
  | d :: rest =>
      if (length (d :: current) =? size)%nat
      then rev (d :: current) :: windows_of size [] rest
      else windows_of size (d :: current) rest
  end.

Definition time_windows (dates : list datetime) (reversed : bool) (size : option Z)
  : list (list datetime) :=
  let dates := if reversed then rev dates else dates in
  match size with
  | None => [dates]
  | Some n => windows_of (Z.to_nat n) [] dates
  end.

#[local] Instance water : WaterDetection.Collaborators := {|
  WaterDetection.list_combined_acquisition_dates p :=
    List.filter (in_window (WaterDetection.time p)) acquisitions;
  WaterDetection.validate_measurements _ _ := true;
  WaterDetection.get_stacked_datasets_by_extent p := cube_in (WaterDetection.time p);
  WaterDetection.create_cfmask_clean_mask _ := tt;
  WaterDetection.create_bit_mask _ _ := tt;
  WaterDetection.metadata_from_dataset md data _ _ := count_acquisitions md data;
  WaterDetection.processing_method data _ := data;
  WaterDetection.perform_timeseries_analysis wofs _ previous := water_step wofs previous;
  WaterDetection.isel_time0 d := d;
  WaterDetection.combine_metadata := add_metadata;
  WaterDetection.create_geographic_chunks := tile;
  WaterDetection.create_time_chunks := time_windows;
  WaterDetection.combine_geographic_chunks := mosaic;
|}.

(** The temporary directory of task 7, existing and empty. *)
Definition temp : string := "/tmp/7".
Definition empty_temp : FS := mkFS {[temp]} ∅.
(** No temporary directory at all. *)
Definition no_temp : FS := mkFS ∅ ∅.

Definition extent : GeographicChunk := mkGeo (0, 10) (0, 10).

(** A coastal-change task over 2000 to 2002 and its parsed parameters. *)
Definition coastal_task (animation : string) : CoastalChange.Task :=
  CoastalChange.mkTask 2000 2002 animation temp None None
                        "WAIT" "Parsed out parameters." false 0 0.

Definition coastal_parameters (first last : Z) : CoastalChange.Parameters :=
  CoastalChange.mkParams "LANDSAT_7" "ls7_ledaps_area"
    (datetime_ymd first 1 1, datetime_ymd last 12 31) (0, 10) (0, 10)
    ["red"; "pixel_qa"].

Definition coastal_world (animation : string) (f : FS) : CoastalChange.W :=
  mkWorld (coastal_task animation) f [] None.

(** A water-detection task and its parsed parameters. *)
Definition water_task (animation : string) (size : option Z)
  : WaterDetection.Task :=
  WaterDetection.mkTask animation "normalized_data" temp size None true false
                         "WAIT" "Parsed out parameters." false 0 0.

Definition water_parameters (first last : Z) : WaterDetection.Parameters :=
  WaterDetection.mkParams ["LANDSAT_7"] ["ls7_ledaps_area"]
    (datetime_ymd first 1 1, datetime_ymd last 12 31) (0, 10) (0, 10)
    ["red"; "pixel_qa"].

Definition water_world (animation : string) (size : option Z) (f : FS)
  : WaterDetection.W :=
  mkWorld (water_task animation size) f [] None.

(** Scenario A of the coastal-change pipeline with one geographic
    chunk: the chunk plan of the years 2000 and 2002, and its only
    job. *)
Definition dates_2000 : list datetime := [mkdt 2000 3 1 0].
Definition dates_2002 : list datetime := [mkdt 2002 9 1 0; mkdt 2002 12 31 0].

Definition coastal_details : CoastalChange.ChunkDetails :=
  CoastalChange.mkDetails (coastal_parameters 2000 2002) [extent]
                          [(dates_2000, dates_2002)].

Definition coastal_job : Job CoastalChange.Parameters CoastalChange.TimeChunk :=
  mkJob 0%nat 0%nat extent (dates_2000, dates_2002) (coastal_parameters 2000 2002).

(** A time chunk of the water-detection pipeline whose second date has
    no acquisition in the cube. *)
Definition water_dates : list datetime :=
  [mkdt 2000 3 1 0; mkdt 2000 7 1 0; mkdt 2001 6 1 0].

Definition water_details : WaterDetection.ChunkDetails :=
  WaterDetection.mkDetails (water_parameters 2000 2002) [extent] [water_dates].

Definition water_job : Job WaterDetection.Parameters WaterDetection.TimeChunk :=
  mkJob 0%nat 0%nat extent water_dates (water_parameters 2000 2002).

(** Two geo-recombined accumulators in the temporary directory and the
    results that name them. *)
Definition accumulator (total_data total_clean : Z) : gmap string Z :=
  <["total_data" := total_data]>
    (<["total_clean" := total_clean]>
       (<["normalized_data" := total_data / total_clean]> ∅)).

Definition recombined_temp : FS :=
  mkFS {[temp]}
       (<[os_path_join temp (recombined_geo_name 0) := NetCDF (accumulator 3 10)]>
          (<[os_path_join temp (recombined_geo_name 1) := NetCDF (accumulator 5 10)]> ∅)).

Definition recombined (time_chunk_id : nat) (acquisitions : Z) : ChunkResult :=
  mkChunk (os_path_join temp (recombined_geo_name time_chunk_id))
          (<["acquisitions" := acquisitions]> ∅) 0 time_chunk_id.

(** The worlds of a redelivery: after dispatch, after the first
    execution of the only job, and after its second execution. *)
Definition dispatched : CoastalChange.W :=
  snd (value (None, coastal_world "none" empty_temp)
         (CoastalChange.start_chunk_processing (Some coastal_details)
            (coastal_world "none" empty_temp))).

Definition deliver (job : Job CoastalChange.Parameters CoastalChange.TimeChunk)
    (w : CoastalChange.W) : res (option ChunkResult * CoastalChange.W) :=
  CoastalChange.processing_task (job_geo_chunk_id job) (job_time_chunk_id job)
    (job_geographic_chunk job) (job_time_chunk job) (job_parameters job) w.

Definition delivered_once : CoastalChange.W :=
  snd (value (None, dispatched) (deliver coastal_job dispatched)).

Definition delivered_twice : CoastalChange.W :=
  snd (value (None, delivered_once) (deliver coastal_job delivered_once)).

(** The same worlds in the water-detection pipeline. *)
Definition water_dispatched : WaterDetection.W :=
  snd (value (None, water_world "none" (Some 3) empty_temp)
         (WaterDetection.start_chunk_processing (Some water_details)
            (water_world "none" (Some 3) empty_temp))).

Definition water_deliver
    (job : Job WaterDetection.Parameters WaterDetection.TimeChunk)
    (w : WaterDetection.W) : res (option ChunkResult * WaterDetection.W) :=
  WaterDetection.processing_task (job_geo_chunk_id job) (job_time_chunk_id job)
    (job_geographic_chunk job) (job_time_chunk job) (job_parameters job) w.

Definition water_delivered_once : WaterDetection.W :=
  snd (value (None, water_dispatched) (water_deliver water_job water_dispatched)).

(** The world after chunking the task without animation. *)
Definition chunked : CoastalChange.W :=
  snd (value (None, coastal_world "none" empty_temp)
         (CoastalChange.perform_task_chunking (Some (coastal_parameters 2000 2002))
            (coastal_world "none" empty_temp))).

(** The same for the time chunks 2 and 10 of a longer task. *)
Definition late_temp : FS :=
  mkFS {[temp]}
       (<[os_path_join temp (recombined_geo_name 2) := NetCDF (accumulator 3 10)]>
          (<[os_path_join temp (recombined_geo_name 10) := NetCDF (accumulator 5 10)]> ∅)).

(** A water-detection task outside the iterative mode. *)
Definition water_whole_world : WaterDetection.W :=
  mkWorld (WaterDetection.mkTask "none" "normalized_data" temp (Some 3) None false false
             "WAIT" "Parsed out parameters." false 0 0)
          empty_temp [] None.

(** A cube without acquisitions in 2001, and a coastal-change task over
    2000 to 2001 on it. *)
Definition gap_acquisitions : list datetime := [mkdt 2000 3 1 0; mkdt 2002 9 1 0].

Definition gap_coastal : CoastalChange.Collaborators := {|
  CoastalChange.list_acquisition_dates p :=
    List.filter (in_window (CoastalChange.time p)) gap_acquisitions;
  CoastalChange.validate_measurements _ _ := true;
  CoastalChange.get_dataset_by_extent p := cube_in (CoastalChange.time p);
  CoastalChange.create_cfmask_clean_mask _ := tt;
  CoastalChange.create_bit_mask _ _ := tt;
  CoastalChange.metadata_from_dataset md data _ _ := count_acquisitions md data;
  CoastalChange.processing_method data _ := data;
  CoastalChange.compute_coastal_change old new := <["coastal_change" := 1]> new;
  CoastalChange.combine_metadata := add_metadata;
  CoastalChange.create_geographic_chunks := tile;
  CoastalChange.combine_geographic_chunks := mosaic;
  CoastalChange.mask_mosaic_with_coastlines d := d;
  CoastalChange.mask_mosaic_with_coastal_change d := d;
|}.

Definition gap_world : CoastalChange.W :=
  mkWorld (CoastalChange.mkTask 2000 2001 "none" temp None None
             "WAIT" "Parsed out parameters." false 0 0)
          empty_temp [] None.

(** The finalizers on the small data cube: conversions that keep the
    values, the result directory of task 7, and the temporary directory
    at the end of an animated task, holding the last recombined
    artifact and the pictures of three time chunks. *)
#[local] Instance coastal_output : CoastalChangeProducts.Output := {|
  CoastalChangeProducts.astype _ d := d;
|}.

#[local] Instance water_output : WaterDetectionProducts.Output := {|
  WaterDetectionProducts.astype _ d := d;
|}.

Definition result_dir : string := "/results/7".

Definition picture (n : Z) : file := Image (<["red" := n]> ∅) ["red"; "green"; "blue"].

Definition finished_temp : FS :=
  mkFS {[temp]}
       (<[os_path_join temp (recombined_geo_name 1) := NetCDF (accumulator 5 10)]>
          (<[os_path_join temp (animation_png 0) := picture 0]>
             (<[os_path_join temp (animation_png 1) := picture 1]>
                (<[os_path_join temp (animation_png 2) := picture 2]> ∅)))).

(** The satellite table, and the task rows as the parsers read them. *)
Definition satellites : list Satellite :=
  [mkSatellite "LANDSAT_7" "ls7_ledaps_"; mkSatellite "LANDSAT_8" "ls8_lasrc_"].





(** The temporary directory of an animated water-detection task before
    its temporal recombiner runs: the two recombined artifacts and the
    combined frame of step 0. *)
Definition framed_temp : FS :=
  mkFS {[temp]}
       (<[os_path_join temp (WaterDetection.frame_name 0 ".nc") := NetCDF (accumulator 1 10)]>
          (files recombined_temp)).

End Scenario.

(* ===================================================================== *)
(** ** Properties *)
(* ===================================================================== *)

Lemma returns_value {A} (d : A) (x : res A) :
  returns x = true → x = Ok (value d x).
Proof. destruct x; [reflexivity|discriminate]. Qed.

Lemma produced_value {A B} (d : option A * B) (x : res (option A * B)) :
  produced x = true → ∃ r, x = Ok (Some r, snd (value d x)).
Proof. destruct x as [[[r|] w]|]; try discriminate. intros _. exists r. reflexivity. Qed.

Lemma value_pair {A B} (d : A * B) (x : res (A * B)) (a : A) :
  returns x = true → fst (value d x) = a → x = Ok (a, snd (value d x)).
Proof. destruct x as [[a' b]|]; [|discriminate]. simpl. intros _ ->. reflexivity. Qed.

Lemma bind_Ok {A B} (x : res A) (f : A → res B) (b : B) :
  Py.bind x f = Ok b → ∃ a, x = Ok a ∧ f a = Ok b.
Proof. destruct x as [a|e]; simpl; [eauto | discriminate]. Qed.

(** Splits a hypothesis [let* x := c in k = Ok r] into its two steps. *)
Ltac bind_inv H :=
  let a := fresh "a" in
  let Ha := fresh "Hstep" in
  apply bind_Ok in H; destruct H as (a & Ha & H).

Lemma drop_none_all_none {A} (l : list (option A)) :
  Forall (λ c, c = None) l → drop_none l = [].
Proof.
  induction 1 as [|c l -> _ IH]; [reflexivity|]. exact IH.
Qed.

Lemma fmap_snd_enumerate {A B} (f : A → B) (l : list A) :
  (λ it : nat * A, f (snd it)) <$> enumerate l = f <$> l.
Proof.
  unfold enumerate. generalize 0%nat.
  induction l as [|x l IH]; intros n; [reflexivity|].
  simpl. f_equal. apply IH.
Qed.

Lemma ascii_compare_refl (c : ascii) : Ascii.compare c c = Eq.
Proof. unfold Ascii.compare. apply N.compare_refl. Qed.

Lemma append_String (x : ascii) (a b : string) :
  String x a +:+ b = String x (a +:+ b).
Proof. reflexivity. Qed.

Lemma string_ltb_append (p a b : string) :
  String.ltb (p +:+ a) (p +:+ b) = String.ltb a b.
Proof.
  unfold String.ltb. induction p as [|c p IH]; [reflexivity|].
  rewrite !append_String. simpl. rewrite ascii_compare_refl. exact IH.
Qed.

Lemma string_append_assoc (a b c : string) : (a +:+ b) +:+ c = a +:+ (b +:+ c).
Proof.
  induction a as [|x a IH]; [reflexivity|].
  rewrite !append_String, IH. reflexivity.
Qed.

(** Joining a relative name to a directory prepends a prefix that
    depends on the directory only. *)
Lemma os_path_join_relative (temp : string) :
  ∃ prefix, ∀ name, startswith_sep name = false → os_path_join temp name = prefix +:+ name.
Proof.
  destruct (String.eqb temp EmptyString || endswith_sep temp)%bool eqn:Hsep.
  - exists temp. intros name Hrel. unfold os_path_join. rewrite Hrel, Hsep. reflexivity.
  - exists (temp +:+ "/"). intros name Hrel. unfold os_path_join.
    rewrite Hrel, Hsep. symmetry. apply string_append_assoc.
Qed.

(** The artifacts of time chunks 10 and 2 of one task compare as
    strings, not as numbers. *)
Lemma recombined_geo_10_before_2 (temp : string) :
  String.ltb (os_path_join temp (recombined_geo_name 10))
             (os_path_join temp (recombined_geo_name 2)) = true
  ∧ String.ltb (os_path_join temp (recombined_geo_name 2))
               (os_path_join temp (recombined_geo_name 10)) = false.
Proof.
  destruct (os_path_join_relative temp) as [prefix Hjoin].
  rewrite !Hjoin by reflexivity. rewrite !string_ltb_append. split; reflexivity.
Qed.

Lemma length_enumerate {A} (l : list A) : length (enumerate l) = length l.
Proof. unfold enumerate. rewrite length_combine, length_seq. lia. Qed.

Lemma length_concat_uniform {A B} (f : A → list B) (n : nat) (l : list A) :
  (∀ x, length (f x) = n) → length (concat (f <$> l)) = (length l * n)%nat.
Proof.
  intros Hn. induction l as [|x l IH]; [reflexivity|].
  rewrite fmap_cons. simpl. rewrite length_app, Hn, IH. reflexivity.
Qed.

(** Distinct deliveries taken from a pool are no more than the pool. *)
Lemma length_distinct_subset {A} (l pool : list A) :
  NoDup l → (∀ x, x ∈ l → x ∈ pool) → (length l ≤ length pool)%nat.
Proof.
  intros Hnd Hsub. apply submseteq_length, NoDup_submseteq; assumption.
Qed.

Lemma elem_of_concat {A} (x : A) (ls : list (list A)) :
  x ∈ concat ls → ∃ l, x ∈ l ∧ l ∈ ls.
Proof.
  induction ls as [|l ls IH]; simpl; intros Hin; [inversion Hin|].
  apply elem_of_app in Hin as [Hin|Hin].
  - exists l. split; [exact Hin|left].
  - destruct (IH Hin) as (l' & Hx & Hl). exists l'. split; [exact Hx|right; exact Hl].
Qed.

Lemma sum_list_append (l1 l2 : list nat) :
  sum_list (l1 ++ l2) = (sum_list l1 + sum_list l2)%nat.
Proof. induction l1 as [|x l1 IH]; simpl; [reflexivity|]. rewrite IH. lia. Qed.

Lemma sum_list_bounded {A} (f : A → nat) (bound : nat) (l : list A) :
  (∀ x, x ∈ l → (f x ≤ bound)%nat) →
  (sum_list (f <$> l) ≤ length l * bound)%nat.
Proof.
  induction l as [|x l IH]; intros Hb; [simpl; lia|].
  rewrite fmap_cons. simpl.
  pose proof (Hb x (list_elem_of_here _ _)).
  assert (sum_list (f <$> l) ≤ length l * bound)%nat
    by (apply IH; intros y Hy; apply Hb; right; exact Hy).
  lia.
Qed.

(** Up to ten time chunks the two orders agree. *)
Lemma recombined_geo_single_digit_order (temp : string) (a b : nat) :
  (a < 10)%nat → (b < 10)%nat →
  String.ltb (os_path_join temp (recombined_geo_name a))
             (os_path_join temp (recombined_geo_name b)) = (a <? b)%nat.
Proof.
  intros Ha Hb. destruct (os_path_join_relative temp) as [prefix Hjoin].
  rewrite !Hjoin by (do 10 (try destruct a as [|a]); try lia; reflexivity).
  rewrite string_ltb_append.
  do 10 (destruct a as [|a];
         [do 10 (destruct b as [|b]; [reflexivity|]); lia|]).
  lia.
Qed.

Section Claims.
Context {R : Raster}.
Context {coastal : CoastalChange.Collaborators}.
Context {water : WaterDetection.Collaborators}.

(** *** The geographic recombiner on an all-empty group *)

(** C1: when every sibling result of a fan-in group is [None], both
    geographic recombiners evaluate [total_chunks[0]] on the empty
    filtered list: the outcome is the unchecked [IndexError], not an
    all-empty-group signal, and no other outcome is possible. *)
Theorem recombine_geographic_all_none_index_error
    (chunks : chunks_arg)
    (wc : CoastalChange.W) (ww : WaterDetection.W) :
  Forall (λ c, c = None) (as_list chunks) →
  CoastalChange.recombine_geographic_chunks chunks wc = Raise IndexError
  ∧ WaterDetection.recombine_geographic_chunks chunks ww = Raise IndexError.
Proof.
  intros Hnone.
  unfold CoastalChange.recombine_geographic_chunks,
         WaterDetection.recombine_geographic_chunks.
  rewrite (drop_none_all_none _ Hnone). split; reflexivity.
Qed.

(** *** The chunk worker without its temporary directory *)

(** C10: when the task's temporary directory does not exist, both
    chunk workers return [None] and leave the world as it was: no query
    reaches the data cube, no file is written and [scenes_processed] is
    not incremented. *)
Theorem processing_task_without_temp_dir
    (g t : nat) (gc : GeographicChunk)
    (tcc : CoastalChange.TimeChunk) (pc : CoastalChange.Parameters)
    (wc : CoastalChange.W)
    (tcw : WaterDetection.TimeChunk) (pw : WaterDetection.Parameters)
    (ww : WaterDetection.W) :
  (os_path_exists (fs wc) (CoastalChange.temp_path (task wc)) = false →
   CoastalChange.processing_task g t gc tcc pc wc = Ok (None, wc))
  ∧ (os_path_exists (fs ww) (WaterDetection.temp_path (task ww)) = false →
     WaterDetection.processing_task g t gc tcw pw ww = Ok (None, ww)).
Proof.
  split; intros Hmissing.
  - unfold CoastalChange.processing_task. rewrite Hmissing. reflexivity.
  - unfold WaterDetection.processing_task. rewrite Hmissing. reflexivity.
Qed.

(** *** Validation failure *)




(** *** The water-detection chunk worker *)

Lemma water_set_counters_id (t : WaterDetection.Task) :
  WaterDetection.set_counters (WaterDetection.total_scenes t)
    (WaterDetection.scenes_processed t) t = t.
Proof. destruct t; reflexivity. Qed.

Lemma ranges_of_dates_eq (tc : list datetime) :
  WaterDetection.ranges_of_dates tc
  = Ok ((λ d, (sub_microsecond d, add_microsecond d)) <$> tc).
Proof.
  induction tc as [|d tc IH]; [reflexivity|].
  simpl. rewrite IH. reflexivity.
Qed.

(** What one iteration of the sub-range loop does to the world. *)
Lemma process_time_spec (g : nat) (b : Z) (up : WaterDetection.Parameters)
    (i : nat) (tr : datetime * datetime)
    (wa : option Dataset) (md : Metadata) (w : WaterDetection.W)
    (wa' : option Dataset) (md' : Metadata) (w' : WaterDetection.W) :
  WaterDetection.process_time g b up (wa, md, w) i tr = Ok (wa', md', w') →
  let q := WaterDetection.set_time up tr in
  fetched w' = q :: fetched w
  ∧ canvas w' = canvas w
  ∧ (if WaterDetection.has_data q
     then task w' = WaterDetection.increment_scenes_processed (task w)
          ∧ is_Some wa'
     else task w' = task w ∧ wa' = wa ∧ fs w' = fs w).
Proof.
  intros Hstep q. unfold WaterDetection.process_time in Hstep.
  fold q in Hstep. unfold WaterDetection.has_data.
  destruct (usable _) as [data|] eqn:Hdata.
  - bind_inv Hstep. injection Hstep as <- <- <-.
    rewrite bool_decide_true by eauto.
    destruct (negb _); simpl; eauto.
  - injection Hstep as <- <- <-.
    rewrite bool_decide_false by (intros [? ?]; discriminate).
    simpl. eauto.
Qed.

(** What the whole loop does: every sub-range is queried, every usable
    one is folded and counted, and nothing else of the task row
    changes. *)
Lemma process_times_spec (g : nat) (b : Z) (up : WaterDetection.Parameters)
    (times : list (nat * (datetime * datetime)))
    (wa : option Dataset) (md : Metadata) (w : WaterDetection.W)
    (wa' : option Dataset) (md' : Metadata) (w' : WaterDetection.W) :
  WaterDetection.process_times g b up (wa, md, w) times = Ok (wa', md', w') →
  let qs := (λ it, WaterDetection.set_time up (snd it)) <$> times in
  fetched w' = rev qs ++ fetched w
  ∧ canvas w' = canvas w
  ∧ task w' = WaterDetection.set_counters
                (WaterDetection.total_scenes (task w))
                (WaterDetection.scenes_processed (task w)
                 + Z.of_nat (length (List.filter WaterDetection.has_data qs)))
                (task w)
  ∧ (wa' = None ↔ wa = None ∧ List.filter WaterDetection.has_data qs = []).
Proof.
  revert wa md w. induction times as [|[i tr] times IH]; intros wa md w Hrun.
  - simpl in Hrun. injection Hrun as -> -> ->. simpl.
    rewrite Z.add_0_r, water_set_counters_id. repeat split; tauto.
  - simpl in Hrun. bind_inv Hrun. destruct a as [[wa1 md1] w1].
    apply IH in Hrun as (Hf & Hc & Ht & Hwa). clear IH.
    apply process_time_spec in Hstep as (Hf1 & Hc1 & Hdata).
    simpl. rewrite Hf, Hf1, Hc, Hc1, Ht, <- app_assoc. simpl.
    destruct (WaterDetection.has_data _).
    + destruct Hdata as [-> [x ->]]. simpl length.
      split; [reflexivity|]. split; [reflexivity|]. split.
      * unfold WaterDetection.set_counters. simpl. f_equal. unfold fmap. lia.
      * split.
        -- intros Hn. apply Hwa in Hn as [? _]. discriminate.
        -- intros [_ ?]. discriminate.
    + destruct Hdata as (-> & -> & _). repeat split; tauto.
Qed.

(** The worker returns whenever every usable cube carries one of the
    two mask bands it reads. *)
Lemma process_times_returns (g : nat) (b : Z) (up : WaterDetection.Parameters)
    (times : list (nat * (datetime * datetime)))
    (st : option Dataset * Metadata * WaterDetection.W) :
  (∀ q d, usable (WaterDetection.get_stacked_datasets_by_extent q) = Some d →
          is_Some (d !! "cf_mask") ∨ is_Some (d !! "pixel_qa")) →
  ∃ st', WaterDetection.process_times g b up st times = Ok st'.
Proof.
  intros Hmask. revert st. induction times as [|[i tr] times IH]; intros st.
  - eexists. reflexivity.
  - simpl. destruct st as [[wa md] w]. unfold WaterDetection.process_time.
    destruct (usable _) as [data|] eqn:Hdata; [|apply IH].
    unfold WaterDetection.clear_mask_of.
    destruct (Hmask _ _ Hdata) as [[x Hx]|[x Hx]]; rewrite ?Hx.
    + apply IH.
    + destruct (data !! "cf_mask"); apply IH.
Qed.

Lemma iterative_processing_task_returns
    (g t : nat) (gc : GeographicChunk) (tc : WaterDetection.TimeChunk)
    (p : WaterDetection.Parameters) (w : WaterDetection.W) :
  WaterDetection.iterative (task w) = true →
  (∀ q d, usable (WaterDetection.get_stacked_datasets_by_extent q) = Some d →
          is_Some (d !! "cf_mask") ∨ is_Some (d !! "pixel_qa")) →
  ∃ r w', WaterDetection.processing_task g t gc tc p w = Ok (r, w').
Proof.
  intros Hiter Hmask. unfold WaterDetection.processing_task.
  destruct (negb _); [eauto|].
  unfold WaterDetection.times_of. rewrite Hiter, ranges_of_dates_eq. simpl.
  destruct (process_times_returns g
              (WaterDetection.time_chunk_size_or_1 (task w) * Z.of_nat t)
              (WaterDetection.update_geographic p gc)
              (enumerate ((λ d, (sub_microsecond d, add_microsecond d)) <$> tc))
              (None, ∅, w) Hmask) as [[[wa md] w1] ->].
  simpl. destruct wa; eauto.
Qed.

(** C7: in iterative mode the chunk worker queries every sub-range of
    its time chunk, in order, whether or not earlier ones had data (a
    sub-range without data is skipped, the chunk is not aborted); it
    folds and counts exactly the sub-ranges with data; it returns
    [None] exactly when none of them contributed, and otherwise the
    chunk result with the artifact path. *)
Theorem processing_task_skips_empty_subranges
    (g t : nat) (gc : GeographicChunk) (tc : WaterDetection.TimeChunk)
    (p : WaterDetection.Parameters) (w : WaterDetection.W)
    (r : option ChunkResult) (w' : WaterDetection.W) :
  WaterDetection.iterative (task w) = true →
  WaterDetection.processing_task g t gc tc p w = Ok (r, w') →
  ∃ qs : list WaterDetection.Parameters,
    fetched w' = rev qs ++ fetched w
    ∧ (os_path_exists (fs w) (WaterDetection.temp_path (task w)) = true →
       qs = (λ d, WaterDetection.set_time (WaterDetection.update_geographic p gc)
                    (sub_microsecond d, add_microsecond d)) <$> tc)
    ∧ WaterDetection.scenes_processed (task w')
      = WaterDetection.scenes_processed (task w)
        + Z.of_nat (length (List.filter WaterDetection.has_data qs))
    ∧ (r = None ↔ List.filter WaterDetection.has_data qs = [])
    ∧ (List.filter WaterDetection.has_data qs ≠ [] →
       ∃ md, r = Some (mkChunk
                        (os_path_join (WaterDetection.temp_path (task w))
                                      (WaterDetection.chunk_id g t +:+ ".nc"))
                        md g t)).
Proof.
  intros Hiter Hrun. unfold WaterDetection.processing_task in Hrun.
  destruct (os_path_exists _ _) eqn:Htemp; simpl in Hrun.
  - unfold WaterDetection.times_of in Hrun. rewrite Hiter, ranges_of_dates_eq in Hrun.
    simpl in Hrun. bind_inv Hrun. destruct a as [[wa md] w1].
    apply process_times_spec in Hstep as (Hf & Hc & Ht & Hwa). simpl in Hf, Ht, Hwa.
    set (qs := (λ d, WaterDetection.set_time (WaterDetection.update_geographic p gc)
                       (sub_microsecond d, add_microsecond d)) <$> tc).
    assert ((λ it : nat * (datetime * datetime),
               WaterDetection.set_time (WaterDetection.update_geographic p gc) it.2)
              <$> enumerate ((λ d, (sub_microsecond d, add_microsecond d)) <$> tc) = qs)
      as Hqs.
    { rewrite (fmap_snd_enumerate
                 (WaterDetection.set_time (WaterDetection.update_geographic p gc))).
      unfold qs. rewrite <- list_fmap_compose. reflexivity. }
    rewrite Hqs in Hf, Ht, Hwa. exists qs.
    destruct wa as [wa|]; injection Hrun as <- <-; simpl; rewrite Ht; simpl.
    + repeat split; try done.
      * intros Hnone. destruct Hwa as [_ Hwa]. discriminate Hwa. split; done.
      * intros _. eexists. reflexivity.
    + destruct Hwa as [Hwa _]. destruct (Hwa eq_refl) as [_ Hnone].
      repeat split; try done.
  - injection Hrun as <- <-. exists []. simpl. repeat split; try done. lia.
Qed.

(** *** The artifact path of a chunk *)

Lemma compute_mosaic_spec (up : CoastalChange.Parameters) (tr : datetime * datetime)
    (w : CoastalChange.W) (o : option (Dataset * Metadata)) (w' : CoastalChange.W) :
  CoastalChange._compute_mosaic up tr w = Ok (o, w') →
  w' = mkWorld (task w) (fs w) (CoastalChange.set_time up tr :: fetched w) (canvas w).
Proof.
  unfold CoastalChange._compute_mosaic. destruct (usable _).
  - intros Hrun. bind_inv Hrun. injection Hrun as <- <-. reflexivity.
  - intros Hrun. injection Hrun as <- <-. reflexivity.
Qed.

Lemma coastal_processing_task_artifact
    (g t : nat) (gc : GeographicChunk) (tc : CoastalChange.TimeChunk)
    (p : CoastalChange.Parameters) (w : CoastalChange.W)
    (r : ChunkResult) (w' : CoastalChange.W) :
  CoastalChange.processing_task g t gc tc p w = Ok (Some r, w') →
  cr_path r = os_path_join (CoastalChange.temp_path (task w))
                           (CoastalChange.chunk_id g t +:+ ".nc")
  ∧ (∃ d, files (fs w') !! cr_path r = Some (NetCDF d))
  ∧ CoastalChange.temp_path (task w') = CoastalChange.temp_path (task w).
Proof.
  unfold CoastalChange.processing_task. intros Hrun.
  destruct (negb _); [discriminate|].
  bind_inv Hrun. bind_inv Hrun. bind_inv Hrun. destruct a1 as [old w1].
  bind_inv Hrun. destruct a1 as [new w2].
  apply compute_mosaic_spec in Hstep1 as ->. apply compute_mosaic_spec in Hstep2 as ->.
  destruct old as [[? ?]|]; [|discriminate].
  destruct new as [[? ?]|]; [|discriminate].
  injection Hrun as <- <-. simpl. repeat split.
  eexists. apply lookup_insert_eq.
Qed.

Lemma water_processing_task_artifact
    (g t : nat) (gc : GeographicChunk) (tc : WaterDetection.TimeChunk)
    (p : WaterDetection.Parameters) (w : WaterDetection.W)
    (r : ChunkResult) (w' : WaterDetection.W) :
  WaterDetection.processing_task g t gc tc p w = Ok (Some r, w') →
  cr_path r = os_path_join (WaterDetection.temp_path (task w))
                           (WaterDetection.chunk_id g t +:+ ".nc")
  ∧ (∃ d, files (fs w') !! cr_path r = Some (NetCDF d))
  ∧ WaterDetection.temp_path (task w') = WaterDetection.temp_path (task w).
Proof.
  unfold WaterDetection.processing_task. intros Hrun.
  destruct (negb _); [discriminate|].
  bind_inv Hrun. bind_inv Hrun. destruct a0 as [[wa md] w1].
  apply process_times_spec in Hstep0 as (_ & _ & Ht & _).
  destruct wa as [wa|]; [|discriminate].
  injection Hrun as <- <-. simpl. rewrite Ht. simpl. repeat split.
  eexists. apply lookup_insert_eq.
Qed.

(** C9: the artifact of a chunk is written to
    [os.path.join(temp, chunk_id + ".nc")], where [chunk_id] is
    [str(geo) + "_" + str(time)], whatever
    the geographic extent, the dates, the load parameters and the rest
    of the world are: two executions for the same temporary directory
    and the same pair of chunk ids that produce a result write to the
    identical path, and a second execution started from the world the
    first one left finds the first artifact at that path and replaces
    it. *)
Theorem processing_task_artifact_path_deterministic (g t : nat) :
  (∀ gc1 tc1 p1 (w1 : CoastalChange.W) r1 w1' gc2 tc2 p2 (w2 : CoastalChange.W) r2 w2',
     CoastalChange.temp_path (task w1) = CoastalChange.temp_path (task w2) →
     CoastalChange.processing_task g t gc1 tc1 p1 w1 = Ok (Some r1, w1') →
     CoastalChange.processing_task g t gc2 tc2 p2 w2 = Ok (Some r2, w2') →
     cr_path r1 = os_path_join (CoastalChange.temp_path (task w1))
                               (CoastalChange.chunk_id g t +:+ ".nc")
     ∧ cr_path r2 = cr_path r1
     ∧ (∃ d, files (fs w1') !! cr_path r1 = Some (NetCDF d))
     ∧ (∃ d, files (fs w2') !! cr_path r1 = Some (NetCDF d))
     ∧ CoastalChange.temp_path (task w1') = CoastalChange.temp_path (task w1))
  ∧ (∀ gc1 tc1 p1 (w1 : WaterDetection.W) r1 w1' gc2 tc2 p2 (w2 : WaterDetection.W) r2 w2',
       WaterDetection.temp_path (task w1) = WaterDetection.temp_path (task w2) →
       WaterDetection.processing_task g t gc1 tc1 p1 w1 = Ok (Some r1, w1') →
       WaterDetection.processing_task g t gc2 tc2 p2 w2 = Ok (Some r2, w2') →
       cr_path r1 = os_path_join (WaterDetection.temp_path (task w1))
                                 (WaterDetection.chunk_id g t +:+ ".nc")
       ∧ cr_path r2 = cr_path r1
       ∧ (∃ d, files (fs w1') !! cr_path r1 = Some (NetCDF d))
       ∧ (∃ d, files (fs w2') !! cr_path r1 = Some (NetCDF d))
       ∧ WaterDetection.temp_path (task w1') = WaterDetection.temp_path (task w1)).
Proof.
  split.
  - intros gc1 tc1 p1 w1 r1 w1' gc2 tc2 p2 w2 r2 w2' Htemp H1 H2.
    apply coastal_processing_task_artifact in H1 as (Hp1 & Hf1 & Ht1).
    apply coastal_processing_task_artifact in H2 as (Hp2 & Hf2 & Ht2).
    rewrite <- Htemp in Hp2.
    assert (cr_path r2 = cr_path r1) as Heq by congruence.
    rewrite Heq in Hf2. auto.
  - intros gc1 tc1 p1 w1 r1 w1' gc2 tc2 p2 w2 r2 w2' Htemp H1 H2.
    apply water_processing_task_artifact in H1 as (Hp1 & Hf1 & Ht1).
    apply water_processing_task_artifact in H2 as (Hp2 & Hf2 & Ht2).
    rewrite <- Htemp in Hp2.
    assert (cr_path r2 = cr_path r1) as Heq by congruence.
    rewrite Heq in Hf2. auto.
Qed.

(** *** The temporal recombiner of the water-detection pipeline *)

Lemma combine_intermediates_spec (d c c' : Dataset) :
  WaterDetection.combine_intermediates d c = Ok c' →
  ∃ a x a2 x2,
    c !! "total_data" = Some a ∧ d !! "total_data" = Some x
    ∧ c !! "total_clean" = Some a2 ∧ d !! "total_clean" = Some x2
    ∧ c' = <["normalized_data" := xr_div (xr_add a x) (xr_add a2 x2)]>
             (<["total_clean" := xr_add a2 x2]> (<["total_data" := xr_add a x]> c)).
Proof.
  unfold WaterDetection.combine_intermediates,
         WaterDetection.getitem, WaterDetection.getattr.
  intros Hrun.
  destruct (c !! "total_data") as [a|] eqn:Ha; [|discriminate].
  destruct (d !! "total_data") as [x|] eqn:Hx; [|discriminate].
  simpl in Hrun. rewrite lookup_insert_ne in Hrun by discriminate.
  destruct (c !! "total_clean") as [a2|] eqn:Ha2; [|discriminate].
  destruct (d !! "total_clean") as [x2|] eqn:Hx2; [|discriminate].
  simpl in Hrun. rewrite lookup_insert_ne, !lookup_insert_eq in Hrun by discriminate.
  simpl in Hrun. injection Hrun as <-. eauto 10.
Qed.

Lemma band_sum_snoc (b : string) (ds : list Dataset) (d : Dataset) :
  ds ≠ [] →
  WaterDetection.band_sum b (ds ++ [d])
  = match WaterDetection.band_sum b ds, d !! b with
    | Some a, Some x => Some (xr_add a x)
    | _, _ => None
    end.
Proof.
  destruct ds as [|d0 ds]; [done|]. intros _. simpl. rewrite foldl_snoc. reflexivity.
Qed.

(** The accumulator carries the sums and, from the first fold step on,
    the ratio of the datasets folded so far. *)
Lemma fold_intermediates_from (ds2 ds1 : list Dataset) (c : Dataset)
    (acc : option Dataset) :
  ds1 ≠ [] →
  c !! "total_data" = WaterDetection.band_sum "total_data" ds1 →
  c !! "total_clean" = WaterDetection.band_sum "total_clean" ds1 →
  ((2 ≤ length ds1)%nat →
   c !! "normalized_data" = WaterDetection.ratio_from_scratch ds1) →
  WaterDetection.fold_intermediates (Some c) ds2 = Ok acc →
  ∃ a, acc = Some a
    ∧ a !! "total_data" = WaterDetection.band_sum "total_data" (ds1 ++ ds2)
    ∧ a !! "total_clean" = WaterDetection.band_sum "total_clean" (ds1 ++ ds2)
    ∧ ((2 ≤ length (ds1 ++ ds2))%nat →
       a !! "normalized_data" = WaterDetection.ratio_from_scratch (ds1 ++ ds2)).
Proof.
  revert ds1 c. induction ds2 as [|d ds2 IH]; intros ds1 c Hne Hd Hc Hn Hrun.
  - simpl in Hrun. injection Hrun as <-. rewrite app_nil_r. eauto.
  - simpl in Hrun. bind_inv Hrun.
    apply combine_intermediates_spec in Hstep
      as (td & x & tc & x2 & Ha & Hx & Ha2 & Hx2 & ->).
    replace (ds1 ++ d :: ds2) with ((ds1 ++ [d]) ++ ds2)
      by (rewrite <- app_assoc; reflexivity).
    apply (IH (ds1 ++ [d])) in Hrun; [exact Hrun|..].
    + destruct ds1; done.
    + rewrite lookup_insert_ne, lookup_insert_ne, lookup_insert_eq by discriminate.
      rewrite band_sum_snoc by done. rewrite <- Hd, Ha, Hx. reflexivity.
    + rewrite lookup_insert_ne, lookup_insert_eq by discriminate.
      rewrite band_sum_snoc by done. rewrite <- Hc, Ha2, Hx2. reflexivity.
    + intros _. rewrite lookup_insert_eq. unfold WaterDetection.ratio_from_scratch.
      rewrite !band_sum_snoc by done. rewrite <- Hd, <- Hc, Ha, Hx, Ha2, Hx2.
      reflexivity.
Qed.

Lemma fold_intermediates_sums (ds : list Dataset) (acc : option Dataset) :
  ds ≠ [] →
  WaterDetection.fold_intermediates None ds = Ok acc →
  ∃ a, acc = Some a
    ∧ a !! "total_data" = WaterDetection.band_sum "total_data" ds
    ∧ a !! "total_clean" = WaterDetection.band_sum "total_clean" ds
    ∧ ((2 ≤ length ds)%nat →
       a !! "normalized_data" = WaterDetection.ratio_from_scratch ds).
Proof.
  destruct ds as [|d0 ds]; [done|]. intros _ Hrun. simpl in Hrun.
  apply (fold_intermediates_from ds [d0] d0) in Hrun; try done.
  simpl. lia.
Qed.

Lemma fold_intermediates_cons (co co1 : option Dataset) (d : Dataset)
    (ds : list Dataset) :
  WaterDetection.fold_intermediates co [d] = Ok co1 →
  WaterDetection.fold_intermediates co (d :: ds)
  = WaterDetection.fold_intermediates co1 ds.
Proof.
  destruct co as [c|]; simpl.
  - destruct (WaterDetection.combine_intermediates d c); simpl; [|discriminate].
    intros [= <-]. reflexivity.
  - intros [= <-]. reflexivity.
Qed.

(** Rendering animation frames only writes pictures: every dataset
    file found afterwards was there before. *)
Lemma render_frames_netcdf (t : WaterDetection.Task) (b : Z) (co : option Dataset)
    (indices : list Z) (f f' : FS) :
  WaterDetection.render_frames t b co indices f = Ok f' →
  ∀ p d, files f' !! p = Some (NetCDF d) → files f !! p = Some (NetCDF d).
Proof.
  revert f. induction indices as [|i indices IH]; intros f Hrun p d Hp.
  - simpl in Hrun. injection Hrun as <-. exact Hp.
  - simpl in Hrun. destruct (os_path_exists f _); [|eauto].
    bind_inv Hrun. bind_inv Hrun.
    specialize (IH _ Hrun p d Hp). unfold write_file in IH. simpl in IH.
    rewrite lookup_insert in IH. case_decide; [discriminate|exact IH].
Qed.

Lemma generate_animation_netcdf (t : WaterDetection.Task) (i : nat)
    (co : option Dataset) (f f' : FS) :
  (if negb (String.eqb (WaterDetection.animation_id t) "none")
   then WaterDetection.generate_animation t i co f else Ok f) = Ok f' →
  ∀ p d, files f' !! p = Some (NetCDF d) → files f !! p = Some (NetCDF d).
Proof.
  destruct (negb _).
  - apply render_frames_netcdf.
  - intros [= <-]. auto.
Qed.

Lemma combine_time_spec (t : WaterDetection.Task) (i : nat) (c : ChunkResult)
    (md : Metadata) (co : option Dataset) (f : FS)
    (md' : Metadata) (co' : option Dataset) (f' : FS) :
  WaterDetection.combine_time t (md, co, f) i c = Ok (md', co', f') →
  md' = cr_metadata c ∪ md
  ∧ (∃ d, files f !! cr_path c = Some (NetCDF d)
        ∧ WaterDetection.fold_intermediates co [d] = Ok co')
  ∧ (∀ p d, files f' !! p = Some (NetCDF d) → files f !! p = Some (NetCDF d)).
Proof.
  unfold WaterDetection.combine_time. intros Hrun. bind_inv Hrun.
  unfold open_dataset in Hstep.
  destruct (files f !! cr_path c) as [[d|]|] eqn:Hfile; try discriminate.
  injection Hstep as <-. destruct co as [c0|].
  - bind_inv Hrun. bind_inv Hrun. injection Hrun as <- <- <-.
    split; [reflexivity|]. split.
    + exists d. simpl. rewrite Hstep. auto.
    + eapply generate_animation_netcdf; eauto.
  - bind_inv Hrun. injection Hrun as <- <- <-.
    split; [reflexivity|]. split.
    + exists d. auto.
    + eapply generate_animation_netcdf; eauto.
Qed.

(** What the loop of the temporal recombiner computes: the metadata is
    updated chunk by chunk, every chunk's artifact is opened as it was
    stored before the loop, and [combined_data] is the fold of these
    datasets. *)
Lemma combine_times_spec (t : WaterDetection.Task) (f0 : FS)
    (cs : list (nat * ChunkResult))
    (md : Metadata) (co : option Dataset) (f : FS)
    (md' : Metadata) (co' : option Dataset) (f' : FS) :
  (∀ p d, files f !! p = Some (NetCDF d) → files f0 !! p = Some (NetCDF d)) →
  WaterDetection.combine_times t (md, co, f) cs = Ok (md', co', f') →
  md' = update_all md (snd <$> cs)
  ∧ (∃ ds, Forall2 (λ c d, files f0 !! cr_path c = Some (NetCDF d)) (snd <$> cs) ds
         ∧ WaterDetection.fold_intermediates co ds = Ok co')
  ∧ (∀ p d, files f' !! p = Some (NetCDF d) → files f0 !! p = Some (NetCDF d)).
Proof.
  revert md co f. induction cs as [|[i c] cs IH]; intros md co f Hsub Hrun.
  - simpl in Hrun. injection Hrun as <- <- <-. split; [reflexivity|]. split; [|exact Hsub].
    exists []. split; [constructor|reflexivity].
  - simpl in Hrun. bind_inv Hrun. destruct a as [[md1 co1] f1].
    apply combine_time_spec in Hstep as (-> & (d & Hd & Hfold) & Hsub1).
    apply IH in Hrun as (-> & (ds & Hds & Hfolds) & Hsub'); [|eauto].
    split; [reflexivity|]. split; [|exact Hsub'].
    exists (d :: ds). split; [constructor; eauto|].
    rewrite (fold_intermediates_cons _ _ _ _ Hfold). exact Hfolds.
Qed.

Lemma combine_times_app (t : WaterDetection.Task)
    (st : Metadata * option Dataset * FS) (l1 l2 : list (nat * ChunkResult)) :
  WaterDetection.combine_times t st (l1 ++ l2)
  = Py.bind (WaterDetection.combine_times t st l1)
            (λ st1, WaterDetection.combine_times t st1 l2).
Proof.
  revert st. induction l1 as [|[i c] l1 IH]; intros st; [reflexivity|].
  simpl. destruct (WaterDetection.combine_time t st i c); simpl; [apply IH|reflexivity].
Qed.

Lemma snd_enumerate {A} (l : list A) : snd <$> enumerate l = l.
Proof.
  rewrite <- (list_fmap_id l) at 2. apply (fmap_snd_enumerate id).
Qed.

Lemma opened_functional (f0 : FS) (cs : list ChunkResult) (ds ds' : list Dataset) :
  Forall2 (λ c d, files f0 !! cr_path c = Some (NetCDF d)) cs ds →
  Forall2 (λ c d, files f0 !! cr_path c = Some (NetCDF d)) cs ds' →
  ds = ds'.
Proof.
  intros Hds. revert ds'. induction Hds as [|c d cs ds Hd _ IH]; intros ds' Hds'.
  - inversion Hds'. reflexivity.
  - inversion Hds' as [|? d' ? ds'' Hd' Hrest]; subst.
    rewrite Hd in Hd'. injection Hd' as <-. f_equal. auto.
Qed.

(** C5: whenever the temporal recombiner of the iterative pipeline
    returns, the datasets [ds] stored at the paths of the chunks it
    processed, in processing order, satisfy: after each step [k] of
    the loop the accumulator's [total_data] and [total_clean] are the
    sums of the bands over the first [k] datasets, and from the first
    fold step on ([k >= 2]) its [normalized_data] is the ratio of
    these two sums recomputed from scratch; the artifact written at
    the returned path is the accumulator after the last step. *)
Theorem temporal_fold_sums_and_ratio
    (chunks : chunks_arg) (w : WaterDetection.W)
    (r : ChunkResult) (w' : WaterDetection.W) :
  WaterDetection.recombine_time_chunks chunks w = Ok (r, w') →
  let cs := WaterDetection.total_chunks_by_time chunks in
  ∃ ds : list Dataset,
    Forall2 (λ c d, files (fs w) !! cr_path c = Some (NetCDF d)) cs ds
    ∧ ds ≠ []
    ∧ (∀ k, (1 ≤ k ≤ length ds)%nat →
         ∃ md acc f,
           WaterDetection.combine_times (task w) (∅, None, fs w) (take k (enumerate cs))
           = Ok (md, Some acc, f)
           ∧ acc !! "total_data" = WaterDetection.band_sum "total_data" (take k ds)
           ∧ acc !! "total_clean" = WaterDetection.band_sum "total_clean" (take k ds)
           ∧ ((2 ≤ k)%nat →
              acc !! "normalized_data" = WaterDetection.ratio_from_scratch (take k ds)))
    ∧ (∃ acc, files (fs w') !! cr_path r = Some (NetCDF acc)
          ∧ acc !! "total_data" = WaterDetection.band_sum "total_data" ds
          ∧ acc !! "total_clean" = WaterDetection.band_sum "total_clean" ds
          ∧ ((2 ≤ length ds)%nat →
             acc !! "normalized_data" = WaterDetection.ratio_from_scratch ds)).
Proof.
  intros Hrun cs. unfold WaterDetection.recombine_time_chunks in Hrun. fold cs in Hrun.
  bind_inv Hrun. rename a into chunk0. bind_inv Hrun. destruct a as [[md co] f].
  pose proof Hstep0 as Hloop.
  apply (combine_times_spec _ (fs w)) in Hstep0 as (Hmd & (ds & Hds & Hfold) & Hsub);
    [|auto].
  rewrite snd_enumerate in Hds.
  assert (ds ≠ []) as Hne.
  { destruct cs; [discriminate|]. inversion Hds. discriminate. }
  exists ds. split; [exact Hds|]. split; [exact Hne|]. split.
  - intros k Hk.
    rewrite <- (take_drop k (enumerate cs)), combine_times_app in Hloop.
    bind_inv Hloop. destruct a as [[mdk cok] fk]. pose proof Hstep0 as Hprefix.
    apply (combine_times_spec _ (fs w)) in Hstep0 as (_ & (dsk & Hdsk & Hfoldk) & _);
      [|auto].
    rewrite fmap_take, snd_enumerate in Hdsk.
    pose proof (opened_functional _ _ _ _ Hdsk (Forall2_take _ _ _ k Hds)) as ->.
    apply fold_intermediates_sums in Hfoldk as (acc & -> & Hd & Hc & Hn).
    + exists mdk, acc, fk. rewrite length_take in Hn.
      split; [exact Hprefix|]. split; [exact Hd|]. split; [exact Hc|].
      intros Hk2. apply Hn. lia.
    + destruct ds; [done|]. destruct k; [lia|]. discriminate.
  - apply fold_intermediates_sums in Hfold as (acc & -> & Hd & Hc & Hn); [|exact Hne].
    injection Hrun as <- <-. exists acc. simpl. unfold write_file. simpl.
    rewrite lookup_insert_eq. auto.
Qed.

(** *** The order of the temporal recombiners *)

(** C2: both temporal recombiners sort the geo-recombined results by
    their first component, the artifact path, compared as a string.
    For the results of time chunks 2 and 10 of one task, in either
    arrival order, chunk 10 is processed before chunk 2; the
    coastal-change recombiner therefore reports the ids of chunk 10
    and returns the artifact of chunk 2 as the last one. *)
Theorem recombine_time_chunks_orders_by_path
    (temp : string) (g : nat) (md2 md10 : Metadata) (wc : CoastalChange.W) :
  let c2 := mkChunk (os_path_join temp (recombined_geo_name 2)) md2 g 2 in
  let c10 := mkChunk (os_path_join temp (recombined_geo_name 10)) md10 g 10 in
  WaterDetection.total_chunks_by_time (ResultList [Some c2; Some c10]) = [c10; c2]
  ∧ WaterDetection.total_chunks_by_time (ResultList [Some c10; Some c2]) = [c10; c2]
  ∧ CoastalChange.total_chunks_by_time (ResultList [Some c2; Some c10]) = Ok [c10; c2]
  ∧ CoastalChange.total_chunks_by_time (ResultList [Some c10; Some c2]) = Ok [c10; c2]
  ∧ CoastalChange.recombine_time_chunks (ResultList [Some c2; Some c10]) wc
    = Ok (mkChunk (cr_path c2) (md2 ∪ (md10 ∪ ∅)) g 10, wc).
Proof.
  intros c2 c10. destruct (recombined_geo_10_before_2 temp) as [Hlt Hge].
  unfold CoastalChange.recombine_time_chunks, CoastalChange.total_chunks_by_time,
         WaterDetection.total_chunks_by_time.
  simpl. rewrite Hlt, Hge. simpl. repeat split; reflexivity.
Qed.

Lemma water_recombine_time_metadata
    (chunks : chunks_arg) (w : WaterDetection.W) (r : ChunkResult)
    (w' : WaterDetection.W) :
  WaterDetection.recombine_time_chunks chunks w = Ok (r, w') →
  cr_metadata r = update_all ∅ (WaterDetection.total_chunks_by_time chunks).
Proof.
  intros Hrun. unfold WaterDetection.recombine_time_chunks in Hrun.
  bind_inv Hrun. bind_inv Hrun. destruct a0 as [[md co] f].
  apply (combine_times_spec _ (fs w)) in Hstep0 as (-> & _ & _); [|auto].
  rewrite snd_enumerate in Hrun. destruct co; [|discriminate].
  injection Hrun as <- <-. reflexivity.
Qed.

(** C6: the temporal recombiners merge metadata by overwriting, in
    their processing order, which is the order of the artifact paths.
    When the results of time chunks 2 and 10 both carry [key], the
    merged metadata holds the value of chunk 2, the earlier temporal
    chunk, not the value of chunk 10. *)
Theorem temporal_metadata_keeps_earlier_chunk
    (temp key : string) (g : nat) (v2 v10 : MetaVal) (m2 m10 : Metadata) :
  let c2 := mkChunk (os_path_join temp (recombined_geo_name 2)) (<[key := v2]> m2) g 2 in
  let c10 := mkChunk (os_path_join temp (recombined_geo_name 10)) (<[key := v10]> m10) g 10 in
  (∀ (wc : CoastalChange.W) r wc',
     CoastalChange.recombine_time_chunks (ResultList [Some c2; Some c10]) wc = Ok (r, wc') →
     cr_metadata r !! key = Some v2)
  ∧ (∀ (ww : WaterDetection.W) r ww',
       WaterDetection.recombine_time_chunks (ResultList [Some c2; Some c10]) ww
       = Ok (r, ww') →
       cr_metadata r !! key = Some v2).
Proof.
  intros c2 c10. destruct (recombined_geo_10_before_2 temp) as [Hlt Hge]. split.
  - intros wc r wc' Hrun.
    unfold CoastalChange.recombine_time_chunks, CoastalChange.total_chunks_by_time in Hrun.
    simpl in Hrun. rewrite Hlt in Hrun. simpl in Hrun. injection Hrun as <- _. simpl.
    apply lookup_union_Some_l, lookup_insert_eq.
  - intros ww r ww' Hrun. apply water_recombine_time_metadata in Hrun as ->.
    unfold WaterDetection.total_chunks_by_time. simpl. rewrite Hlt. simpl.
    apply lookup_union_Some_l, lookup_insert_eq.
Qed.

(** *** Temporal chunking of the coastal-change pipeline *)

Lemma dict_get_grouped (f : Z → list datetime) (ys : list Z) (k : Z) :
  k ∈ ys →
  CoastalChange.dict_get k ((λ y, (y, f y)) <$> ys) = Ok (f k).
Proof.
  induction ys as [|y ys IH]; intros Hin; [inversion Hin|].
  simpl. destruct (Z.eqb_spec y k) as [->|Hne]; [reflexivity|].
  apply IH. apply elem_of_cons in Hin as [->|Hin]; [done|exact Hin].
Qed.

Lemma filter_ne_absent (ys : list Z) (k : Z) :
  k ∉ ys → filter (λ y, y ≠ k) ys = ys.
Proof.
  induction ys as [|y ys IH]; intros Hk; [reflexivity|].
  apply not_elem_of_cons in Hk as [Hne Hk].
  rewrite filter_cons_True by done. rewrite IH by done. reflexivity.
Qed.

Lemma length_filter_ne (ys : list Z) (k : Z) :
  NoDup ys → k ∈ ys → S (length (filter (λ y, y ≠ k) ys)) = length ys.
Proof.
  induction ys as [|y ys IH]; intros Hnd Hin; [inversion Hin|].
  apply NoDup_cons in Hnd as [Hy Hnd]. destruct (decide (y = k)) as [->|Hne].
  - rewrite filter_cons_False by (intros ?; done).
    rewrite filter_ne_absent by done. reflexivity.
  - apply elem_of_cons in Hin as [->|Hin]; [done|].
    rewrite filter_cons_True by done. simpl. rewrite IH by done. reflexivity.
Qed.

Lemma dict_pop_grouped (f : Z → list datetime) (ys : list Z) (k : Z) :
  NoDup ys → k ∈ ys →
  CoastalChange.dict_pop k ((λ y, (y, f y)) <$> ys)
  = Ok (f k, (λ y, (y, f y)) <$> filter (λ y, y ≠ k) ys).
Proof.
  induction ys as [|y ys IH]; intros Hnd Hin; [inversion Hin|].
  apply NoDup_cons in Hnd as [Hy Hnd].
  rewrite fmap_cons. cbn [CoastalChange.dict_pop].
  destruct (Z.eqb_spec y k) as [->|Hne].
  - rewrite filter_cons_False by (intros ?; done).
    rewrite filter_ne_absent by done. reflexivity.
  - apply elem_of_cons in Hin as [->|Hin]; [done|].
    rewrite IH by done. rewrite filter_cons_True by done. reflexivity.
Qed.

(** C3 (amended): with the acquisition dates grouped by year into [P]
    periods, an animated task gets one time chunk [[anchor, other]] for
    every period other than the anchor period [time_start], that is
    [P - 1] chunks; a task without animation gets the single chunk
    [[time_start period, time_end period]], whatever [P] is. *)
Theorem batch_time_chunks_by_animation
    (p : CoastalChange.Parameters) (w : CoastalChange.W) :
  let dates := CoastalChange.list_acquisition_dates p in
  let periods := remove_dups (year <$> dates) in
  let acquired := λ y, filter (λ d, year d = y) dates in
  let anchor := CoastalChange.time_start (task w) in
  anchor ∈ periods →
  (CoastalChange.animation_id (task w) ≠ "none" →
   ∃ d w',
     CoastalChange.perform_task_chunking (Some p) w = Ok (Some d, w')
     ∧ CoastalChange.cd_time_chunks d
       = (λ y, (acquired anchor, acquired y)) <$> filter (λ y, y ≠ anchor) periods
     ∧ S (length (CoastalChange.cd_time_chunks d)) = length periods)
  ∧ (CoastalChange.animation_id (task w) = "none" →
     CoastalChange.time_end (task w) ∈ periods →
     ∃ d w',
       CoastalChange.perform_task_chunking (Some p) w = Ok (Some d, w')
       ∧ CoastalChange.cd_time_chunks d
         = [(acquired anchor, acquired (CoastalChange.time_end (task w)))]).
Proof.
  intros dates periods acquired anchor Hanchor.
  assert (NoDup periods) as Hnd by apply NoDup_remove_dups.
  unfold CoastalChange.perform_task_chunking, CoastalChange.time_chunks_of,
         CoastalChange.group_datetimes_by_year.
  fold dates. fold periods. split.
  - intros Hanim. apply String.eqb_neq in Hanim. rewrite Hanim.
    fold anchor. rewrite (dict_pop_grouped acquired) by done. simpl.
    eexists _, _. split; [reflexivity|]. simpl. split.
    + rewrite <- list_fmap_compose. reflexivity.
    + rewrite !length_fmap. apply length_filter_ne; done.
  - intros Hanim Hend. apply String.eqb_eq in Hanim. rewrite Hanim.
    fold anchor. rewrite !(dict_get_grouped acquired) by done. simpl.
    eexists _, _. split; reflexivity.
Qed.

(** *** The progress counters *)

Lemma coastal_set_counters_id (t : CoastalChange.Task) :
  CoastalChange.set_counters (CoastalChange.total_scenes t)
    (CoastalChange.scenes_processed t) t = t.
Proof. destruct t; reflexivity. Qed.

Lemma coastal_canvas_size (d : CoastalChange.ChunkDetails) :
  length (concat (CoastalChange.build_canvas d))
  = (length (CoastalChange.cd_time_chunks d)
     * length (CoastalChange.cd_geographic_chunks d))%nat.
Proof.
  unfold CoastalChange.build_canvas.
  rewrite (length_concat_uniform _ (length (CoastalChange.cd_geographic_chunks d))).
  - rewrite length_enumerate. reflexivity.
  - intros [i tc]. rewrite length_fmap. apply length_enumerate.
Qed.

(** A chunk job leaves the canvas alone and changes the task row by at
    most one increment of [scenes_processed]. *)
Lemma coastal_processing_task_counters
    (g t : nat) (gc : GeographicChunk) (tc : CoastalChange.TimeChunk)
    (p : CoastalChange.Parameters) (w : CoastalChange.W)
    (r : option ChunkResult) (w' : CoastalChange.W) :
  CoastalChange.processing_task g t gc tc p w = Ok (r, w') →
  canvas w' = canvas w
  ∧ (task w' = task w
     ∨ task w' = CoastalChange.increment_scenes_processed (task w)).
Proof.
  unfold CoastalChange.processing_task. intros Hrun.
  destruct (negb _); [injection Hrun as <- <-; auto|].
  bind_inv Hrun. bind_inv Hrun. bind_inv Hrun. destruct a1 as [old w1].
  bind_inv Hrun. destruct a1 as [new w2].
  apply compute_mosaic_spec in Hstep1 as ->. apply compute_mosaic_spec in Hstep2 as ->.
  destruct old as [[? ?]|]; [|injection Hrun as <- <-; auto].
  destruct new as [[? ?]|]; injection Hrun as <- <-; auto.
Qed.

Lemma coastal_recombine_geographic_task
    (chunks : chunks_arg) (w : CoastalChange.W) (r : ChunkResult)
    (w' : CoastalChange.W) :
  CoastalChange.recombine_geographic_chunks chunks w = Ok (r, w') →
  task w' = task w ∧ canvas w' = canvas w.
Proof.
  unfold CoastalChange.recombine_geographic_chunks. intros Hrun.
  bind_inv Hrun. bind_inv Hrun. destruct a0 as [md data].
  injection Hrun as <- <-. destruct (negb _); auto.
Qed.

Lemma coastal_recombine_time_task
    (chunks : chunks_arg) (w : CoastalChange.W) (r : ChunkResult)
    (w' : CoastalChange.W) :
  CoastalChange.recombine_time_chunks chunks w = Ok (r, w') → w' = w.
Proof.
  unfold CoastalChange.recombine_time_chunks. intros Hrun.
  bind_inv Hrun. bind_inv Hrun. bind_inv Hrun. injection Hrun as <- <-. reflexivity.
Qed.

Lemma coastal_step_counters (w : CoastalChange.W) (d : CoastalChange.delivery)
    (w' : CoastalChange.W) :
  CoastalChange.step w d w' →
  canvas w' = canvas w
  ∧ CoastalChange.total_scenes (task w') = CoastalChange.total_scenes (task w)
  ∧ CoastalChange.scenes_processed (task w)
    ≤ CoastalChange.scenes_processed (task w')
    ≤ CoastalChange.scenes_processed (task w)
      + Z.of_nat (length (CoastalChange.processed [d])).
Proof.
  destruct 1 as [w groups job r w' _ _ Hrun|w chunks r w' Hrun|w chunks r w' Hrun].
  - apply coastal_processing_task_counters in Hrun as (Hc & [Ht|Ht]);
      rewrite Ht; simpl; (split; [exact Hc|]); split; lia.
  - apply coastal_recombine_geographic_task in Hrun as [Ht Hc].
    rewrite Ht. simpl. (split; [exact Hc|]); split; lia.
  - apply coastal_recombine_time_task in Hrun as ->. simpl.
    (split; [reflexivity|]); split; lia.
Qed.

Lemma coastal_run_counters (w : CoastalChange.W) (ds : list CoastalChange.delivery)
    (w' : CoastalChange.W) :
  CoastalChange.run w ds w' →
  canvas w' = canvas w
  ∧ CoastalChange.total_scenes (task w') = CoastalChange.total_scenes (task w)
  ∧ CoastalChange.scenes_processed (task w)
    ≤ CoastalChange.scenes_processed (task w')
    ≤ CoastalChange.scenes_processed (task w)
      + Z.of_nat (length (CoastalChange.processed ds))
  ∧ (∀ groups, canvas w = Some groups →
       ∀ job, job ∈ CoastalChange.processed ds → job ∈ concat groups).
Proof.
  induction 1 as [w|w d w1 ds w' Hstep Hrun (Hc & Ht & Hs & Hjobs)].
  - simpl. repeat split; try lia. intros groups _ job Hjob. inversion Hjob.
  - pose proof (coastal_step_counters _ _ _ Hstep) as (Hc1 & Ht1 & Hs1).
    rewrite Hc, Hc1, Ht, Ht1. split; [reflexivity|]. split; [reflexivity|]. split.
    + assert (length (CoastalChange.processed (d :: ds))
              = (length (CoastalChange.processed [d])
                 + length (CoastalChange.processed ds))%nat) as ->
        by (destruct d; reflexivity).
      lia.
    + intros groups Hgroups job Hjob. rewrite Hc1 in Hjobs.
      destruct Hstep as [w groups' job' r w1 Hcanvas Hin _| |]; simpl in Hjob; eauto.
      apply elem_of_cons in Hjob as [->|Hjob]; [|eauto].
      rewrite Hgroups in Hcanvas. injection Hcanvas as <-. exact Hin.
Qed.

Lemma water_canvas_size (d : WaterDetection.ChunkDetails) :
  length (concat (WaterDetection.build_canvas d))
  = (length (WaterDetection.cd_time_chunks d)
     * length (WaterDetection.cd_geographic_chunks d))%nat.
Proof.
  unfold WaterDetection.build_canvas.
  rewrite (length_concat_uniform _ (length (WaterDetection.cd_geographic_chunks d))).
  - rewrite length_enumerate. reflexivity.
  - intros [i tc]. rewrite length_fmap. apply length_enumerate.
Qed.

Lemma enumerate_elem {A} (l : list A) (i : nat) (x : A) :
  (i, x) ∈ enumerate l → x ∈ l.
Proof.
  intros Hin. rewrite <- (snd_enumerate l).
  apply (list_elem_of_fmap_2 snd) in Hin. exact Hin.
Qed.

Lemma water_canvas_time_chunks (d : WaterDetection.ChunkDetails)
    (job : Job WaterDetection.Parameters WaterDetection.TimeChunk) :
  job ∈ concat (WaterDetection.build_canvas d) →
  job_time_chunk job ∈ WaterDetection.cd_time_chunks d.
Proof.
  unfold WaterDetection.build_canvas. intros Hin.
  apply elem_of_concat in Hin as (group & Hjob & Hgroup).
  apply list_elem_of_fmap in Hgroup as ([i tc] & -> & Htc).
  apply list_elem_of_fmap in Hjob as ([j gc] & -> & _).
  simpl. eapply enumerate_elem; eauto.
Qed.

(** A chunk job leaves the canvas alone and increments
    [scenes_processed] at most once per sub-range of its time chunk. *)
Lemma water_processing_task_counters
    (g t : nat) (gc : GeographicChunk) (tc : WaterDetection.TimeChunk)
    (p : WaterDetection.Parameters) (w : WaterDetection.W)
    (r : option ChunkResult) (w' : WaterDetection.W) :
  WaterDetection.processing_task g t gc tc p w = Ok (r, w') →
  canvas w' = canvas w
  ∧ ∃ k : nat,
      (k ≤ if WaterDetection.iterative (task w) then length tc else 1)%nat
      ∧ task w' = WaterDetection.set_counters
                    (WaterDetection.total_scenes (task w))
                    (WaterDetection.scenes_processed (task w) + Z.of_nat k)
                    (task w).
Proof.
  unfold WaterDetection.processing_task. intros Hrun.
  destruct (negb _).
  { injection Hrun as <- <-. split; [reflexivity|]. exists 0%nat.
    rewrite Z.add_0_r, water_set_counters_id. split; [lia|reflexivity]. }
  bind_inv Hrun. rename a into times. bind_inv Hrun. destruct a as [[wa md] w1].
  apply process_times_spec in Hstep0 as (_ & Hc & Ht & _).
  assert (length times = if WaterDetection.iterative (task w) then length tc else 1%nat)
    as Hlen.
  { unfold WaterDetection.times_of in Hstep.
    destruct (WaterDetection.iterative (task w)).
    - rewrite ranges_of_dates_eq in Hstep. injection Hstep as <-. apply length_fmap.
    - bind_inv Hstep. bind_inv Hstep. bind_inv Hstep. injection Hstep as <-. reflexivity. }
  assert (canvas w' = canvas w1 ∧ task w' = task w1) as [Hcw Htw]
    by (destruct wa; injection Hrun as <- <-; auto).
  rewrite Hcw, Htw. split; [exact Hc|]. eexists. split; [|exact Ht].
  etransitivity; [apply List.filter_length_le|].
  rewrite length_fmap, length_enumerate, Hlen. reflexivity.
Qed.

Lemma water_recombine_geographic_task
    (chunks : chunks_arg) (w : WaterDetection.W) (r : ChunkResult)
    (w' : WaterDetection.W) :
  WaterDetection.recombine_geographic_chunks chunks w = Ok (r, w') →
  task w' = task w ∧ canvas w' = canvas w.
Proof.
  unfold WaterDetection.recombine_geographic_chunks. intros Hrun.
  bind_inv Hrun. bind_inv Hrun. destruct a0 as [md data]. bind_inv Hrun.
  injection Hrun as <- <-. auto.
Qed.

Lemma water_recombine_time_task
    (chunks : chunks_arg) (w : WaterDetection.W) (r : ChunkResult)
    (w' : WaterDetection.W) :
  WaterDetection.recombine_time_chunks chunks w = Ok (r, w') →
  task w' = task w ∧ canvas w' = canvas w.
Proof.
  unfold WaterDetection.recombine_time_chunks. intros Hrun.
  bind_inv Hrun. bind_inv Hrun. destruct a0 as [[md co] f].
  destruct co; [|discriminate]. injection Hrun as <- <-. auto.
Qed.

Lemma water_step_counters (w : WaterDetection.W) (d : WaterDetection.delivery)
    (w' : WaterDetection.W) :
  WaterDetection.step w d w' →
  canvas w' = canvas w
  ∧ WaterDetection.total_scenes (task w') = WaterDetection.total_scenes (task w)
  ∧ WaterDetection.iterative (task w') = WaterDetection.iterative (task w)
  ∧ WaterDetection.scenes_processed (task w)
    ≤ WaterDetection.scenes_processed (task w')
    ≤ WaterDetection.scenes_processed (task w)
      + Z.of_nat (sum_list
          ((λ job, if WaterDetection.iterative (task w)
                   then length (job_time_chunk job) else 1%nat)
           <$> WaterDetection.processed [d])).
Proof.
  destruct 1 as [w groups job r w' _ _ Hrun|w chunks r w' Hrun|w chunks r w' Hrun].
  - apply water_processing_task_counters in Hrun as (Hc & k & Hk & Ht).
    rewrite Ht. simpl. (split; [exact Hc|]). repeat split; lia.
  - apply water_recombine_geographic_task in Hrun as [Ht Hc].
    rewrite Ht. simpl. (split; [exact Hc|]). repeat split; lia.
  - apply water_recombine_time_task in Hrun as [Ht Hc].
    rewrite Ht. simpl. (split; [exact Hc|]). repeat split; lia.
Qed.

Lemma water_run_counters (w : WaterDetection.W) (ds : list WaterDetection.delivery)
    (w' : WaterDetection.W) :
  WaterDetection.run w ds w' →
  canvas w' = canvas w
  ∧ WaterDetection.total_scenes (task w') = WaterDetection.total_scenes (task w)
  ∧ WaterDetection.iterative (task w') = WaterDetection.iterative (task w)
  ∧ WaterDetection.scenes_processed (task w)
    ≤ WaterDetection.scenes_processed (task w')
    ≤ WaterDetection.scenes_processed (task w)
      + Z.of_nat (sum_list
          ((λ job, if WaterDetection.iterative (task w)
                   then length (job_time_chunk job) else 1%nat)
           <$> WaterDetection.processed ds))
  ∧ (∀ groups, canvas w = Some groups →
       ∀ job, job ∈ WaterDetection.processed ds → job ∈ concat groups).
Proof.
  induction 1 as [w|w d w1 ds w' Hstep Hrun (Hc & Ht & Hi & Hs & Hjobs)].
  - simpl. repeat split; try lia. intros groups _ job Hjob. inversion Hjob.
  - pose proof (water_step_counters _ _ _ Hstep) as (Hc1 & Ht1 & Hi1 & Hs1).
    rewrite Hc, Hc1, Ht, Ht1, Hi, Hi1.
    split; [reflexivity|]. split; [reflexivity|]. split; [reflexivity|]. split.
    + rewrite Hi1 in Hs.
      assert (WaterDetection.processed (d :: ds)
              = WaterDetection.processed [d] ++ WaterDetection.processed ds) as ->
        by (destruct d; reflexivity).
      rewrite fmap_app, sum_list_append. lia.
    + intros groups Hgroups job Hjob. rewrite Hc1 in Hjobs.
      destruct Hstep as [w groups' job' r w1 Hcanvas Hin _| |]; simpl in Hjob; eauto.
      apply elem_of_cons in Hjob as [->|Hjob]; [|eauto].
      rewrite Hgroups in Hcanvas. injection Hcanvas as <-. exact Hin.
Qed.

(** C4 (amended): [start_chunk_processing] sets [total_scenes] to the
    number of geographic chunks times the number of time chunks times
    the time chunk size (1 when unset) and [scenes_processed] to 0.
    Along every run of deliveries after it, [total_scenes] keeps that
    value and [scenes_processed] never decreases; it stays within
    [total_scenes] when every chunk job is delivered at most once, the
    time chunk size is at least 1 and, in the water-detection
    pipeline, no time chunk is longer than the time chunk size. *)
Theorem scenes_processed_within_total_when_delivered_once :
  (∀ (d : CoastalChange.ChunkDetails) (w0 w1 w : CoastalChange.W) ds,
     CoastalChange.start_chunk_processing (Some d) w0 = Ok (Some true, w1) →
     CoastalChange.run w1 ds w →
     CoastalChange.total_scenes (task w1)
     = Z.of_nat (length (CoastalChange.cd_geographic_chunks d))
       * Z.of_nat (length (CoastalChange.cd_time_chunks d))
       * CoastalChange.time_chunk_size_or_1 (task w0)
     ∧ CoastalChange.scenes_processed (task w1) = 0
     ∧ CoastalChange.total_scenes (task w) = CoastalChange.total_scenes (task w1)
     ∧ 0 ≤ CoastalChange.scenes_processed (task w)
     ∧ (NoDup (CoastalChange.processed ds) →
        1 ≤ CoastalChange.time_chunk_size_or_1 (task w0) →
        CoastalChange.scenes_processed (task w) ≤ CoastalChange.total_scenes (task w)))
  ∧ (∀ (w w' : CoastalChange.W) ds,
       CoastalChange.run w ds w' →
       CoastalChange.total_scenes (task w') = CoastalChange.total_scenes (task w)
       ∧ CoastalChange.scenes_processed (task w)
         ≤ CoastalChange.scenes_processed (task w'))
  ∧ (∀ (d : WaterDetection.ChunkDetails) (w0 w1 w : WaterDetection.W) ds,
       WaterDetection.start_chunk_processing (Some d) w0 = Ok (Some true, w1) →
       WaterDetection.run w1 ds w →
       WaterDetection.total_scenes (task w1)
       = Z.of_nat (length (WaterDetection.cd_geographic_chunks d))
         * Z.of_nat (length (WaterDetection.cd_time_chunks d))
         * WaterDetection.time_chunk_size_or_1 (task w0)
       ∧ WaterDetection.scenes_processed (task w1) = 0
       ∧ WaterDetection.total_scenes (task w) = WaterDetection.total_scenes (task w1)
       ∧ 0 ≤ WaterDetection.scenes_processed (task w)
       ∧ (NoDup (WaterDetection.processed ds) →
          1 ≤ WaterDetection.time_chunk_size_or_1 (task w0) →
          (∀ tc, tc ∈ WaterDetection.cd_time_chunks d →
                 Z.of_nat (length tc) ≤ WaterDetection.time_chunk_size_or_1 (task w0)) →
          WaterDetection.scenes_processed (task w)
          ≤ WaterDetection.total_scenes (task w)))
  ∧ (∀ (w w' : WaterDetection.W) ds,
       WaterDetection.run w ds w' →
       WaterDetection.total_scenes (task w') = WaterDetection.total_scenes (task w)
       ∧ WaterDetection.scenes_processed (task w)
         ≤ WaterDetection.scenes_processed (task w')).
Proof.
  split; [|split; [|split]].
  - intros d w0 w1 w ds Hstart Hrun. simpl in Hstart. injection Hstart as <-.
    apply coastal_run_counters in Hrun as (_ & Ht & Hs & Hjobs). simpl in *.
    split; [reflexivity|]. split; [reflexivity|]. split; [exact Ht|].
    split; [lia|]. intros Hnd Hsize. rewrite Ht.
    pose proof (length_distinct_subset _ _ Hnd (Hjobs _ eq_refl)) as Hlen.
    rewrite coastal_canvas_size in Hlen. nia.
  - intros w w' ds Hrun.
    apply coastal_run_counters in Hrun as (_ & Ht & Hs & _). split; [exact Ht|lia].
  - intros d w0 w1 w ds Hstart Hrun. simpl in Hstart. injection Hstart as <-.
    apply water_run_counters in Hrun as (_ & Ht & _ & Hs & Hjobs). simpl in *.
    split; [reflexivity|]. split; [reflexivity|]. split; [exact Ht|].
    split; [lia|]. intros Hnd Hsize Hchunks. rewrite Ht.
    pose proof (length_distinct_subset _ _ Hnd (Hjobs _ eq_refl)) as Hlen.
    rewrite water_canvas_size in Hlen.
    pose proof (sum_list_bounded
                  (λ job : Job WaterDetection.Parameters WaterDetection.TimeChunk,
                     if WaterDetection.iterative (task w0)
                     then length (job_time_chunk job) else 1%nat)
                  (Z.to_nat (WaterDetection.time_chunk_size_or_1 (task w0)))
                  (WaterDetection.processed ds)) as Hsum.
    assert (∀ job, job ∈ WaterDetection.processed ds →
              ((if WaterDetection.iterative (task w0)
                then length (job_time_chunk job) else 1%nat)
               ≤ Z.to_nat (WaterDetection.time_chunk_size_or_1 (task w0)))%nat) as Hweight.
    { intros job Hjob. destruct (WaterDetection.iterative (task w0)); [|lia].
      pose proof (Hchunks _ (water_canvas_time_chunks _ _ (Hjobs _ eq_refl _ Hjob))).
      lia. }
    specialize (Hsum Hweight). nia.
  - intros w w' ds Hrun.
    apply water_run_counters in Hrun as (_ & Ht & _ & Hs & _). split; [exact Ht|lia].
Qed.

End Claims.

(* ===================================================================== *)
(** ** The properties on the small data cube *)
(* ===================================================================== *)

Section Instances.
#[local] Existing Instance Scenario.raster.
#[local] Existing Instance Scenario.coastal.
#[local] Existing Instance Scenario.water.
Import Scenario.

(** An all-empty group of two siblings. *)
Lemma recombine_geographic_all_none_witness :
  Forall (λ c : option ChunkResult, c = None) (as_list (ResultList [None; None]))
  ∧ CoastalChange.recombine_geographic_chunks (ResultList [None; None])
      (coastal_world "none" empty_temp) = Raise IndexError
  ∧ WaterDetection.recombine_geographic_chunks (ResultList [None; None])
      (water_world "none" (Some 1) empty_temp) = Raise IndexError.
Proof.
  split; [repeat constructor|].
  apply (recombine_geographic_all_none_index_error (ResultList [None; None])).
  repeat constructor.
Defined.

(** Both workers on a task whose temporary directory is gone. *)
Lemma processing_task_without_temp_dir_witness :
  os_path_exists (fs (coastal_world "none" no_temp))
                 (CoastalChange.temp_path (task (coastal_world "none" no_temp))) = false
  ∧ CoastalChange.processing_task 0 0 extent (dates_2000, dates_2002)
      (coastal_parameters 2000 2002) (coastal_world "none" no_temp)
    = Ok (None, coastal_world "none" no_temp)
  ∧ os_path_exists (fs (water_world "none" (Some 3) no_temp))
                   (WaterDetection.temp_path (task (water_world "none" (Some 3) no_temp)))
    = false
  ∧ WaterDetection.processing_task 0 0 extent water_dates
      (water_parameters 2000 2002) (water_world "none" (Some 3) no_temp)
    = Ok (None, water_world "none" (Some 3) no_temp).
Proof.
  pose proof (processing_task_without_temp_dir 0 0 extent
                (dates_2000, dates_2002) (coastal_parameters 2000 2002)
                (coastal_world "none" no_temp)
                water_dates (water_parameters 2000 2002)
                (water_world "none" (Some 3) no_temp)) as [Hc Hw].
  split; [reflexivity|]. split; [apply Hc; reflexivity|].
  split; [reflexivity|]. apply Hw; reflexivity.
Defined.


(** A time chunk of three dates, the second without data. *)
Lemma processing_task_skips_empty_subranges_witness :
  WaterDetection.iterative (task (water_world "none" (Some 3) empty_temp)) = true
  ∧ ∃ r w',
      WaterDetection.processing_task 0 0 extent water_dates (water_parameters 2000 2002)
        (water_world "none" (Some 3) empty_temp) = Ok (r, w')
      ∧ WaterDetection.scenes_processed (task w') = 2
      ∧ length (fetched w') = 3%nat
      ∧ is_Some r.
Proof.
  split; [reflexivity|].
  assert (returns (WaterDetection.processing_task 0 0 extent water_dates
            (water_parameters 2000 2002) (water_world "none" (Some 3) empty_temp)) = true)
    as Hret by (vm_compute; reflexivity).
  destruct (WaterDetection.processing_task 0 0 extent water_dates
              (water_parameters 2000 2002) (water_world "none" (Some 3) empty_temp))
    as [[r w']|e] eqn:Hrun; [|discriminate Hret].
  exists r, w'. split; [reflexivity|].
  destruct (processing_task_skips_empty_subranges 0 0 extent water_dates
              (water_parameters 2000 2002) (water_world "none" (Some 3) empty_temp)
              r w' eq_refl Hrun)
    as (qs & Hf & Hqs & Hs & Hnone & Hsome).
  rewrite (Hqs eq_refl) in Hf, Hs, Hnone, Hsome.
  split; [rewrite Hs; vm_compute; reflexivity|]. split; [rewrite Hf; reflexivity|].
  destruct Hsome as [md ->]; [vm_compute; discriminate|]. eauto.
Defined.

(** Two executions of the job of chunk (0, 0) in each pipeline, the
    second one started from the world the first one left. *)
Lemma processing_task_artifact_path_witness :
  (∃ r1 r2,
     deliver coastal_job dispatched = Ok (Some r1, delivered_once)
     ∧ deliver coastal_job delivered_once = Ok (Some r2, delivered_twice)
     ∧ cr_path r1 = "/tmp/7/0_0.nc"
     ∧ cr_path r2 = cr_path r1
     ∧ is_Some (files (fs delivered_once) !! cr_path r2))
  ∧ (∃ r1 r2 w2,
       water_deliver water_job water_dispatched = Ok (Some r1, water_delivered_once)
       ∧ water_deliver water_job water_delivered_once = Ok (Some r2, w2)
       ∧ cr_path r1 = "/tmp/7/0_0.nc"
       ∧ cr_path r2 = cr_path r1
       ∧ is_Some (files (fs water_delivered_once) !! cr_path r2)).
Proof.
  destruct (processing_task_artifact_path_deterministic 0 0) as [Hcoastal Hwater].
  split.
  - destruct (produced_value (None, dispatched) (deliver coastal_job dispatched))
      as [r1 Hrun1]; [vm_compute; reflexivity|].
    destruct (produced_value (None, delivered_once) (deliver coastal_job delivered_once))
      as [r2 Hrun2]; [vm_compute; reflexivity|].
    fold delivered_once in Hrun1. fold delivered_twice in Hrun2.
    exists r1, r2. split; [exact Hrun1|]. split; [exact Hrun2|].
    assert (CoastalChange.temp_path (task dispatched)
            = CoastalChange.temp_path (task delivered_once)) as Htemp
      by (vm_compute; reflexivity).
    destruct (Hcoastal _ _ _ dispatched _ _ _ _ _ delivered_once _ _ Htemp Hrun1 Hrun2)
      as (Hp1 & Hp2 & [d1 Hd1] & _ & _).
    split; [rewrite Hp1; vm_compute; reflexivity|]. split; [exact Hp2|].
    rewrite Hp2, Hd1. eauto.
  - destruct (produced_value (None, water_dispatched)
                (water_deliver water_job water_dispatched))
      as [r1 Hrun1]; [vm_compute; reflexivity|].
    fold water_delivered_once in Hrun1.
    destruct (produced_value (None, water_delivered_once)
                (water_deliver water_job water_delivered_once))
      as [r2 Hrun2]; [vm_compute; reflexivity|].
    eexists r1, r2, _. split; [exact Hrun1|]. split; [exact Hrun2|].
    assert (WaterDetection.temp_path (task water_dispatched)
            = WaterDetection.temp_path (task water_delivered_once)) as Htemp
      by (vm_compute; reflexivity).
    destruct (Hwater _ _ _ water_dispatched _ _
                     _ _ _ water_delivered_once _ _ Htemp Hrun1 Hrun2)
      as (Hp1 & Hp2 & [d1 Hd1] & _ & _).
    split; [rewrite Hp1; vm_compute; reflexivity|]. split; [exact Hp2|].
    rewrite Hp2, Hd1. eauto.
Defined.

(** *** Chunking the years 2000 to 2002 *)

(** C3, counterexample: the cube has acquisitions in three years; for
    the task without animation the chunker returns one time chunk, not
    two. *)
Lemma batch_chunk_count_counterexample :
  CoastalChange.perform_task_chunking (Some (coastal_parameters 2000 2002))
    (coastal_world "none" empty_temp) = Ok (Some coastal_details, chunked)
  ∧ length (remove_dups
              (year <$> CoastalChange.list_acquisition_dates (coastal_parameters 2000 2002)))
    = 3%nat
  ∧ length (CoastalChange.cd_time_chunks coastal_details) = 1%nat
  ∧ length (CoastalChange.cd_time_chunks coastal_details) ≠ (3 - 1)%nat.
Proof.
  split; [|split; [vm_compute; reflexivity|split; [reflexivity|discriminate]]].
  apply value_pair; vm_compute; reflexivity.
Defined.

(** The same cube chunked with and without animation. *)
Lemma batch_time_chunks_by_animation_witness :
  2000 ∈ remove_dups
           (year <$> CoastalChange.list_acquisition_dates (coastal_parameters 2000 2002))
  ∧ (∃ d w',
       CoastalChange.perform_task_chunking (Some (coastal_parameters 2000 2002))
         (coastal_world "coastal_change" empty_temp) = Ok (Some d, w')
       ∧ length (CoastalChange.cd_time_chunks d) = 2%nat)
  ∧ (∃ d w',
       CoastalChange.perform_task_chunking (Some (coastal_parameters 2000 2002))
         (coastal_world "none" empty_temp) = Ok (Some d, w')
       ∧ length (CoastalChange.cd_time_chunks d) = 1%nat).
Proof.
  assert (2000 ∈ remove_dups
            (year <$> CoastalChange.list_acquisition_dates (coastal_parameters 2000 2002)))
    as Hanchor by (vm_compute; constructor).
  split; [exact Hanchor|]. split.
  - destruct (batch_time_chunks_by_animation (coastal_parameters 2000 2002)
                (coastal_world "coastal_change" empty_temp) Hanchor) as [Hanimated _].
    destruct Hanimated as (d & w' & Hrun & _ & Hlen); [vm_compute; discriminate|].
    exists d, w'. split; [exact Hrun|].
    assert (length (remove_dups
              (year <$> CoastalChange.list_acquisition_dates (coastal_parameters 2000 2002)))
            = 3%nat) as Hperiods by (vm_compute; reflexivity).
    rewrite Hperiods in Hlen. injection Hlen as ->. reflexivity.
  - destruct (batch_time_chunks_by_animation (coastal_parameters 2000 2002)
                (coastal_world "none" empty_temp) Hanchor) as [_ Hstill].
    destruct Hstill as (d & w' & Hrun & Hchunks);
      [reflexivity|vm_compute; repeat constructor|].
    exists d, w'. split; [exact Hrun|]. rewrite Hchunks. reflexivity.
Defined.

(** *** A job delivered twice *)

Lemma scenario_dispatch :
  CoastalChange.start_chunk_processing (Some coastal_details)
    (coastal_world "none" empty_temp) = Ok (Some true, dispatched).
Proof. apply value_pair; vm_compute; reflexivity. Qed.

Lemma scenario_first_delivery :
  CoastalChange.step dispatched (CoastalChange.Process coastal_job) delivered_once.
Proof.
  destruct (produced_value (None, dispatched) (deliver coastal_job dispatched))
    as [r Hrun]; [vm_compute; reflexivity|].
  apply (CoastalChange.step_process _ [[coastal_job]] _ (Some r)).
  - vm_compute. reflexivity.
  - simpl. constructor.
  - exact Hrun.
Qed.

Lemma scenario_second_delivery :
  CoastalChange.step delivered_once (CoastalChange.Process coastal_job) delivered_twice.
Proof.
  destruct (produced_value (None, delivered_once) (deliver coastal_job delivered_once))
    as [r Hrun]; [vm_compute; reflexivity|].
  apply (CoastalChange.step_process _ [[coastal_job]] _ (Some r)).
  - vm_compute. reflexivity.
  - simpl. constructor.
  - exact Hrun.
Qed.

(** C4, counterexample: one geographic chunk and one time chunk give
    [total_scenes = 1]; the only job is delivered, runs, and is
    delivered again: [scenes_processed] is 2. *)
Lemma redelivery_exceeds_total_scenes :
  CoastalChange.start_chunk_processing (Some coastal_details)
    (coastal_world "none" empty_temp) = Ok (Some true, dispatched)
  ∧ CoastalChange.run dispatched
      [CoastalChange.Process coastal_job; CoastalChange.Process coastal_job]
      delivered_twice
  ∧ CoastalChange.total_scenes (task delivered_twice) = 1
  ∧ CoastalChange.scenes_processed (task delivered_twice) = 2
  ∧ ¬ (CoastalChange.scenes_processed (task delivered_twice)
       ≤ CoastalChange.total_scenes (task delivered_twice)).
Proof.
  split; [exact scenario_dispatch|]. split.
  - eapply CoastalChange.run_cons; [exact scenario_first_delivery|].
    eapply CoastalChange.run_cons; [exact scenario_second_delivery|].
    apply CoastalChange.run_nil.
  - split; [vm_compute; reflexivity|]. split; [vm_compute; reflexivity|].
    vm_compute. intros Hle. apply Hle. reflexivity.
Defined.

Lemma scenario_water_dispatch :
  WaterDetection.start_chunk_processing (Some water_details)
    (water_world "none" (Some 3) empty_temp) = Ok (Some true, water_dispatched).
Proof. apply value_pair; vm_compute; reflexivity. Qed.

Lemma scenario_water_delivery :
  WaterDetection.step water_dispatched (WaterDetection.Process water_job)
                      water_delivered_once.
Proof.
  destruct (produced_value (None, water_dispatched)
              (water_deliver water_job water_dispatched))
    as [r Hrun]; [vm_compute; reflexivity|].
  apply (WaterDetection.step_process _ [[water_job]] _ (Some r)).
  - vm_compute. reflexivity.
  - simpl. constructor.
  - exact Hrun.
Qed.

(** Every job delivered once, in both pipelines. *)
Lemma scenes_processed_within_total_witness :
  (NoDup (CoastalChange.processed [CoastalChange.Process coastal_job])
   ∧ 1 ≤ CoastalChange.time_chunk_size_or_1 (task (coastal_world "none" empty_temp))
   ∧ CoastalChange.run dispatched [CoastalChange.Process coastal_job] delivered_once
   ∧ CoastalChange.scenes_processed (task delivered_once)
     ≤ CoastalChange.total_scenes (task delivered_once))
  ∧ (NoDup (WaterDetection.processed [WaterDetection.Process water_job])
     ∧ 1 ≤ WaterDetection.time_chunk_size_or_1 (task (water_world "none" (Some 3) empty_temp))
     ∧ (∀ tc, tc ∈ WaterDetection.cd_time_chunks water_details →
              Z.of_nat (length tc)
              ≤ WaterDetection.time_chunk_size_or_1
                  (task (water_world "none" (Some 3) empty_temp)))
     ∧ WaterDetection.run water_dispatched [WaterDetection.Process water_job]
                          water_delivered_once
     ∧ WaterDetection.scenes_processed (task water_delivered_once)
       ≤ WaterDetection.total_scenes (task water_delivered_once)).
Proof.
  destruct scenes_processed_within_total_when_delivered_once as (Hc & _ & Hw & _).
  assert (CoastalChange.run dispatched [CoastalChange.Process coastal_job] delivered_once)
    as Hrunc.
  { eapply CoastalChange.run_cons; [exact scenario_first_delivery|].
    apply CoastalChange.run_nil. }
  assert (WaterDetection.run water_dispatched [WaterDetection.Process water_job]
                             water_delivered_once) as Hrunw.
  { eapply WaterDetection.run_cons; [exact scenario_water_delivery|].
    apply WaterDetection.run_nil. }
  assert (∀ tc, tc ∈ WaterDetection.cd_time_chunks water_details →
            Z.of_nat (length tc)
            ≤ WaterDetection.time_chunk_size_or_1
                (task (water_world "none" (Some 3) empty_temp))) as Hchunks.
  { intros tc Hin. apply list_elem_of_singleton in Hin as ->. vm_compute. discriminate. }
  split.
  - split; [apply NoDup_singleton|]. split; [vm_compute; discriminate|]. split; [exact Hrunc|].
    destruct (Hc _ _ _ _ _ scenario_dispatch Hrunc) as (_ & _ & _ & _ & Hbound).
    apply Hbound; [apply NoDup_singleton|vm_compute; discriminate].
  - split; [apply NoDup_singleton|]. split; [vm_compute; discriminate|]. split; [exact Hchunks|].
    split; [exact Hrunw|].
    destruct (Hw _ _ _ _ _ scenario_water_dispatch Hrunw) as (_ & _ & _ & _ & Hbound).
    apply Hbound; [apply NoDup_singleton|vm_compute; discriminate|exact Hchunks].
Defined.

(** *** Two accumulators recombined over time *)

Lemma temporal_fold_witness :
  ∃ r w',
    WaterDetection.recombine_time_chunks
      (ResultList [Some (recombined 1 4); None; Some (recombined 0 2)])
      (water_world "none" (Some 1) recombined_temp) = Ok (r, w')
    ∧ ∃ ds acc,
        ds ≠ []
        ∧ files (fs w') !! cr_path r = Some (NetCDF acc)
        ∧ acc !! "total_data" = WaterDetection.band_sum "total_data" ds
        ∧ acc !! "total_clean" = WaterDetection.band_sum "total_clean" ds.
Proof.
  assert (returns (WaterDetection.recombine_time_chunks
                     (ResultList [Some (recombined 1 4); None; Some (recombined 0 2)])
                     (water_world "none" (Some 1) recombined_temp)) = true)
    as Hret by (vm_compute; reflexivity).
  destruct (WaterDetection.recombine_time_chunks _ _) as [[r w']|e] eqn:Hrun;
    [|discriminate Hret].
  exists r, w'. split; [reflexivity|].
  destruct (temporal_fold_sums_and_ratio _ _ _ _ Hrun)
    as (ds & _ & Hne & _ & acc & Hfile & Hd & Hc & _).
  exists ds, acc. auto.
Defined.

(** The results of time chunks 2 and 10, both counting acquisitions. *)
Lemma temporal_metadata_witness :
  (∃ r w',
     CoastalChange.recombine_time_chunks
       (ResultList [Some (recombined 2 2); Some (recombined 10 10)])
       (coastal_world "none" late_temp) = Ok (r, w')
     ∧ cr_metadata r !! "acquisitions" = Some 2)
  ∧ (∃ r w',
       WaterDetection.recombine_time_chunks
         (ResultList [Some (recombined 2 2); Some (recombined 10 10)])
         (water_world "none" (Some 1) late_temp) = Ok (r, w')
       ∧ cr_metadata r !! "acquisitions" = Some 2).
Proof.
  destruct (temporal_metadata_keeps_earlier_chunk (R := raster)
              temp "acquisitions" 0%nat 2 10 ∅ ∅)
    as [Hcoastal Hwater].
  split.
  - assert (returns (CoastalChange.recombine_time_chunks
                       (ResultList [Some (recombined 2 2); Some (recombined 10 10)])
                       (coastal_world "none" late_temp)) = true)
      as Hret by (vm_compute; reflexivity).
    destruct (CoastalChange.recombine_time_chunks _ _) as [[r w']|e] eqn:Hrun;
      [|discriminate Hret].
    exists r, w'. split; [reflexivity|]. exact (Hcoastal _ _ _ Hrun).
  - assert (returns (WaterDetection.recombine_time_chunks
                       (ResultList [Some (recombined 2 2); Some (recombined 10 10)])
                       (water_world "none" (Some 1) late_temp)) = true)
      as Hret by (vm_compute; reflexivity).
    destruct (WaterDetection.recombine_time_chunks _ _) as [[r w']|e] eqn:Hrun;
      [|discriminate Hret].
    exists r, w'. split; [reflexivity|]. exact (Hwater _ _ _ Hrun).
Defined.

End Instances.

(* ===================================================================== *)
(** ** Further properties of the stages *)
(* ===================================================================== *)

Lemma lookup_enumerate {A} (l : list A) (i : nat) :
  enumerate l !! i = (λ x, (i, x)) <$> l !! i.
Proof.
  unfold enumerate.
  assert (∀ n, combine (seq n (length l)) l !! i = (λ x, ((n + i)%nat, x)) <$> l !! i)
    as Hgen.
  { revert i. induction l as [|x l IH]; intros i n; [destruct i; reflexivity|].
    destruct i as [|i]; simpl.
    - rewrite Nat.add_0_r. reflexivity.
    - change (combine (seq (S n) (length l)) l !! i
              = (λ y, ((n + S i)%nat, y)) <$> l !! i).
      rewrite IH. destruct (l !! i); simpl; [|reflexivity].
      do 2 f_equal. lia. }
  apply (Hgen 0%nat).
Qed.

(** *** The order of [sorted] *)

Lemma string_ltb_lt (a b : string) :
  String.ltb a b = true ↔ OrderedTypeEx.String_as_OT.lt a b.
Proof.
  rewrite <- OrderedTypeEx.String_as_OT.cmp_lt. unfold String.ltb.
  change (OrderedTypeEx.String_as_OT.cmp a b) with (String.compare a b).
  destruct (String.compare a b); split; congruence.
Qed.

Lemma string_ltb_trans (a b c : string) :
  String.ltb a b = true → String.ltb b c = true → String.ltb a c = true.
Proof.
  rewrite !string_ltb_lt. apply OrderedTypeEx.String_as_OT.lt_trans.
Qed.

Lemma string_ltb_irrefl (a : string) : String.ltb a a = false.
Proof.
  destruct (String.ltb a a) eqn:E; [|reflexivity].
  apply string_ltb_lt, OrderedTypeEx.String_as_OT.lt_not_eq in E.
  exfalso. apply E. reflexivity.
Qed.

Lemma string_ltb_total (a b : string) :
  a ≠ b → String.ltb a b = true ∨ String.ltb b a = true.
Proof.
  intros Hne. unfold String.ltb. rewrite (String.compare_antisym a b).
  destruct (String.compare b a) eqn:E; simpl; auto.
  apply String.compare_eq_iff in E. congruence.
Qed.

Lemma string_ltb_asym (a b : string) :
  String.ltb a b = true → String.ltb b a = false.
Proof.
  intros Hab. destruct (String.ltb b a) eqn:Hba; [|reflexivity].
  pose proof (string_ltb_trans _ _ _ Hab Hba) as H.
  rewrite string_ltb_irrefl in H. discriminate.
Qed.

Lemma insert_by_key_comm {A} (key : A → string) (x y : A) (l : list A) :
  key x ≠ key y →
  insert_by_key key x (insert_by_key key y l)
  = insert_by_key key y (insert_by_key key x l).
Proof.
  intros Hne. induction l as [|z l IH]; simpl.
  - destruct (string_ltb_total _ _ Hne) as [Hxy|Hyx].
    + rewrite Hxy, (string_ltb_asym _ _ Hxy). reflexivity.
    + rewrite Hyx, (string_ltb_asym _ _ Hyx). reflexivity.
  - destruct (String.ltb (key z) (key y)) eqn:Hzy;
    destruct (String.ltb (key z) (key x)) eqn:Hzx; simpl; rewrite ?Hzy, ?Hzx.
    + rewrite IH. reflexivity.
    + assert (String.ltb (key x) (key y) = true) as Hxy.
      { destruct (decide (key x = key z)) as [->|Hxz]; [exact Hzy|].
        destruct (string_ltb_total _ _ Hxz) as [H|H]; [|congruence].
        exact (string_ltb_trans _ _ _ H Hzy). }
      rewrite Hxy. reflexivity.
    + assert (String.ltb (key y) (key x) = true) as Hyx.
      { destruct (decide (key y = key z)) as [->|Hyz]; [exact Hzx|].
        destruct (string_ltb_total _ _ Hyz) as [H|H]; [|congruence].
        exact (string_ltb_trans _ _ _ H Hzx). }
      rewrite Hyx. reflexivity.
    + destruct (string_ltb_total _ _ Hne) as [Hxy|Hyx].
      * rewrite Hxy, (string_ltb_asym _ _ Hxy). reflexivity.
      * rewrite Hyx, (string_ltb_asym _ _ Hyx). reflexivity.
Qed.

Lemma insert_by_key_Permutation {A} (key : A → string) (x : A) (l : list A) :
  insert_by_key key x l ≡ₚ x :: l.
Proof.
  induction l as [|y l IH]; simpl; [reflexivity|].
  destruct (String.ltb (key y) (key x)); [|reflexivity].
  rewrite IH. apply perm_swap.
Qed.

Lemma sorted_Permutation {A} (key : A → string) (l : list A) :
  sorted key l ≡ₚ l.
Proof.
  induction l as [|x l IH]; simpl; [reflexivity|].
  rewrite insert_by_key_Permutation, IH. reflexivity.
Qed.

Lemma sorted_arrival_order {A} (key : A → string) (l1 l2 : list A) :
  l1 ≡ₚ l2 → NoDup (key <$> l1) → sorted key l1 = sorted key l2.
Proof.
  induction 1 as [|x l1 l2 Hperm IH|x y l|l1 l2 l3 H12 IH12 H23 IH23]; intros Hnodup.
  - reflexivity.
  - simpl. rewrite IH; [reflexivity|]. rewrite fmap_cons in Hnodup.
    apply NoDup_cons in Hnodup as [_ Hnodup]. exact Hnodup.
  - simpl. apply insert_by_key_comm.
    rewrite !fmap_cons in Hnodup. apply NoDup_cons in Hnodup as [Hnot _].
    intros Heq. apply Hnot. rewrite Heq. left.
  - rewrite IH12 by exact Hnodup. apply IH23.
    rewrite <- H12. exact Hnodup.
Qed.

Lemma all_subscriptable_spec {R : Raster} (l : list (option ChunkResult)) :
  (None ∈ l → all_subscriptable l = Raise TypeError)
  ∧ (None ∉ l → all_subscriptable l = Ok (drop_none l)).
Proof.
  induction l as [|[c|] l [IHin IHout]]; simpl.
  - split; [intros Hin; inversion Hin|reflexivity].
  - split.
    + intros Hin. apply elem_of_cons in Hin as [?|Hin]; [discriminate|].
      rewrite (IHin Hin). reflexivity.
    + intros Hout. apply not_elem_of_cons in Hout as [_ Hout].
      rewrite (IHout Hout). reflexivity.
  - split; [reflexivity|]. intros Hout. exfalso. apply Hout. left.
Qed.

Lemma update_all_lookup {R : Raster} (cs : list ChunkResult) (md : Metadata) (k : string) :
  (update_all md cs !! k = None
   ↔ md !! k = None ∧ Forall (λ c, cr_metadata c !! k = None) cs)
  ∧ ∀ v, update_all md cs !! k = Some v →
         md !! k = Some v ∨ ∃ c, c ∈ cs ∧ cr_metadata c !! k = Some v.
Proof.
  unfold update_all. revert md. induction cs as [|c cs IH]; intros md; simpl.
  - split; [|auto]. split; [intros ?; split; [assumption|constructor]|tauto].
  - destruct (IH (cr_metadata c ∪ md)) as [Hnone Hsome]. split.
    + rewrite Hnone, lookup_union_None, Forall_cons. tauto.
    + intros v Hv. apply Hsome in Hv as [Hv|(c' & Hin & Hc')].
      * apply lookup_union_Some_raw in Hv as [Hv|[_ Hv]]; [|auto].
        right. exists c. split; [left|exact Hv].
      * right. exists c'. split; [right; exact Hin|exact Hc'].
Qed.

Lemma insert_by_key_sorted {A} (key : A → string) (x : A) (l : list A) :
  Sorted.StronglySorted (λ a b, String.ltb (key b) (key a) = false) l →
  Sorted.StronglySorted (λ a b, String.ltb (key b) (key a) = false) (insert_by_key key x l).
Proof.
  induction l as [|y l IH]; intros Hsorted; simpl.
  - repeat constructor.
  - apply Sorted.StronglySorted_inv in Hsorted as [Hl Hy].
    destruct (String.ltb (key y) (key x)) eqn:Hyx.
    + constructor; [apply IH; exact Hl|].
      rewrite (insert_by_key_Permutation key x l). constructor; [|exact Hy].
      apply string_ltb_asym. exact Hyx.
    + constructor; [constructor; assumption|].
      constructor; [exact Hyx|].
      apply Forall_impl with (P := λ b, String.ltb (key b) (key y) = false); [exact Hy|].
      intros z Hzy. destruct (String.ltb (key z) (key x)) eqn:Hzx; [|reflexivity].
      exfalso. destruct (decide (key x = key y)) as [Heq|Hne].
      * rewrite Heq in Hzx. congruence.
      * destruct (string_ltb_total _ _ Hne) as [Hxy|Hyx']; [|congruence].
        pose proof (string_ltb_trans _ _ _ Hzx Hxy). congruence.
Qed.

Lemma sorted_sorted {A} (key : A → string) (l : list A) :
  Sorted.StronglySorted (λ a b, String.ltb (key b) (key a) = false) (sorted key l).
Proof.
  induction l as [|x l IH]; simpl; [constructor|].
  apply insert_by_key_sorted. exact IH.
Qed.

Lemma last_cons {A} (x y : A) (l : list A) : Py.last (x :: y :: l) = Py.last (y :: l).
Proof. reflexivity. Qed.

Lemma sorted_last_greatest {A} (key : A → string) (l : list A) (b : A) :
  Sorted.StronglySorted (λ a b, String.ltb (key b) (key a) = false) l →
  Py.last l = Ok b →
  b ∈ l ∧ ∀ c, c ∈ l → String.ltb (key b) (key c) = false.
Proof.
  induction l as [|x l IH]; intros Hsorted Hlast; [discriminate|].
  apply Sorted.StronglySorted_inv in Hsorted as [Hl Hx].
  destruct l as [|y l].
  - injection Hlast as ->. split; [left|].
    intros c Hc. apply list_elem_of_singleton in Hc as ->. apply string_ltb_irrefl.
  - rewrite last_cons in Hlast. destruct (IH Hl Hlast) as [Hin Hmax].
    split; [right; exact Hin|].
    intros c Hc. apply elem_of_cons in Hc as [->|Hc]; [|apply Hmax; exact Hc].
    rewrite Forall_forall in Hx. apply Hx. exact Hin.
Qed.

Lemma sorted_first_least {A} (key : A → string) (l : list A) (a : A) :
  Sorted.StronglySorted (λ a b, String.ltb (key b) (key a) = false) l →
  Py.first l = Ok a →
  a ∈ l ∧ ∀ c, c ∈ l → String.ltb (key c) (key a) = false.
Proof.
  intros Hsorted Hfirst. destruct l as [|x l]; [discriminate|]. injection Hfirst as ->.
  apply Sorted.StronglySorted_inv in Hsorted as [_ Ha]. split; [left|].
  intros c Hc. apply elem_of_cons in Hc as [->|Hc]; [apply string_ltb_irrefl|].
  rewrite Forall_forall in Ha. apply Ha. exact Hc.
Qed.

(** *** Names of the artifacts *)

Lemma append_empty_l (s : string) : EmptyString +:+ s = s.
Proof. reflexivity. Qed.

Lemma append_cancel_l (p a b : string) : p +:+ a = p +:+ b → a = b.
Proof.
  induction p as [|c p IH]; [intros H; exact H|].
  rewrite !append_String. intros [= H]. auto.
Qed.

Lemma string_of_uint_separated (d1 d2 : Decimal.uint) (c1 c2 : ascii) (s1 s2 : string) :
  c1 = "_"%char ∨ c1 = "."%char →
  c2 = "_"%char ∨ c2 = "."%char →
  NilEmpty.string_of_uint d1 +:+ String c1 s1
  = NilEmpty.string_of_uint d2 +:+ String c2 s2 →
  d1 = d2 ∧ String c1 s1 = String c2 s2.
Proof.
  intros Hc1 Hc2. revert d2.
  induction d1 as [|d1 IH|d1 IH|d1 IH|d1 IH|d1 IH|d1 IH|d1 IH|d1 IH|d1 IH|d1 IH];
    intros [|d2|d2|d2|d2|d2|d2|d2|d2|d2|d2];
    cbn [NilEmpty.string_of_uint]; rewrite ?append_String, ?append_empty_l;
    intros Heq;
    try discriminate Heq;
    try (injection Heq as Hrest; destruct (IH _ Hrest) as [-> Hs]; split;
         [reflexivity|exact Hs]);
    try (exfalso; injection Heq as Hhead Hrest;
         first [ destruct Hc1 as [->| ->]; discriminate Hhead
               | destruct Hc2 as [->| ->]; discriminate Hhead ]).
  split; [reflexivity|exact Heq].
Qed.

Lemma str_separated (a b : nat) (c1 c2 : ascii) (s1 s2 : string) :
  c1 = "_"%char ∨ c1 = "."%char →
  c2 = "_"%char ∨ c2 = "."%char →
  str a +:+ String c1 s1 = str b +:+ String c2 s2 →
  a = b ∧ String c1 s1 = String c2 s2.
Proof.
  intros Hc1 Hc2 Heq. unfold str in Heq.
  destruct (string_of_uint_separated _ _ _ _ _ _ Hc1 Hc2 Heq) as [Hd Hs].
  split; [exact (DecimalNat.Unsigned.to_uint_inj _ _ Hd)|exact Hs].
Qed.

Lemma str_head (n : nat) (c : ascii) (s : string) :
  c = "_"%char ∨ c = "."%char →
  ∃ h rest, str n +:+ String c s = String h rest
    ∧ h ≠ "/"%char ∧ h ≠ "r"%char ∧ h ≠ "a"%char.
Proof.
  intros Hc. unfold str.
  destruct (Nat.to_uint n); cbn [NilEmpty.string_of_uint];
    rewrite ?append_String, ?append_empty_l; eexists _, _;
    (split; [reflexivity|]);
    try (repeat split; discriminate).
  destruct Hc as [->| ->]; repeat split; discriminate.
Qed.

Lemma chunk_name_eq (g t : nat) :
  (str g +:+ "_" +:+ str t) +:+ ".nc"
  = str g +:+ String "_" (str t +:+ String "." "nc").
Proof. rewrite string_append_assoc. reflexivity. Qed.

Lemma chunk_name_inj (g t g' t' : nat) :
  (str g +:+ "_" +:+ str t) +:+ ".nc" = (str g' +:+ "_" +:+ str t') +:+ ".nc" →
  g = g' ∧ t = t'.
Proof.
  rewrite !chunk_name_eq. intros Heq.
  apply str_separated in Heq as [-> Heq]; [|left; reflexivity..].
  injection Heq as Heq.
  apply str_separated in Heq as [-> _]; [|right; reflexivity..].
  split; reflexivity.
Qed.

Lemma recombined_geo_name_inj (t t' : nat) :
  recombined_geo_name t = recombined_geo_name t' → t = t'.
Proof.
  unfold recombined_geo_name. intros Heq. apply append_cancel_l in Heq.
  change ".nc" with (String "." "nc") in Heq.
  apply str_separated in Heq as [-> _]; [reflexivity|right; reflexivity..].
Qed.

Lemma startswith_sep_head (h : ascii) (rest : string) :
  h ≠ "/"%char → startswith_sep (String h rest) = false.
Proof.
  intros Hne. simpl. destruct (Ascii.eqb_spec h "/"); [contradiction|reflexivity].
Qed.

Lemma chunk_name_head (g t : nat) :
  ∃ h rest, (str g +:+ "_" +:+ str t) +:+ ".nc" = String h rest
    ∧ h ≠ "/"%char ∧ h ≠ "r"%char ∧ h ≠ "a"%char.
Proof. rewrite chunk_name_eq. apply str_head. left. reflexivity. Qed.

Lemma os_path_join_heads (temp a b : string) (ha hb : ascii) (ra rb : string) :
  a = String ha ra → b = String hb rb →
  ha ≠ "/"%char → hb ≠ "/"%char → ha ≠ hb →
  os_path_join temp a ≠ os_path_join temp b.
Proof.
  intros -> -> Ha Hb Hne Heq.
  destruct (os_path_join_relative temp) as [prefix Hjoin].
  rewrite !Hjoin in Heq by (apply startswith_sep_head; assumption).
  apply append_cancel_l in Heq. congruence.
Qed.

Lemma os_path_join_inj (temp a b : string) :
  startswith_sep a = false → startswith_sep b = false →
  os_path_join temp a = os_path_join temp b → a = b.
Proof.
  intros Ha Hb Heq.
  destruct (os_path_join_relative temp) as [prefix Hjoin].
  rewrite !Hjoin in Heq by assumption. exact (append_cancel_l _ _ _ Heq).
Qed.

(** *** Reading the stored files *)


Lemma missing_artifact {R : Raster} (f : FS) (p : string) :
  bool_decide (is_Some (files f !! p)) = false → files f !! p = None.
Proof.
  intros Hnone. apply bool_decide_eq_false in Hnone.
  destruct (files f !! p); [exfalso; eauto|reflexivity].
Qed.

(** *** The query window of a time chunk *)









Section Coverage.
Context {R : Raster}.
Context {coastal : CoastalChange.Collaborators}.
Context {water : WaterDetection.Collaborators}.

(** *** The dispatched canvas *)

Lemma coastal_canvas_lookup (d : CoastalChange.ChunkDetails) (t g : nat) :
  (CoastalChange.build_canvas d !! t ≫= (.!! g))
  = (tc ← CoastalChange.cd_time_chunks d !! t;
     gc ← CoastalChange.cd_geographic_chunks d !! g;
     Some (mkJob g t gc tc (CoastalChange.cd_parameters d))).
Proof.
  unfold CoastalChange.build_canvas.
  rewrite list_lookup_fmap, lookup_enumerate.
  destruct (CoastalChange.cd_time_chunks d !! t) as [tc|]; simpl; [|reflexivity].
  rewrite list_lookup_fmap, lookup_enumerate.
  destruct (CoastalChange.cd_geographic_chunks d !! g); reflexivity.
Qed.

Lemma water_canvas_lookup (d : WaterDetection.ChunkDetails) (t g : nat) :
  (WaterDetection.build_canvas d !! t ≫= (.!! g))
  = (tc ← WaterDetection.cd_time_chunks d !! t;
     gc ← WaterDetection.cd_geographic_chunks d !! g;
     Some (mkJob g t gc tc (WaterDetection.cd_parameters d))).
Proof.
  unfold WaterDetection.build_canvas.
  rewrite list_lookup_fmap, lookup_enumerate.
  destruct (WaterDetection.cd_time_chunks d !! t) as [tc|]; simpl; [|reflexivity].
  rewrite list_lookup_fmap, lookup_enumerate.
  destruct (WaterDetection.cd_geographic_chunks d !! g); reflexivity.
Qed.

(** X1: [start_chunk_processing] on a chunk plan always returns [True]
    and dispatches one group per time chunk and, in each group, one job
    per geographic chunk: the job at position [g] of group [t] carries
    the ids [(g, t)], the [g]-th geographic chunk, the [t]-th time chunk
    and the plan's parameters, and there is no other job.  The files
    and the record of queries are left alone. *)
Theorem start_chunk_processing_dispatches_every_pair :
  (∀ (d : CoastalChange.ChunkDetails) (w : CoastalChange.W),
     ∃ w' groups,
       CoastalChange.start_chunk_processing (Some d) w = Ok (Some true, w')
       ∧ canvas w' = Some groups ∧ fs w' = fs w ∧ fetched w' = fetched w
       ∧ length groups = length (CoastalChange.cd_time_chunks d)
       ∧ Forall (λ group, length group = length (CoastalChange.cd_geographic_chunks d))
                groups
       ∧ ∀ t g job,
           (groups !! t ≫= (.!! g)) = Some job
           ↔ ∃ gc tc,
               CoastalChange.cd_geographic_chunks d !! g = Some gc
               ∧ CoastalChange.cd_time_chunks d !! t = Some tc
               ∧ job = mkJob g t gc tc (CoastalChange.cd_parameters d))
  ∧ (∀ (d : WaterDetection.ChunkDetails) (w : WaterDetection.W),
       ∃ w' groups,
         WaterDetection.start_chunk_processing (Some d) w = Ok (Some true, w')
         ∧ canvas w' = Some groups ∧ fs w' = fs w ∧ fetched w' = fetched w
         ∧ length groups = length (WaterDetection.cd_time_chunks d)
         ∧ Forall (λ group, length group = length (WaterDetection.cd_geographic_chunks d))
                  groups
         ∧ ∀ t g job,
             (groups !! t ≫= (.!! g)) = Some job
             ↔ ∃ gc tc,
                 WaterDetection.cd_geographic_chunks d !! g = Some gc
                 ∧ WaterDetection.cd_time_chunks d !! t = Some tc
                 ∧ job = mkJob g t gc tc (WaterDetection.cd_parameters d)).
Proof.
  split.
  - intros d w. eexists _, (CoastalChange.build_canvas d).
    split; [reflexivity|]. do 3 (split; [reflexivity|]). split; [|split].
    + unfold CoastalChange.build_canvas. rewrite length_fmap. apply length_enumerate.
    + unfold CoastalChange.build_canvas. apply Forall_fmap, Forall_forall.
      intros [i tc] _. simpl. rewrite length_fmap. apply length_enumerate.
    + intros t g job. rewrite coastal_canvas_lookup. split.
      * destruct (CoastalChange.cd_time_chunks d !! t) as [tc|]; [|discriminate].
        destruct (CoastalChange.cd_geographic_chunks d !! g) as [gc|]; [|discriminate].
        intros [= <-]. eauto.
      * intros (gc & tc & -> & -> & ->). reflexivity.
  - intros d w. eexists _, (WaterDetection.build_canvas d).
    split; [reflexivity|]. do 3 (split; [reflexivity|]). split; [|split].
    + unfold WaterDetection.build_canvas. rewrite length_fmap. apply length_enumerate.
    + unfold WaterDetection.build_canvas. apply Forall_fmap, Forall_forall.
      intros [i tc] _. simpl. rewrite length_fmap. apply length_enumerate.
    + intros t g job. rewrite water_canvas_lookup. split.
      * destruct (WaterDetection.cd_time_chunks d !! t) as [tc|]; [|discriminate].
        destruct (WaterDetection.cd_geographic_chunks d !! g) as [gc|]; [|discriminate].
        intros [= <-]. eauto.
      * intros (gc & tc & -> & -> & ->). reflexivity.
Qed.

(** *** The coastal-change chunk worker *)

Lemma compute_mosaic_outcome (up : CoastalChange.Parameters) (tr : datetime * datetime)
    (w : CoastalChange.W) (o : option (Dataset * Metadata)) (w' : CoastalChange.W) :
  CoastalChange._compute_mosaic up tr w = Ok (o, w') →
  let q := CoastalChange.set_time up tr in
  match usable (CoastalChange.get_dataset_by_extent q) with
  | None => o = None
  | Some data =>
      ∃ mask, CoastalChange.clear_mask_of data = Ok mask
        ∧ o = Some (CoastalChange.processing_method data mask,
                    CoastalChange.metadata_from_dataset ∅ data mask q)
  end.
Proof.
  unfold CoastalChange._compute_mosaic. intros Hrun. simpl.
  destruct (usable _) as [data|]; [|congruence].
  bind_inv Hrun. injection Hrun as <- _. eauto.
Qed.

(** X3: what a coastal-change chunk worker that returns has done, with
    a temporary directory in place.  It has sent exactly two queries,
    the anchor period first and the comparison period second, also when
    the first one came back without usable data.  It returns [None]
    exactly when one of the two periods has no usable data, and then
    neither the counters nor the files have changed.  Otherwise it has
    counted one scene, the metadata of the comparison period override
    those of the anchor period, and the only file written is the
    chunk's artifact, holding the change product of the two mosaics. *)
Theorem coastal_processing_task_outcome
    (g t : nat) (gc : GeographicChunk) (tc : CoastalChange.TimeChunk)
    (p : CoastalChange.Parameters) (w : CoastalChange.W)
    (r : option ChunkResult) (w' : CoastalChange.W) :
  os_path_exists (fs w) (CoastalChange.temp_path (task w)) = true →
  CoastalChange.processing_task g t gc tc p w = Ok (r, w') →
  ∃ starting_year comparison_year,
    _get_datetime_range_containing (fst tc) = Ok starting_year
    ∧ _get_datetime_range_containing (snd tc) = Ok comparison_year
    ∧ let qo := CoastalChange.set_time (CoastalChange.update_geographic p gc) starting_year in
      let qn := CoastalChange.set_time (CoastalChange.update_geographic p gc) comparison_year in
      fetched w' = qn :: qo :: fetched w
      ∧ canvas w' = canvas w
      ∧ (r = None ↔ usable (CoastalChange.get_dataset_by_extent qo) = None
                     ∨ usable (CoastalChange.get_dataset_by_extent qn) = None)
      ∧ (r = None → task w' = task w ∧ fs w' = fs w)
      ∧ (∀ chunk, r = Some chunk →
           ∃ old new mask_old mask_new,
             usable (CoastalChange.get_dataset_by_extent qo) = Some old
             ∧ usable (CoastalChange.get_dataset_by_extent qn) = Some new
             ∧ CoastalChange.clear_mask_of old = Ok mask_old
             ∧ CoastalChange.clear_mask_of new = Ok mask_new
             ∧ task w' = CoastalChange.increment_scenes_processed (task w)
             ∧ chunk = mkChunk
                 (os_path_join (CoastalChange.temp_path (task w))
                               (CoastalChange.chunk_id g t +:+ ".nc"))
                 (CoastalChange.metadata_from_dataset ∅ new mask_new qn
                  ∪ CoastalChange.metadata_from_dataset ∅ old mask_old qo) g t
             ∧ fs w' = write_file (fs w) (cr_path chunk)
                 (NetCDF (CoastalChange.compute_coastal_change
                            (CoastalChange.processing_method old mask_old)
                            (CoastalChange.processing_method new mask_new)))).
Proof.
  intros Htemp Hrun. unfold CoastalChange.processing_task in Hrun.
  rewrite Htemp in Hrun. simpl in Hrun.
  bind_inv Hrun. rename a into s. bind_inv Hrun. rename a into c.
  bind_inv Hrun. destruct a as [old w1]. bind_inv Hrun. destruct a as [new w2].
  exists s, c. split; [assumption|]. split; [assumption|]. cbv zeta.
  pose proof (compute_mosaic_spec _ _ _ _ _ Hstep1) as Hw1.
  pose proof (compute_mosaic_spec _ _ _ _ _ Hstep2) as Hw2.
  pose proof (compute_mosaic_outcome _ _ _ _ _ Hstep1) as Hold.
  pose proof (compute_mosaic_outcome _ _ _ _ _ Hstep2) as Hnew.
  cbv zeta in Hold, Hnew. subst w1 w2.
  destruct (usable (CoastalChange.get_dataset_by_extent
              (CoastalChange.set_time (CoastalChange.update_geographic p gc) s)))
    as [dold|];
  destruct (usable (CoastalChange.get_dataset_by_extent
              (CoastalChange.set_time (CoastalChange.update_geographic p gc) c)))
    as [dnew|].
  - destruct Hold as (mo & Hmo & ->). destruct Hnew as (mn & Hmn & ->).
    simpl in Hrun. injection Hrun as <- <-. simpl.
    split; [reflexivity|]. split; [reflexivity|]. split; [|split].
    + split; [discriminate|intros [?|?]; discriminate].
    + discriminate.
    + intros chunk [= <-]. exists dold, dnew, mo, mn.
      repeat (split; [first [reflexivity|assumption]|]). reflexivity.
  - destruct Hold as (mo & Hmo & ->). subst new.
    simpl in Hrun. injection Hrun as <- <-. simpl.
    split; [reflexivity|]. split; [reflexivity|]. split; [|split]; try tauto.
    discriminate.
  - subst old. destruct Hnew as (mn & Hmn & ->).
    simpl in Hrun. injection Hrun as <- <-. simpl.
    split; [reflexivity|]. split; [reflexivity|]. split; [|split]; try tauto.
    discriminate.
  - subst old new.
    simpl in Hrun. injection Hrun as <- <-. simpl.
    split; [reflexivity|]. split; [reflexivity|]. split; [|split]; try tauto.
    discriminate.
Qed.

(** *** Chunking of the coastal-change task *)

Lemma dict_get_elem (k : Z) (d : list (Z * list datetime)) (v : list datetime) :
  CoastalChange.dict_get k d = Ok v → (k, v) ∈ d.
Proof.
  induction d as [|[k' v'] d IH]; simpl; [discriminate|].
  destruct (Z.eqb_spec k' k) as [->|Hne].
  - intros [= ->]. left.
  - intros Hget. right. auto.
Qed.

Lemma dict_get_absent (k : Z) (d : list (Z * list datetime)) :
  k ∉ d.*1 → CoastalChange.dict_get k d = Raise KeyError.
Proof.
  induction d as [|[k' v'] d IH]; simpl; [reflexivity|].
  intros Hnot. apply not_elem_of_cons in Hnot as [Hne Hnot].
  destruct (Z.eqb_spec k' k) as [->|_]; [contradiction|auto].
Qed.

Lemma dict_get_raises (k : Z) (d : list (Z * list datetime)) (e : exn) :
  CoastalChange.dict_get k d = Raise e → e = KeyError.
Proof.
  induction d as [|[k' v'] d IH]; simpl; [congruence|].
  destruct (k' =? k); [discriminate|exact IH].
Qed.


Lemma dict_pop_absent (k : Z) (d : list (Z * list datetime)) :
  k ∉ d.*1 → CoastalChange.dict_pop k d = Raise KeyError.
Proof.
  induction d as [|[k' v'] d IH]; simpl; [reflexivity|].
  intros Hnot. apply not_elem_of_cons in Hnot as [Hne Hnot].
  destruct (Z.eqb_spec k' k) as [->|_]; [contradiction|].
  rewrite IH by assumption. reflexivity.
Qed.

Lemma grouped_keys (dates : list datetime) (y : Z) :
  y ∈ (CoastalChange.group_datetimes_by_year dates).*1 ↔ y ∈ year <$> dates.
Proof.
  unfold CoastalChange.group_datetimes_by_year. split.
  - intros Hin. apply list_elem_of_fmap in Hin as ([y0 v] & -> & Hin).
    apply list_elem_of_fmap in Hin as (y' & [= -> ->] & Hy).
    rewrite elem_of_remove_dups in Hy. exact Hy.
  - intros Hin. rewrite <- elem_of_remove_dups in Hin.
    apply (list_elem_of_fmap_2 (λ y0, (y0, filter (λ d, year d = y0) dates))) in Hin.
    apply (list_elem_of_fmap_2 fst) in Hin. exact Hin.
Qed.


(** X4: [perform_task_chunking] of the coastal-change task raises
    [KeyError] when the acquisitions in the task's range have none in
    the year [time_start], or, without animation, none in the year
    [time_end].  The windows checked by [validate_parameters] are not
    these years, so the chain raises as well when validation has let
    the parameters through. *)
Theorem coastal_chunking_missing_year_key_error
    (p : CoastalChange.Parameters) (w : CoastalChange.W) :
  let years := λ q, year <$> CoastalChange.list_acquisition_dates q in
  let missing := λ q,
    CoastalChange.time_start (task w) ∉ years q
    ∨ (CoastalChange.animation_id (task w) = "none"
       ∧ CoastalChange.time_end (task w) ∉ years q) in
  (missing p → CoastalChange.perform_task_chunking (Some p) w = Raise KeyError)
  ∧ (∀ validated w1,
       CoastalChange.validate_parameters p w = Ok (Some validated, w1) →
       missing validated →
       CoastalChange.run_chain p w = Raise KeyError).
Proof.
  cbv zeta.
  assert (∀ q (w0 : CoastalChange.W),
            CoastalChange.time_start (task w0)
              ∉ year <$> CoastalChange.list_acquisition_dates q
            ∨ (CoastalChange.animation_id (task w0) = "none"
               ∧ CoastalChange.time_end (task w0)
                   ∉ year <$> CoastalChange.list_acquisition_dates q) →
            CoastalChange.perform_task_chunking (Some q) w0 = Raise KeyError) as Hchunk.
  { intros q w0 Hmissing. unfold CoastalChange.perform_task_chunking,
      CoastalChange.time_chunks_of.
    destruct (String.eqb_spec (CoastalChange.animation_id (task w0)) "none") as [Hnone|Hanim].
    - destruct (CoastalChange.dict_get (CoastalChange.time_start (task w0)) _)
        as [first_year|e] eqn:Hfirst.
      + simpl. rewrite dict_get_absent; [reflexivity|].
        rewrite grouped_keys. destruct Hmissing as [Hs|[_ He]]; [|exact He].
        apply dict_get_elem, (list_elem_of_fmap_2 fst) in Hfirst.
        apply grouped_keys in Hfirst. contradiction.
      + destruct Hmissing as [Hs|[_ He]].
        * rewrite dict_get_absent in Hfirst by (rewrite grouped_keys; exact Hs).
          injection Hfirst as <-. reflexivity.
        * simpl. f_equal. exact (dict_get_raises _ _ _ Hfirst).
    - destruct Hmissing as [Hs|[Hnone _]]; [|contradiction].
      rewrite dict_pop_absent by (rewrite grouped_keys; exact Hs). reflexivity. }
  split; [apply Hchunk|].
  intros validated w1 Hval Hmissing. unfold CoastalChange.run_chain.
  rewrite Hval. cbn [Py.bind].
  assert (task w1 = CoastalChange.update_status "WAIT" "Validated parameters." (task w))
    as Htask.
  { unfold CoastalChange.validate_parameters in Hval. bind_inv Hval.
    destruct a; [discriminate|]. injection Hval as _ <-. reflexivity. }
  rewrite Hchunk; [reflexivity|]. rewrite Htask. exact Hmissing.
Qed.


(** *** The chain of the water-detection task *)

(** X6: the chain [validate_parameters | perform_task_chunking |
    start_chunk_processing] of the water-detection task, when the data
    cube lists an acquisition.  Without a product it raises
    [IndexError] ([parameters['products'][0]]).  Otherwise it returns
    [True] with the canvas of the plan dispatched: the jobs carry the
    validated parameters (the default measurements when the asked ones
    are not valid for the first product), the acquisitions are listed
    again from these, the counters are initialised to the product of
    the chunk counts and the time chunk size, and the status is
    ["WAIT"], ["Starting processing."]. *)
Theorem water_run_chain_dispatches
    (p : WaterDetection.Parameters) (w : WaterDetection.W) :
  WaterDetection.list_combined_acquisition_dates p ≠ [] →
  match WaterDetection.products p with
  | [] => WaterDetection.run_chain p w = Raise IndexError
  | product0 :: _ =>
      let validated :=
        if WaterDetection.validate_measurements product0 (WaterDetection.measurements p)
        then p
        else WaterDetection.set_measurements p WaterDetection.default_measurements in
      let geographic_chunks :=
        WaterDetection.create_geographic_chunks
          (WaterDetection.longitude p) (WaterDetection.latitude p)
          (WaterDetection.chunk_size_geographic (task w)) in
      let time_chunks :=
        WaterDetection.create_time_chunks
          (WaterDetection.list_combined_acquisition_dates validated)
          (WaterDetection.reverse_time (task w))
          (WaterDetection.chunk_size_time (task w)) in
      ∃ w',
        WaterDetection.run_chain p w = Ok (Some true, w')
        ∧ canvas w'
          = Some (WaterDetection.build_canvas
                    (WaterDetection.mkDetails validated geographic_chunks time_chunks))
        ∧ task w'
          = WaterDetection.update_status "WAIT" "Starting processing."
              (WaterDetection.set_counters
                 (Z.of_nat (length geographic_chunks) * Z.of_nat (length time_chunks)
                  * WaterDetection.time_chunk_size_or_1 (task w))
                 0 (task w))
        ∧ fs w' = fs w ∧ fetched w' = fetched w
  end.
Proof.
  intros Hsome. unfold WaterDetection.run_chain, WaterDetection.validate_parameters.
  destruct (WaterDetection.list_combined_acquisition_dates p) as [|d0 ds] eqn:Hdates;
    [contradiction|].
  change (Z.of_nat (length (d0 :: ds)) <? 1) with (Z.of_nat (S (length ds)) <? 1).
  destruct (Z.ltb_spec (Z.of_nat (S (length ds))) 1) as [Hlt|_]; [lia|].
  destruct (WaterDetection.products p) as [|product0 rest]; [reflexivity|].
  cbv zeta. eexists. split; [reflexivity|]. simpl.
  assert (∀ b : bool,
            WaterDetection.longitude
              (if b then p
               else WaterDetection.set_measurements p WaterDetection.default_measurements)
            = WaterDetection.longitude p
            ∧ WaterDetection.latitude
                (if b then p
                 else WaterDetection.set_measurements p WaterDetection.default_measurements)
              = WaterDetection.latitude p) as Hsame by (intros []; split; reflexivity).
  destruct (Hsame (WaterDetection.validate_measurements product0
                     (WaterDetection.measurements p))) as [-> ->].
  repeat split; reflexivity.
Qed.

(** *** The water-detection chunk worker *)

(** X7: the water-detection chunk worker outside the iterative mode,
    with a temporary directory in place.  On an empty time chunk it
    raises [IndexError] ([time_chunk[0]]), whereas in iterative mode it
    returns [None] without a query.  On a time chunk with a first date
    [a] and a last date [b] a run that returns has sent one query, over
    the window from one microsecond before the earlier of [a] and [b]
    to one microsecond after the later; it has counted one scene when
    this query has usable data, whatever the number of dates, and
    returns [None] exactly when it has not. *)
Theorem water_processing_task_whole_range
    (g t : nat) (gc : GeographicChunk) (tc : WaterDetection.TimeChunk)
    (p : WaterDetection.Parameters) (w : WaterDetection.W) :
  os_path_exists (fs w) (WaterDetection.temp_path (task w)) = true →
  (tc = [] →
   WaterDetection.processing_task g t gc tc p w
   = if WaterDetection.iterative (task w) then Ok (None, w) else Raise IndexError)
  ∧ (WaterDetection.iterative (task w) = false →
     ∀ r w', WaterDetection.processing_task g t gc tc p w = Ok (r, w') →
       ∃ a b,
         Py.first tc = Ok a ∧ Py.last tc = Ok b
         ∧ let q := WaterDetection.set_time (WaterDetection.update_geographic p gc)
                      (sub_microsecond (if dt_ltb b a then b else a),
                       add_microsecond (if dt_ltb a b then b else a)) in
           fetched w' = q :: fetched w
           ∧ WaterDetection.scenes_processed (task w')
             = WaterDetection.scenes_processed (task w)
               + (if WaterDetection.has_data q then 1 else 0)
           ∧ (r = None ↔ WaterDetection.has_data q = false)).
Proof.
  intros Htemp. split.
  - intros ->. unfold WaterDetection.processing_task, WaterDetection.times_of.
    rewrite Htemp. destruct (WaterDetection.iterative (task w)); [|reflexivity].
    simpl. destruct w; reflexivity.
  - intros Hmode r w' Hrun. unfold WaterDetection.processing_task in Hrun.
    rewrite Htemp in Hrun. cbn [negb] in Hrun.
    bind_inv Hrun. rename a into times.
    unfold WaterDetection.times_of in Hstep. rewrite Hmode in Hstep.
    bind_inv Hstep. bind_inv Hstep. rename a0 into b.
    exists a, b. split; [assumption|]. split; [assumption|]. cbv zeta.
    simpl in Hstep. injection Hstep as <-.
    bind_inv Hrun. destruct a0 as [[wa md] w1].
    apply process_times_spec in Hstep as (Hfetched & _ & Htask & Hnone).
    cbn [enumerate length seq combine fmap list_fmap snd rev app] in Hfetched, Htask, Hnone.
    assert (fetched w' = fetched w1
            ∧ WaterDetection.scenes_processed (task w')
              = WaterDetection.scenes_processed (task w1)
            ∧ (r = None ↔ wa = None)) as (Hf & Hs & Hr).
    { destruct wa as [wa|]; injection Hrun as <- <-; simpl.
      - split; [reflexivity|]. split; [reflexivity|]. split; discriminate.
      - split; [reflexivity|]. split; [reflexivity|]. split; reflexivity. }
    rewrite Hf, Hs, Hr, Hfetched, Htask, Hnone. clear.
    unfold List.filter.
    destruct (WaterDetection.has_data _); simpl.
    + split; [reflexivity|]. split; [reflexivity|]. split; [intros [_ ?]|]; discriminate.
    + split; [reflexivity|]. split; [lia|]. split; auto.
Qed.

(** *** The geographic recombiners *)






(** *** The temporal recombiners *)

Lemma none_in_or_not {A} (l : list (option A)) : None ∈ l ∨ None ∉ l.
Proof.
  induction l as [|[x|] l [IH|IH]].
  - right. intros Hin. inversion Hin.
  - left. right. exact IH.
  - right. intros Hin. apply elem_of_cons in Hin as [?|?]; [discriminate|contradiction].
  - left. left.
  - left. left.
Qed.

Lemma coastal_total_chunks_spec (chunks : chunks_arg) :
  (None ∈ as_list chunks → CoastalChange.total_chunks_by_time chunks = Raise TypeError)
  ∧ (None ∉ as_list chunks →
     ∃ total, CoastalChange.total_chunks_by_time chunks = Ok total
       ∧ total ≡ₚ drop_none (as_list chunks)).
Proof.
  destruct chunks as [l|[c|]]; simpl.
  - destruct (all_subscriptable_spec l) as [Hin Hout]. split.
    + intros H. rewrite (Hin H). reflexivity.
    + intros H. rewrite (Hout H). simpl. eexists. split; [reflexivity|].
      apply sorted_Permutation.
  - split; [intros Hin|intros _; eexists; split; reflexivity].
    apply list_elem_of_singleton in Hin. discriminate.
  - split; [reflexivity|]. intros Hout. exfalso. apply Hout. left.
Qed.

(** X10: the temporal recombiners on results that are [None].  The
    water-detection recombiner drops them and raises [IndexError] when
    none is left.  The coastal-change recombiner has no such filter: a
    [None] anywhere in the list, or alone, raises [TypeError], and
    [IndexError] is left for the empty list. *)
Theorem recombine_time_chunks_none_results
    (wc : CoastalChange.W) (ww : WaterDetection.W) (chunks : chunks_arg) :
  (Forall (λ c, c = None) (as_list chunks) →
   WaterDetection.recombine_time_chunks chunks ww = Raise IndexError)
  ∧ (None ∈ as_list chunks →
     CoastalChange.recombine_time_chunks chunks wc = Raise TypeError)
  ∧ (chunks = ResultList [] →
     CoastalChange.recombine_time_chunks chunks wc = Raise IndexError).
Proof.
  split; [|split].
  - intros Hall. unfold WaterDetection.recombine_time_chunks,
      WaterDetection.total_chunks_by_time.
    rewrite (drop_none_all_none _ Hall). reflexivity.
  - intros Hin. unfold CoastalChange.recombine_time_chunks.
    rewrite (proj1 (coastal_total_chunks_spec chunks) Hin). reflexivity.
  - intros ->. reflexivity.
Qed.

(** X11: the order in which the results of a group arrive does not
    matter to the temporal recombiners when the results name different
    artifacts: [sorted] brings every arrival order of the same results
    to the same list, so both recombiners return the same result and
    leave the same files, or raise the same exception. *)
Theorem recombine_time_chunks_arrival_order
    (l1 l2 : list (option ChunkResult))
    (wc : CoastalChange.W) (ww : WaterDetection.W) :
  l1 ≡ₚ l2 →
  NoDup (cr_path <$> drop_none l1) →
  WaterDetection.total_chunks_by_time (ResultList l1)
  = WaterDetection.total_chunks_by_time (ResultList l2)
  ∧ WaterDetection.recombine_time_chunks (ResultList l1) ww
    = WaterDetection.recombine_time_chunks (ResultList l2) ww
  ∧ CoastalChange.total_chunks_by_time (ResultList l1)
    = CoastalChange.total_chunks_by_time (ResultList l2)
  ∧ CoastalChange.recombine_time_chunks (ResultList l1) wc
    = CoastalChange.recombine_time_chunks (ResultList l2) wc.
Proof.
  intros Hperm Hnodup.
  assert (sorted cr_path (drop_none l1) = sorted cr_path (drop_none l2)) as Hsorted.
  { apply sorted_arrival_order; [|exact Hnodup].
    unfold drop_none. rewrite Hperm. reflexivity. }
  assert (WaterDetection.total_chunks_by_time (ResultList l1)
          = WaterDetection.total_chunks_by_time (ResultList l2)) as Hwater
    by exact Hsorted.
  assert (CoastalChange.total_chunks_by_time (ResultList l1)
          = CoastalChange.total_chunks_by_time (ResultList l2)) as Hcoastal.
  { simpl. destruct (none_in_or_not l1) as [Hin|Hout].
    - rewrite (proj1 (all_subscriptable_spec l1) Hin).
      rewrite Hperm in Hin.
      rewrite (proj1 (all_subscriptable_spec l2) Hin). reflexivity.
    - rewrite (proj2 (all_subscriptable_spec l1) Hout).
      rewrite Hperm in Hout.
      rewrite (proj2 (all_subscriptable_spec l2) Hout). simpl. rewrite Hsorted.
      reflexivity. }
  split; [exact Hwater|]. split; [|split; [exact Hcoastal|]].
  - unfold WaterDetection.recombine_time_chunks. rewrite Hwater. reflexivity.
  - unfold CoastalChange.recombine_time_chunks. rewrite Hcoastal. reflexivity.
Qed.

(** X12: the temporal recombiners neither lose nor invent a metadata
    key: a key is missing from the merged metadata exactly when every
    result that is not [None] lacks it, and a value found under a key
    is the value one of these results has under it. *)
Theorem recombine_time_chunks_metadata_keys (chunks : chunks_arg) (k : string) :
  (∀ (wc : CoastalChange.W) r wc',
     CoastalChange.recombine_time_chunks chunks wc = Ok (r, wc') →
     (cr_metadata r !! k = None
      ↔ Forall (λ c, cr_metadata c !! k = None) (drop_none (as_list chunks)))
     ∧ ∀ v, cr_metadata r !! k = Some v →
            ∃ c, c ∈ drop_none (as_list chunks) ∧ cr_metadata c !! k = Some v)
  ∧ (∀ (ww : WaterDetection.W) r ww',
       WaterDetection.recombine_time_chunks chunks ww = Ok (r, ww') →
       (cr_metadata r !! k = None
        ↔ Forall (λ c, cr_metadata c !! k = None) (drop_none (as_list chunks)))
       ∧ ∀ v, cr_metadata r !! k = Some v →
              ∃ c, c ∈ drop_none (as_list chunks) ∧ cr_metadata c !! k = Some v).
Proof.
  assert (∀ total (md : Metadata),
            total ≡ₚ drop_none (as_list chunks) →
            md = update_all ∅ total →
            (md !! k = None
             ↔ Forall (λ c, cr_metadata c !! k = None) (drop_none (as_list chunks)))
            ∧ ∀ v, md !! k = Some v →
                   ∃ c, c ∈ drop_none (as_list chunks) ∧ cr_metadata c !! k = Some v)
    as Hmerge.
  { intros total md Hperm ->.
    destruct (update_all_lookup total ∅ k) as [Hnone Hsome]. split.
    - rewrite Hnone, lookup_empty, Hperm. tauto.
    - intros v Hv. apply Hsome in Hv as [Hv|(c & Hin & Hc)].
      + rewrite lookup_empty in Hv. discriminate.
      + exists c. rewrite <- Hperm. auto. }
  split.
  - intros wc r wc' Hrun. unfold CoastalChange.recombine_time_chunks in Hrun.
    bind_inv Hrun. rename a into total. bind_inv Hrun. bind_inv Hrun.
    injection Hrun as <- _. cbn [cr_metadata].
    apply (Hmerge total); [|reflexivity].
    destruct (none_in_or_not (as_list chunks)) as [Hin|Hout].
    + rewrite (proj1 (coastal_total_chunks_spec chunks) Hin) in Hstep. discriminate.
    + destruct (proj2 (coastal_total_chunks_spec chunks) Hout) as (total' & Heq & Hperm).
      rewrite Heq in Hstep. injection Hstep as <-. exact Hperm.
  - intros ww r ww' Hrun.
    apply (Hmerge (WaterDetection.total_chunks_by_time chunks)).
    + apply sorted_Permutation.
    + exact (water_recombine_time_metadata _ _ _ _ Hrun).
Qed.

(** *** Artifacts of different jobs *)

(** X13: the artifacts of the temporary directory do not collide.  Two
    chunk workers with different [(geo, time)] ids write different
    files, two geographic recombiners with different time chunk ids
    write different files, and no chunk artifact is a recombined one. *)
Theorem artifact_names_do_not_collide (temp : string) :
  (∀ g t g' t',
     os_path_join temp (CoastalChange.chunk_id g t +:+ ".nc")
     = os_path_join temp (CoastalChange.chunk_id g' t' +:+ ".nc") →
     g = g' ∧ t = t')
  ∧ (∀ g t g' t',
       os_path_join temp (WaterDetection.chunk_id g t +:+ ".nc")
       = os_path_join temp (WaterDetection.chunk_id g' t' +:+ ".nc") →
       g = g' ∧ t = t')
  ∧ (∀ t t',
       os_path_join temp (recombined_geo_name t)
       = os_path_join temp (recombined_geo_name t') →
       t = t')
  ∧ (∀ g t t',
       os_path_join temp (CoastalChange.chunk_id g t +:+ ".nc")
       ≠ os_path_join temp (recombined_geo_name t')
       ∧ os_path_join temp (WaterDetection.chunk_id g t +:+ ".nc")
         ≠ os_path_join temp (recombined_geo_name t')).
Proof.
  assert (∀ g t g' t',
            os_path_join temp ((str g +:+ "_" +:+ str t) +:+ ".nc")
            = os_path_join temp ((str g' +:+ "_" +:+ str t') +:+ ".nc") →
            g = g' ∧ t = t') as Hchunk.
  { intros g t g' t' Heq. apply chunk_name_inj.
    destruct (chunk_name_head g t) as (h & rest & Hh & Hsep & _).
    destruct (chunk_name_head g' t') as (h' & rest' & Hh' & Hsep' & _).
    apply (os_path_join_inj temp); [| |exact Heq].
    - rewrite Hh. apply startswith_sep_head. exact Hsep.
    - rewrite Hh'. apply startswith_sep_head. exact Hsep'. }
  assert (∀ g t t',
            os_path_join temp ((str g +:+ "_" +:+ str t) +:+ ".nc")
            ≠ os_path_join temp (recombined_geo_name t')) as Hother.
  { intros g t t'. destruct (chunk_name_head g t) as (h & rest & Hh & Hsep & Hr & _).
    eapply os_path_join_heads; [exact Hh|reflexivity|exact Hsep|discriminate|exact Hr]. }
  split; [exact Hchunk|]. split; [exact Hchunk|]. split.
  - intros t t' Heq. apply recombined_geo_name_inj.
    apply (os_path_join_inj temp); [reflexivity|reflexivity|exact Heq].
  - intros g t t'. split; apply Hother.
Qed.

Lemma coastal_processing_task_files
    (g t : nat) (gc : GeographicChunk) (tc : CoastalChange.TimeChunk)
    (p : CoastalChange.Parameters) (w : CoastalChange.W)
    (r : option ChunkResult) (w' : CoastalChange.W) :
  CoastalChange.processing_task g t gc tc p w = Ok (r, w') →
  dirs (fs w') = dirs (fs w)
  ∧ ∀ path,
      path ≠ os_path_join (CoastalChange.temp_path (task w))
                          (CoastalChange.chunk_id g t +:+ ".nc") →
      files (fs w') !! path = files (fs w) !! path.
Proof.
  unfold CoastalChange.processing_task. intros Hrun.
  destruct (negb (os_path_exists (fs w) (CoastalChange.temp_path (task w)))).
  { injection Hrun as _ <-. split; [reflexivity|]. intros; reflexivity. }
  bind_inv Hrun. bind_inv Hrun. bind_inv Hrun. destruct a1 as [old w1].
  bind_inv Hrun. destruct a1 as [new w2].
  apply compute_mosaic_spec in Hstep1, Hstep2. subst w1 w2.
  destruct old as [[om omd]|], new as [[nm nmd]|]; injection Hrun as _ <-;
    (split; [reflexivity|]); intros path Hne; simpl; try reflexivity.
  apply lookup_insert_ne. intros Heq. apply Hne. symmetry. exact Heq.
Qed.

Lemma water_process_times_files (g : nat) (b : Z) (up : WaterDetection.Parameters)
    (times : list (nat * (datetime * datetime)))
    (wa : option Dataset) (md : Metadata) (w : WaterDetection.W)
    (wa' : option Dataset) (md' : Metadata) (w' : WaterDetection.W) :
  WaterDetection.process_times g b up (wa, md, w) times = Ok (wa', md', w') →
  WaterDetection.temp_path (task w') = WaterDetection.temp_path (task w)
  ∧ dirs (fs w') = dirs (fs w)
  ∧ ∀ path,
      (∀ step, path ≠ os_path_join (WaterDetection.temp_path (task w))
                                   (WaterDetection.geo_frame_name g step)) →
      files (fs w') !! path = files (fs w) !! path.
Proof.
  revert wa md w. induction times as [|[i tr] times IH]; intros wa md w; simpl.
  - intros [= <- <- <-]. split; [reflexivity|]. split; [reflexivity|].
    intros; reflexivity.
  - intros Hrun. bind_inv Hrun. destruct a as [[wa1 md1] w1].
    apply IH in Hrun as (Htemp & Hdirs & Hfiles).
    assert (WaterDetection.temp_path (task w1) = WaterDetection.temp_path (task w)
            ∧ dirs (fs w1) = dirs (fs w)
            ∧ ∀ path,
                (∀ step, path ≠ os_path_join (WaterDetection.temp_path (task w))
                                             (WaterDetection.geo_frame_name g step)) →
                files (fs w1) !! path = files (fs w) !! path) as (Htemp1 & Hdirs1 & Hfiles1).
    { unfold WaterDetection.process_time in Hstep.
      destruct (usable _) as [data|].
      - bind_inv Hstep. injection Hstep as _ _ <-.
        destruct (negb (String.eqb (WaterDetection.animation_id (task w)) "none")); simpl.
        + split; [reflexivity|]. split; [reflexivity|]. intros path Hne.
          apply lookup_insert_ne. intros Heq. apply (Hne (b + Z.of_nat i)).
          symmetry. exact Heq.
        + split; [reflexivity|]. split; [reflexivity|]. intros; reflexivity.
      - injection Hstep as _ _ <-. simpl.
        split; [reflexivity|]. split; [reflexivity|]. intros; reflexivity. }
    split; [congruence|]. split; [congruence|].
    intros path Hne. rewrite Hfiles by (rewrite Htemp1; exact Hne).
    apply Hfiles1. exact Hne.
Qed.

Lemma water_processing_task_files
    (g t : nat) (gc : GeographicChunk) (tc : WaterDetection.TimeChunk)
    (p : WaterDetection.Parameters) (w : WaterDetection.W)
    (r : option ChunkResult) (w' : WaterDetection.W) :
  WaterDetection.processing_task g t gc tc p w = Ok (r, w') →
  dirs (fs w') = dirs (fs w)
  ∧ ∀ path,
      path ≠ os_path_join (WaterDetection.temp_path (task w))
                          (WaterDetection.chunk_id g t +:+ ".nc") →
      (∀ step, path ≠ os_path_join (WaterDetection.temp_path (task w))
                                   (WaterDetection.geo_frame_name g step)) →
      files (fs w') !! path = files (fs w) !! path.
Proof.
  unfold WaterDetection.processing_task. intros Hrun.
  destruct (negb (os_path_exists (fs w) (WaterDetection.temp_path (task w)))).
  { injection Hrun as _ <-. split; [reflexivity|]. intros; reflexivity. }
  bind_inv Hrun. bind_inv Hrun. destruct a0 as [[wa md] w1].
  apply water_process_times_files in Hstep0 as (Htemp & Hdirs & Hfiles).
  destruct wa as [wa|]; injection Hrun as _ <-; simpl.
  - split; [exact Hdirs|]. intros path Hne Hframes.
    rewrite lookup_insert_ne; [apply Hfiles; exact Hframes|].
    rewrite Htemp. intros Heq. apply Hne. symmetry. exact Heq.
  - split; [exact Hdirs|]. intros path _ Hframes. apply Hfiles. exact Hframes.
Qed.

Lemma geo_frame_name_eq (g : nat) (step : Z) :
  WaterDetection.geo_frame_name g step
  = "animation_" +:+ (str g +:+ String "_" (str_int step +:+ ".nc")).
Proof. reflexivity. Qed.

(** X14: a chunk worker that returns has left every other job's files
    alone.  It creates no directory; the coastal-change worker changes
    no file but its own artifact; and neither worker changes the
    artifact of a job with other [(geo, time)] ids or the artifact of a
    geographic recombiner.  The water-detection worker, which also
    writes animation frames, changes no frame of another geographic
    chunk. *)
Theorem processing_task_leaves_other_artifacts (g t : nat) :
  (∀ gc tc p (w : CoastalChange.W) r w',
     CoastalChange.processing_task g t gc tc p w = Ok (r, w') →
     let temp := CoastalChange.temp_path (task w) in
     dirs (fs w') = dirs (fs w)
     ∧ (∀ path, path ≠ os_path_join temp (CoastalChange.chunk_id g t +:+ ".nc") →
          files (fs w') !! path = files (fs w) !! path)
     ∧ (∀ g' t', (g', t') ≠ (g, t) →
          files (fs w') !! os_path_join temp (CoastalChange.chunk_id g' t' +:+ ".nc")
          = files (fs w) !! os_path_join temp (CoastalChange.chunk_id g' t' +:+ ".nc"))
     ∧ (∀ t', files (fs w') !! os_path_join temp (recombined_geo_name t')
              = files (fs w) !! os_path_join temp (recombined_geo_name t')))
  ∧ (∀ gc tc p (w : WaterDetection.W) r w',
       WaterDetection.processing_task g t gc tc p w = Ok (r, w') →
       let temp := WaterDetection.temp_path (task w) in
       dirs (fs w') = dirs (fs w)
       ∧ (∀ g' t', (g', t') ≠ (g, t) →
            files (fs w') !! os_path_join temp (WaterDetection.chunk_id g' t' +:+ ".nc")
            = files (fs w) !! os_path_join temp (WaterDetection.chunk_id g' t' +:+ ".nc"))
       ∧ (∀ t', files (fs w') !! os_path_join temp (recombined_geo_name t')
                = files (fs w) !! os_path_join temp (recombined_geo_name t'))
       ∧ (∀ g' step, g' ≠ g →
            files (fs w') !! os_path_join temp (WaterDetection.geo_frame_name g' step)
            = files (fs w) !! os_path_join temp (WaterDetection.geo_frame_name g' step))).
Proof.
  assert (∀ temp g1 t1 g2 t2, (g1, t1) ≠ (g2, t2) →
            os_path_join temp ((str g1 +:+ "_" +:+ str t1) +:+ ".nc")
            ≠ os_path_join temp ((str g2 +:+ "_" +:+ str t2) +:+ ".nc")) as Hchunk.
  { intros temp g1 t1 g2 t2 Hne Heq. apply Hne.
    destruct (chunk_name_head g1 t1) as (h & rest & Hh & Hsep & _).
    destruct (chunk_name_head g2 t2) as (h' & rest' & Hh' & Hsep' & _).
    apply os_path_join_inj in Heq.
    - apply chunk_name_inj in Heq as [-> ->]. reflexivity.
    - rewrite Hh. apply startswith_sep_head. exact Hsep.
    - rewrite Hh'. apply startswith_sep_head. exact Hsep'. }
  assert (∀ temp g1 t1 t2,
            os_path_join temp (recombined_geo_name t2)
            ≠ os_path_join temp ((str g1 +:+ "_" +:+ str t1) +:+ ".nc")) as Hrecombined.
  { intros temp g1 t1 t2.
    destruct (chunk_name_head g1 t1) as (h & rest & Hh & Hsep & Hr & _).
    eapply os_path_join_heads; [reflexivity|exact Hh|discriminate|exact Hsep|].
    intros Heq. apply Hr. symmetry. exact Heq. }
  split.
  - intros gc tc p w r w' Hrun. cbv zeta.
    apply coastal_processing_task_files in Hrun as [Hdirs Hfiles].
    split; [exact Hdirs|]. split; [exact Hfiles|]. split.
    + intros g' t' Hne. apply Hfiles. apply Hchunk. exact Hne.
    + intros t'. apply Hfiles. apply Hrecombined.
  - intros gc tc p w r w' Hrun. cbv zeta.
    apply water_processing_task_files in Hrun as [Hdirs Hfiles].
    split; [exact Hdirs|]. split; [|split].
    + intros g' t' Hne. apply Hfiles; [apply Hchunk; exact Hne|].
      intros step. destruct (chunk_name_head g' t') as (h & rest & Hh & Hsep & _ & Ha).
      eapply os_path_join_heads; [exact Hh|reflexivity|exact Hsep|discriminate|exact Ha].
    + intros t'. apply Hfiles; [apply Hrecombined|].
      intros step.
      eapply os_path_join_heads; [reflexivity|reflexivity|discriminate|discriminate|discriminate].
    + intros g' step Hne. apply Hfiles.
      * destruct (chunk_name_head g t) as (h & rest & Hh & Hsep & _ & Ha).
        eapply os_path_join_heads; [reflexivity|exact Hh|discriminate|exact Hsep|].
        intros Heq. apply Ha. symmetry. exact Heq.
      * intros step' Heq. apply Hne.
        apply os_path_join_inj in Heq; [|reflexivity..].
        rewrite !geo_frame_name_eq in Heq. apply append_cancel_l in Heq.
        apply str_separated in Heq as [Hg _]; [exact Hg|left; reflexivity..].
Qed.

(** *** The totals of the temporal fold *)

Lemma band_sum_cons (b : string) (d : Dataset) (ds : list Dataset) :
  (∀ x y z, xr_add x (xr_add y z) = xr_add (xr_add x y) z) →
  WaterDetection.band_sum b (d :: ds)
  = match ds with
    | [] => d !! b
    | _ :: _ =>
        match d !! b, WaterDetection.band_sum b ds with
        | Some x, Some s => Some (xr_add x s)
        | _, _ => None
        end
    end.
Proof.
  intros Hassoc. destruct ds as [|d1 rest]; [reflexivity|].
  unfold WaterDetection.band_sum. simpl.
  generalize (d1 !! b) as a. generalize (d !! b) as x.
  induction rest as [|d2 rest IH]; intros x a; simpl.
  - destruct x, a; reflexivity.
  - rewrite <- IH. f_equal.
    destruct x as [x|], a as [a|], (d2 !! b) as [y|]; try reflexivity.
    rewrite Hassoc. reflexivity.
Qed.

Lemma band_sum_arrival_order (b : string) (ds1 ds2 : list Dataset) :
  (∀ x y, xr_add x y = xr_add y x) →
  (∀ x y z, xr_add x (xr_add y z) = xr_add (xr_add x y) z) →
  ds1 ≡ₚ ds2 →
  WaterDetection.band_sum b ds1 = WaterDetection.band_sum b ds2.
Proof.
  intros Hcomm Hassoc Hperm.
  induction Hperm as [|d l1 l2 Hperm IH|d1 d2 l|l1 l2 l3 H12 IH12 H23 IH23].
  - reflexivity.
  - rewrite !band_sum_cons by exact Hassoc. rewrite IH.
    destruct l1 as [|a l1], l2 as [|a' l2]; try reflexivity.
    + apply Permutation_nil_l in Hperm. discriminate.
    + apply Permutation_nil_r in Hperm. discriminate.
  - rewrite (band_sum_cons b d2), (band_sum_cons b d1 (d2 :: l)) by exact Hassoc.
    rewrite (band_sum_cons b d1 l), (band_sum_cons b d2 l) by exact Hassoc.
    destruct l as [|d3 l].
    + destruct (d1 !! b), (d2 !! b); try reflexivity. rewrite Hcomm. reflexivity.
    + destruct (d1 !! b) as [x|], (d2 !! b) as [y|],
        (WaterDetection.band_sum b (d3 :: l)) as [s|]; try reflexivity.
      rewrite !Hassoc, (Hcomm y x). reflexivity.
  - congruence.
Qed.

Lemma water_recombine_time_fold
    (chunks : chunks_arg) (w : WaterDetection.W) (r : ChunkResult)
    (w' : WaterDetection.W) :
  WaterDetection.recombine_time_chunks chunks w = Ok (r, w') →
  ∃ ds acc,
    Forall2 (λ c d, files (fs w) !! cr_path c = Some (NetCDF d))
            (WaterDetection.total_chunks_by_time chunks) ds
    ∧ ds ≠ []
    ∧ WaterDetection.fold_intermediates None ds = Ok (Some acc)
    ∧ files (fs w') !! cr_path r = Some (NetCDF acc).
Proof.
  intros Hrun. unfold WaterDetection.recombine_time_chunks in Hrun.
  bind_inv Hrun. rename a into chunk0. bind_inv Hrun. destruct a as [[md co] f].
  apply (combine_times_spec _ (fs w)) in Hstep0 as (_ & (ds & Hds & Hfold) & _); [|auto].
  rewrite snd_enumerate in Hds.
  destruct co as [acc|]; [|discriminate]. injection Hrun as <- <-.
  exists ds, acc. split; [exact Hds|]. split.
  - destruct (WaterDetection.total_chunks_by_time chunks); [discriminate|].
    inversion Hds. discriminate.
  - split; [exact Hfold|]. simpl. apply lookup_insert_eq.
Qed.

(** X15: when the addition of rasters is commutative and associative,
    the order in which the temporal recombiner of the water-detection
    task takes the chunks does not change the totals it writes: the
    bands [total_data] and [total_clean] of the final artifact are the
    sums over the stored datasets taken in any order, and with two or
    more datasets [normalized_data] is the ratio of these sums. *)
Theorem temporal_totals_in_any_order
    (chunks : chunks_arg) (w : WaterDetection.W)
    (r : ChunkResult) (w' : WaterDetection.W) :
  (∀ x y, xr_add x y = xr_add y x) →
  (∀ x y z, xr_add x (xr_add y z) = xr_add (xr_add x y) z) →
  WaterDetection.recombine_time_chunks chunks w = Ok (r, w') →
  ∃ ds acc,
    Forall2 (λ c d, files (fs w) !! cr_path c = Some (NetCDF d))
            (WaterDetection.total_chunks_by_time chunks) ds
    ∧ files (fs w') !! cr_path r = Some (NetCDF acc)
    ∧ ∀ ds', ds' ≡ₚ ds →
        acc !! "total_data" = WaterDetection.band_sum "total_data" ds'
        ∧ acc !! "total_clean" = WaterDetection.band_sum "total_clean" ds'
        ∧ ((2 ≤ length ds')%nat →
           acc !! "normalized_data" = WaterDetection.ratio_from_scratch ds').
Proof.
  intros Hcomm Hassoc Hrun.
  apply water_recombine_time_fold in Hrun as (ds & acc & Hds & Hne & Hfold & Hfile).
  exists ds, acc. split; [exact Hds|]. split; [exact Hfile|].
  intros ds' Hperm.
  apply fold_intermediates_sums in Hfold as (acc' & [= <-] & Hd & Hc & Hn); [|exact Hne].
  unfold WaterDetection.ratio_from_scratch in *.
  rewrite (band_sum_arrival_order "total_data" ds' ds Hcomm Hassoc Hperm).
  rewrite (band_sum_arrival_order "total_clean" ds' ds Hcomm Hassoc Hperm).
  split; [exact Hd|]. split; [exact Hc|].
  intros Hlen. apply Hn. rewrite <- Hperm. exact Hlen.
Qed.

(** *** The result of the temporal recombiners *)

(** X25: which chunks the result of a temporal recombiner is made of.
    Among the results that are not [None], let the least and the
    greatest be taken in the string order of the artifact paths.  The
    coastal-change recombiner changes nothing, and its result carries
    the ids of the least one and the path of the greatest one; the
    water-detection recombiner's result carries the ids of the least
    one and is named [recombined_time_<geo id of the least>.nc]. *)
Theorem recombine_time_chunks_least_and_greatest (chunks : chunks_arg) :
  (∀ (wc : CoastalChange.W) r wc',
     CoastalChange.recombine_time_chunks chunks wc = Ok (r, wc') →
     wc' = wc
     ∧ ∃ least greatest,
         least ∈ drop_none (as_list chunks)
         ∧ greatest ∈ drop_none (as_list chunks)
         ∧ (∀ c, c ∈ drop_none (as_list chunks) →
              String.ltb (cr_path c) (cr_path least) = false
              ∧ String.ltb (cr_path greatest) (cr_path c) = false)
         ∧ cr_path r = cr_path greatest
         ∧ cr_geo_chunk_id r = cr_geo_chunk_id least
         ∧ cr_time_chunk_id r = cr_time_chunk_id least)
  ∧ (∀ (ww : WaterDetection.W) r ww',
       WaterDetection.recombine_time_chunks chunks ww = Ok (r, ww') →
       ∃ least,
         least ∈ drop_none (as_list chunks)
         ∧ (∀ c, c ∈ drop_none (as_list chunks) →
              String.ltb (cr_path c) (cr_path least) = false)
         ∧ cr_path r
           = os_path_join (WaterDetection.temp_path (task ww))
               ("recombined_time_" +:+ str (cr_geo_chunk_id least) +:+ ".nc")
         ∧ cr_geo_chunk_id r = cr_geo_chunk_id least
         ∧ cr_time_chunk_id r = cr_time_chunk_id least).
Proof.
  split.
  - intros wc r wc' Hrun. unfold CoastalChange.recombine_time_chunks in Hrun.
    bind_inv Hrun. rename a into total. bind_inv Hrun. rename a into least.
    bind_inv Hrun. rename a into greatest. injection Hrun as <- <-.
    split; [reflexivity|]. exists least, greatest. cbn [cr_path cr_geo_chunk_id
                                                         cr_time_chunk_id].
    assert (Sorted.StronglySorted (λ a b, String.ltb (cr_path b) (cr_path a) = false) total
            ∧ total ≡ₚ drop_none (as_list chunks)) as [Hsorted Hperm].
    { destruct (none_in_or_not (as_list chunks)) as [Hin|Hout].
      - rewrite (proj1 (coastal_total_chunks_spec chunks) Hin) in Hstep. discriminate.
      - destruct (proj2 (coastal_total_chunks_spec chunks) Hout) as (total' & Heq & Hperm).
        rewrite Heq in Hstep. injection Hstep as <-. split; [|exact Hperm].
        destruct chunks as [l|c]; simpl in Heq.
        + rewrite (proj2 (all_subscriptable_spec l) Hout) in Heq.
          injection Heq as <-. apply sorted_sorted.
        + destruct c as [c|]; [|discriminate]. injection Heq as <-.
          repeat constructor. }
    destruct (sorted_first_least cr_path total least Hsorted Hstep0) as [Hl Hleast].
    destruct (sorted_last_greatest cr_path total greatest Hsorted Hstep1) as [Hg Hgreatest].
    split; [rewrite <- Hperm; exact Hl|]. split; [rewrite <- Hperm; exact Hg|].
    split; [|repeat split; reflexivity].
    intros c Hc. rewrite <- Hperm in Hc. split; [apply Hleast|apply Hgreatest]; exact Hc.
  - intros ww r ww' Hrun. unfold WaterDetection.recombine_time_chunks in Hrun.
    bind_inv Hrun. rename a into least. bind_inv Hrun. destruct a as [[md co] f].
    destruct co as [combined|]; [|discriminate]. injection Hrun as <- _.
    exists least. cbn [cr_path cr_geo_chunk_id cr_time_chunk_id].
    destruct (sorted_first_least cr_path _ least
                (sorted_sorted cr_path (drop_none (as_list chunks))) Hstep)
      as [Hl Hleast].
    unfold WaterDetection.total_chunks_by_time in Hl, Hleast.
    rewrite sorted_Permutation in Hl.
    split; [exact Hl|]. split; [|repeat split; reflexivity].
    intros c Hc. apply Hleast. rewrite sorted_Permutation. exact Hc.
Qed.

(** *** The frames of the water-detection geographic recombiner *)


(** *** The exceptions and the frames of the chunk workers *)






Lemma water_process_times_frames (g : nat) (b : Z) (up : WaterDetection.Parameters)
    (times : list (nat * (datetime * datetime)))
    (wa : option Dataset) (md : Metadata) (w : WaterDetection.W)
    (wa' : option Dataset) (md' : Metadata) (w' : WaterDetection.W) :
  WaterDetection.process_times g b up (wa, md, w) times = Ok (wa', md', w') →
  WaterDetection.temp_path (task w') = WaterDetection.temp_path (task w)
  ∧ WaterDetection.animation_id (task w') = WaterDetection.animation_id (task w)
  ∧ ∀ path,
      (WaterDetection.animation_id (task w) = "none"
       ∨ ∀ i tr, (i, tr) ∈ times →
           path ≠ os_path_join (WaterDetection.temp_path (task w))
                               (WaterDetection.geo_frame_name g (b + Z.of_nat i))) →
      files (fs w') !! path = files (fs w) !! path.
Proof.
  revert wa md w. induction times as [|[i tr] times IH]; intros wa md w; simpl.
  - intros [= <- <- <-]. split; [reflexivity|]. split; [reflexivity|].
    intros; reflexivity.
  - intros Hrun. bind_inv Hrun. destruct a as [[wa1 md1] w1].
    apply IH in Hrun as (Htemp & Hanim & Hfiles).
    assert (WaterDetection.temp_path (task w1) = WaterDetection.temp_path (task w)
            ∧ WaterDetection.animation_id (task w1) = WaterDetection.animation_id (task w)
            ∧ ∀ path,
                (WaterDetection.animation_id (task w) = "none"
                 ∨ path ≠ os_path_join (WaterDetection.temp_path (task w))
                                        (WaterDetection.geo_frame_name g (b + Z.of_nat i))) →
                files (fs w1) !! path = files (fs w) !! path)
      as (Htemp1 & Hanim1 & Hfiles1).
    { unfold WaterDetection.process_time in Hstep.
      destruct (usable _) as [data|].
      - bind_inv Hstep. injection Hstep as _ _ <-.
        destruct (String.eqb_spec (WaterDetection.animation_id (task w)) "none")
          as [Hnone|Hne]; cbn [negb]; simpl.
        + split; [reflexivity|]. split; [reflexivity|]. intros; reflexivity.
        + split; [reflexivity|]. split; [reflexivity|].
          intros path [Hnone|Hpath]; [contradiction|].
          apply lookup_insert_ne. intros Heq. apply Hpath. symmetry. exact Heq.
      - injection Hstep as _ _ <-. simpl.
        split; [reflexivity|]. split; [reflexivity|]. intros; reflexivity. }
    split; [congruence|]. split; [congruence|].
    intros path Hpath. rewrite Hfiles.
    + apply Hfiles1. destruct Hpath as [Hnone|Hpath]; [left; exact Hnone|right].
      apply (Hpath i tr). left.
    + rewrite Hanim1, Htemp1.
      destruct Hpath as [Hnone|Hpath]; [left; exact Hnone|right].
      intros i' tr' Hin. apply (Hpath i' tr'). right. exact Hin.
Qed.

(** X29: the files a water-detection chunk worker in iterative mode
    that returns has changed.  Besides its artifact these are, for an
    animated task only, frames [animation_<geo>_<k>.nc] of its own
    geographic chunk whose step [k] counts on from the time chunk size
    times the time chunk id by the position of a date in the time
    chunk: every other file is as before. *)
Theorem water_processing_task_frames
    (g t : nat) (gc : GeographicChunk) (tc : WaterDetection.TimeChunk)
    (p : WaterDetection.Parameters) (w : WaterDetection.W)
    (r : option ChunkResult) (w' : WaterDetection.W) :
  WaterDetection.iterative (task w) = true →
  WaterDetection.processing_task g t gc tc p w = Ok (r, w') →
  let temp := WaterDetection.temp_path (task w) in
  let base := WaterDetection.time_chunk_size_or_1 (task w) * Z.of_nat t in
  ∀ path,
    path ≠ os_path_join temp (WaterDetection.chunk_id g t +:+ ".nc") →
    (WaterDetection.animation_id (task w) = "none"
     ∨ ∀ i, (i < length tc)%nat →
         path ≠ os_path_join temp (WaterDetection.geo_frame_name g (base + Z.of_nat i))) →
    files (fs w') !! path = files (fs w) !! path.
Proof.
  intros Hmode Hrun. cbv zeta. unfold WaterDetection.processing_task in Hrun.
  destruct (negb (os_path_exists (fs w) (WaterDetection.temp_path (task w)))).
  { injection Hrun as _ <-. intros; reflexivity. }
  unfold WaterDetection.times_of in Hrun. rewrite Hmode, ranges_of_dates_eq in Hrun.
  cbn [Py.bind] in Hrun. bind_inv Hrun. destruct a as [[wa md] w1].
  apply water_process_times_frames in Hstep as (Htemp & _ & Hfiles).
  intros path Hartifact Hframes.
  assert (files (fs w1) !! path = files (fs w) !! path) as Hkept.
  { apply Hfiles. destruct Hframes as [Hnone|Hframes]; [left; exact Hnone|right].
    intros i tr Hin. apply Hframes.
    apply list_elem_of_lookup in Hin as [n Hn].
    rewrite lookup_enumerate in Hn.
    destruct (_ !! n) as [x|] eqn:Hx; [|discriminate]. injection Hn as <- _.
    apply lookup_lt_Some in Hx. rewrite length_fmap in Hx. exact Hx. }
  destruct wa as [wa|]; injection Hrun as _ <-; simpl.
  - rewrite lookup_insert_ne; [exact Hkept|].
    rewrite Htemp. intros Heq. apply Hartifact. symmetry. exact Heq.
  - exact Hkept.
Qed.

(** *** The pictures of the water-detection temporal recombiner *)

Lemma render_frames_pictures (t : WaterDetection.Task) (b : Z) (co : option Dataset)
    (indices : list Z) (f f' : FS) :
  WaterDetection.render_frames t b co indices f = Ok f' →
  ∀ path,
    files f' !! path = files f !! path
    ∨ ∃ i d img,
        i ∈ indices
        ∧ path = os_path_join (WaterDetection.temp_path t)
                   (WaterDetection.frame_name (b + i) ".png")
        ∧ files f !! os_path_join (WaterDetection.temp_path t)
                       (WaterDetection.frame_name (b + i) ".nc") = Some (NetCDF d)
        ∧ files f' !! path = Some (Image img [WaterDetection.data_variable t]).
Proof.
  revert f. induction indices as [|i indices IH]; intros f Hrun path.
  - simpl in Hrun. injection Hrun as <-. left. reflexivity.
  - simpl in Hrun.
    destruct (os_path_exists f _).
    + bind_inv Hrun. rename a into data. bind_inv Hrun. rename a into animated.
      unfold open_dataset in Hstep.
      destruct (files f !! os_path_join (WaterDetection.temp_path t)
                             (WaterDetection.frame_name (b + i) ".nc"))
        as [[d|]|] eqn:Hnc; try discriminate.
      destruct (IH _ Hrun path) as [Hsame|(i' & d' & img & Hin & -> & Hnc' & Himg)].
      * cbn [write_file files] in Hsame.
        destruct (decide (os_path_join (WaterDetection.temp_path t)
                            (WaterDetection.frame_name (b + i) ".png") = path))
          as [<-|Hne].
        -- right. exists i, d, animated.
           split; [left|]. split; [reflexivity|]. split; [exact Hnc|].
           rewrite Hsame. apply lookup_insert_eq.
        -- left. rewrite Hsame. apply lookup_insert_ne. exact Hne.
      * right. exists i', d', img. split; [right; exact Hin|].
        split; [reflexivity|]. split; [|exact Himg].
        cbn [write_file files] in Hnc'.
        rewrite lookup_insert in Hnc'. case_decide; [discriminate|exact Hnc'].
    + destruct (IH _ Hrun path) as [Hsame|(i' & d' & img & Hin & Hrest)].
      * left. exact Hsame.
      * right. exists i', d', img. split; [right; exact Hin|exact Hrest].
Qed.

Lemma generate_animation_pictures (t : WaterDetection.Task) (index : nat)
    (co : option Dataset) (f f' : FS) :
  (if negb (String.eqb (WaterDetection.animation_id t) "none")
   then WaterDetection.generate_animation t index co f else Ok f) = Ok f' →
  ∀ path,
    files f' !! path = files f !! path
    ∨ (WaterDetection.animation_id t ≠ "none"
       ∧ ∃ k d img,
           WaterDetection.time_chunk_size_or_1 t * Z.of_nat index ≤ k
             < WaterDetection.time_chunk_size_or_1 t * Z.of_nat index
               + WaterDetection.time_chunk_size_or_1 t
           ∧ path = os_path_join (WaterDetection.temp_path t)
                      (WaterDetection.frame_name k ".png")
           ∧ files f !! os_path_join (WaterDetection.temp_path t)
                          (WaterDetection.frame_name k ".nc") = Some (NetCDF d)
           ∧ files f' !! path = Some (Image img [WaterDetection.data_variable t])).
Proof.
  destruct (String.eqb_spec (WaterDetection.animation_id t) "none") as [Hnone|Hanim];
    cbn [negb].
  - intros [= <-] path. left. reflexivity.
  - intros Hrun path. unfold WaterDetection.generate_animation in Hrun.
    destruct (render_frames_pictures _ _ _ _ _ _ Hrun path)
      as [Hsame|(i & d & img & Hin & Hrest)]; [left; exact Hsame|right].
    split; [exact Hanim|].
    exists (WaterDetection.time_chunk_size_or_1 t * Z.of_nat index + i), d, img.
    split; [|exact Hrest].
    unfold range in Hin. apply list_elem_of_fmap in Hin as (n & -> & Hn).
    apply elem_of_seq in Hn. lia.
Qed.

Lemma combine_time_pictures (t : WaterDetection.Task) (index : nat) (c : ChunkResult)
    (md : Metadata) (co : option Dataset) (f : FS)
    (md' : Metadata) (co' : option Dataset) (f' : FS) :
  WaterDetection.combine_time t (md, co, f) index c = Ok (md', co', f') →
  ∀ path,
    files f' !! path = files f !! path
    ∨ (WaterDetection.animation_id t ≠ "none"
       ∧ ∃ k d img,
           WaterDetection.time_chunk_size_or_1 t * Z.of_nat index ≤ k
             < WaterDetection.time_chunk_size_or_1 t * Z.of_nat index
               + WaterDetection.time_chunk_size_or_1 t
           ∧ path = os_path_join (WaterDetection.temp_path t)
                      (WaterDetection.frame_name k ".png")
           ∧ files f !! os_path_join (WaterDetection.temp_path t)
                          (WaterDetection.frame_name k ".nc") = Some (NetCDF d)
           ∧ files f' !! path = Some (Image img [WaterDetection.data_variable t])).
Proof.
  unfold WaterDetection.combine_time. intros Hrun. bind_inv Hrun.
  destruct co as [c0|].
  - bind_inv Hrun. bind_inv Hrun. injection Hrun as _ _ <-.
    exact (generate_animation_pictures _ _ _ _ _ Hstep1).
  - bind_inv Hrun. injection Hrun as _ _ <-.
    exact (generate_animation_pictures _ _ _ _ _ Hstep0).
Qed.

Lemma combine_times_pictures (t : WaterDetection.Task) (f0 : FS) (n : nat)
    (cs : list (nat * ChunkResult))
    (md : Metadata) (co : option Dataset) (f : FS)
    (md' : Metadata) (co' : option Dataset) (f' : FS) :
  let changed (f1 : FS) (path : string) :=
    files f1 !! path = files f0 !! path
    ∨ (WaterDetection.animation_id t ≠ "none"
       ∧ ∃ k d img,
           0 ≤ k < WaterDetection.time_chunk_size_or_1 t * Z.of_nat n
           ∧ path = os_path_join (WaterDetection.temp_path t)
                      (WaterDetection.frame_name k ".png")
           ∧ files f0 !! os_path_join (WaterDetection.temp_path t)
                           (WaterDetection.frame_name k ".nc") = Some (NetCDF d)
           ∧ files f1 !! path = Some (Image img [WaterDetection.data_variable t])) in
  (∀ p d, files f !! p = Some (NetCDF d) → files f0 !! p = Some (NetCDF d)) →
  (∀ path, changed f path) →
  (∀ index c, (index, c) ∈ cs → (index < n)%nat) →
  WaterDetection.combine_times t (md, co, f) cs = Ok (md', co', f') →
  ∀ path, changed f' path.
Proof.
  cbv zeta. revert md co f.
  induction cs as [|[index c] cs IH]; intros md co f Hsub Hinv Hbound Hrun.
  - simpl in Hrun. injection Hrun as _ _ <-. exact Hinv.
  - simpl in Hrun. bind_inv Hrun. destruct a as [[md1 co1] f1].
    pose proof (combine_time_pictures _ _ _ _ _ _ _ _ _ Hstep) as Hpictures.
    apply combine_time_spec in Hstep as (_ & _ & Hsub1).
    apply (IH md1 co1 f1); [eauto| |intros i' c' Hin; apply (Hbound i' c'); right; exact Hin
                           |exact Hrun].
    intros path.
    destruct (Hpictures path) as [Hsame|(Hanim & k & d & img & Hk & -> & Hnc & Himg)].
    + rewrite Hsame. apply Hinv.
    + right. split; [exact Hanim|]. exists k, d, img.
      split; [|split; [reflexivity|split; [exact (Hsub _ _ Hnc)|exact Himg]]].
      assert (index < n)%nat as Hindex by (apply (Hbound index c); left).
      nia.
Qed.

(** X30: the files a water-detection temporal recombiner that returns
    has changed.  Besides its recombined artifact these are, for an
    animated task only, pictures [animation_<k>.png] of a frame
    [animation_<k>.nc] that was stored as a dataset before the
    recombiner ran.  The steps [k] are counted by the position of a
    chunk among the chunks sorted by path, a time chunk size of steps
    for each position, and not by its time chunk id: [k] stays below
    the time chunk size times the number of chunks that are not
    [None]. *)
Theorem water_recombine_time_chunks_pictures
    (chunks : chunks_arg) (w w' : WaterDetection.W) (r : ChunkResult) :
  WaterDetection.recombine_time_chunks chunks w = Ok (r, w') →
  let size := WaterDetection.time_chunk_size_or_1 (task w) in
  let temp := WaterDetection.temp_path (task w) in
  ∀ path,
    files (fs w') !! path ≠ files (fs w) !! path →
    path = cr_path r
    ∨ (WaterDetection.animation_id (task w) ≠ "none"
       ∧ ∃ k d img,
           0 ≤ k < size * Z.of_nat (length (WaterDetection.total_chunks_by_time chunks))
           ∧ path = os_path_join temp (WaterDetection.frame_name k ".png")
           ∧ files (fs w) !! os_path_join temp (WaterDetection.frame_name k ".nc")
             = Some (NetCDF d)
           ∧ files (fs w') !! path
             = Some (Image img [WaterDetection.data_variable (task w)])).
Proof.
  intros Hrun. cbv zeta. unfold WaterDetection.recombine_time_chunks in Hrun.
  bind_inv Hrun. rename a into chunk0. bind_inv Hrun. destruct a as [[md co] f].
  destruct co as [combined|]; [|discriminate]. injection Hrun as <- <-.
  cbn [cr_path fs files write_file].
  intros path Hchanged.
  destruct (decide (os_path_join (WaterDetection.temp_path (task w))
                      ("recombined_time_" +:+ str (cr_geo_chunk_id chunk0) +:+ ".nc")
                    = path)) as [<-|Hne]; [left; reflexivity|right].
  rewrite lookup_insert_ne in Hchanged by exact Hne.
  rewrite lookup_insert_ne by exact Hne.
  assert (∀ index c,
            (index, c) ∈ enumerate (WaterDetection.total_chunks_by_time chunks) →
            (index < length (WaterDetection.total_chunks_by_time chunks))%nat) as Hbound.
  { intros index c Hin. apply list_elem_of_lookup in Hin as [i Hi].
    rewrite lookup_enumerate in Hi.
    destruct (_ !! i) as [x|] eqn:Hx; [|discriminate]. injection Hi as <- _.
    apply lookup_lt_Some in Hx. exact Hx. }
  destruct (combine_times_pictures (task w) (fs w) _ _ _ _ _ _ _ _
              (λ p d Hp, Hp) (λ p, or_introl eq_refl) Hbound Hstep0 path)
    as [Hsame|Hpicture]; [contradiction|exact Hpicture].
Qed.

End Coverage.

(** *** The end of the temporary directory *)

Lemma prefix_append (p x : string) : String.prefix p (p +:+ x) = true.
Proof.
  induction p as [|c p IH]; [destruct x; reflexivity|].
  rewrite append_String. simpl. destruct (ascii_dec c c); [exact IH|contradiction].
Qed.

Lemma below_os_path_join (temp name : string) :
  temp ≠ EmptyString → startswith_sep name = false →
  below temp (os_path_join temp name) = true.
Proof.
  intros Htemp Hname. unfold below, os_path_join. rewrite Hname.
  destruct (String.eqb_spec temp EmptyString) as [->|_]; [contradiction|].
  cbn [orb]. destruct (endswith_sep temp).
  - apply prefix_append.
  - rewrite <- string_append_assoc. apply prefix_append.
Qed.

Lemma rmtree_spec {R : Raster} (f f' : FS) (p : string) :
  rmtree f p = inr f' →
  p ∈ dirs f
  ∧ (p ∉ dirs f')
  ∧ (∀ d, d ∈ dirs f' ↔ d ∈ dirs f ∧ d ≠ p ∧ below p d = false)
  ∧ (∀ path, files f' !! path = if below p path then None else files f !! path).
Proof.
  unfold rmtree. destruct (bool_decide (p ∈ dirs f)) eqn:Hdir.
  - intros [= <-]. apply bool_decide_eq_true in Hdir. simpl.
    split; [exact Hdir|]. split; [|split].
    + rewrite elem_of_filter. intros [[Hne _] _]. contradiction.
    + intros d. rewrite elem_of_filter. tauto.
    + intros path. destruct (below p path) eqn:Hbelow.
      * apply map_lookup_filter_None. right. intros x _. simpl. congruence.
      * destruct (files f !! path) as [x|] eqn:Hfile.
        -- apply map_lookup_filter_Some. split; [exact Hfile|exact Hbelow].
        -- apply map_lookup_filter_None. left. exact Hfile.
  - destruct (bool_decide (is_Some (files f !! p))); discriminate.
Qed.

Lemma rmtree_raises {R : Raster} (f : FS) (p : string) (e : final_exn) :
  rmtree f p = inl e →
  (p ∉ dirs f)
  ∧ e = (if bool_decide (is_Some (files f !! p)) then NotADirectoryError
         else Stage FileNotFoundError).
Proof.
  unfold rmtree. destruct (bool_decide (p ∈ dirs f)) eqn:Hdir; [discriminate|].
  apply bool_decide_eq_false in Hdir.
  destruct (bool_decide (is_Some (files f !! p))); intros [= <-]; auto.
Qed.

(** The picture the animation loop appends for [index], if any. *)
Lemma append_frames_spec {R : Raster} (f : FS) (temp : string) (indices : list Z)
    (frames frames' : list Picture) :
  append_frames f temp indices frames = Ok frames' →
  frames'
  = frames ++ omap (λ index,
                      match files f !! os_path_join temp (animation_png index) with
                      | Some (Image d bands) => Some (d, bands)
                      | _ => None
                      end) indices.
Proof.
  revert frames. induction indices as [|index rest IH]; intros frames; simpl.
  - intros [= <-]. rewrite app_nil_r. reflexivity.
  - unfold os_path_exists, imread.
    destruct (files f !! os_path_join temp (animation_png index))
      as [[d|d bands]|] eqn:Hfile; simpl.
    + rewrite orb_true_r. discriminate.
    + rewrite orb_true_r. intros Hrun. apply IH in Hrun.
      rewrite Hrun, <- app_assoc. reflexivity.
    + rewrite orb_false_r.
      destruct (bool_decide (os_path_join temp (animation_png index) ∈ dirs f));
        [discriminate|].
      apply IH.
Qed.

Lemma length_omap_le {A B} (g : A → option B) (l : list A) :
  (length (omap g l) ≤ length l)%nat.
Proof.
  induction l as [|x l IH]; simpl; [lia|].
  destruct (g x); simpl; unfold omap in *; lia.
Qed.

Lemma length_range (n : Z) : length (range n) = Z.to_nat n.
Proof. unfold range. rewrite length_fmap, length_seq. reflexivity. Qed.

Section FinalizerCoverage.
Context {R : Raster}.
Context {coastal : CoastalChange.Collaborators}.
Context {water : WaterDetection.Collaborators}.
Context {coastal_output : CoastalChangeProducts.Output}.
Context {water_output : WaterDetectionProducts.Output}.

Lemma coastal_write_products_world
    (data : ChunkResult) (result_dir : string) (w w1 : CoastalChange.W)
    (out out1 : ResultDir) (results : CoastalChangeProducts.Results) :
  CoastalChangeProducts.write_products data result_dir w out = Ok (w1, out1, results) →
  w1 = CoastalChange.with_task
         (λ t, CoastalChange.update_status "OK"
                 "All products have been generated. Your result will be loaded on the map."
                 (CoastalChange.set_complete true t)) w
  ∧ ∃ dataset, files (fs w) !! cr_path data = Some (NetCDF dataset).
Proof.
  unfold CoastalChangeProducts.write_products. intros Hrun.
  bind_inv Hrun. rename a into dataset. bind_inv Hrun. injection Hrun as <- _ _.
  split; [reflexivity|]. exists dataset.
  unfold open_dataset in Hstep.
  destruct (files (fs w) !! cr_path data) as [[d|d b]|]; [|discriminate..].
  injection Hstep as ->. reflexivity.
Qed.

Lemma water_write_products_world
    (data : ChunkResult) (result_dir : string) (w w1 : WaterDetection.W)
    (out out1 : ResultDir) (results : WaterDetectionProducts.Results) :
  WaterDetectionProducts.write_products data result_dir w out = Ok (w1, out1, results) →
  w1 = WaterDetection.with_task
         (λ t, WaterDetection.update_status "OK"
                 "All products have been generated. Your result will be loaded on the map."
                 (WaterDetection.set_complete true t)) w
  ∧ ∃ dataset, files (fs w) !! cr_path data = Some (NetCDF dataset).
Proof.
  unfold WaterDetectionProducts.write_products. intros Hrun.
  bind_inv Hrun. rename a into dataset. bind_inv Hrun. injection Hrun as <- _ _.
  split; [reflexivity|]. exists dataset.
  unfold open_dataset in Hstep.
  destruct (files (fs w) !! cr_path data) as [[d|d b]|]; [|discriminate..].
  injection Hstep as ->. reflexivity.
Qed.

Lemma coastal_finalizer_inv
    (data : ChunkResult) (result_dir : string) (w w' : CoastalChange.W)
    (out out' : ResultDir) (results : CoastalChangeProducts.Results) (b : bool) :
  CoastalChangeProducts.create_output_products data result_dir w out
  = inr (b, w', out', results) →
  ∃ f',
    CoastalChangeProducts.write_products data result_dir w out
    = Ok (CoastalChange.with_task
            (λ t, CoastalChange.update_status "OK"
                    "All products have been generated. Your result will be loaded on the map."
                    (CoastalChange.set_complete true t)) w, out', results)
    ∧ rmtree (fs w) (CoastalChange.temp_path (task w)) = inr f'
    ∧ b = true
    ∧ w' = mkWorld
             (CoastalChange.update_status "OK"
                "All products have been generated. Your result will be loaded on the map."
                (CoastalChange.set_complete true (task w)))
             f' (fetched w) (canvas w).
Proof.
  unfold CoastalChangeProducts.create_output_products. intros Hrun.
  destruct (CoastalChangeProducts.write_products data result_dir w out)
    as [[[w1 out1] results1]|e] eqn:Hwrite; [|discriminate].
  destruct (coastal_write_products_world _ _ _ _ _ _ _ Hwrite) as [-> _].
  simpl in Hrun.
  destruct (rmtree (fs w) (CoastalChange.temp_path (task w))) as [e|f'] eqn:Hrm;
    [discriminate|].
  injection Hrun as <- <- <- <-. exists f'. repeat split; reflexivity.
Qed.

Lemma water_finalizer_inv
    (data : ChunkResult) (result_dir : string) (w w' : WaterDetection.W)
    (out out' : ResultDir) (results : WaterDetectionProducts.Results) (b : bool) :
  WaterDetectionProducts.create_output_products data result_dir w out
  = inr (b, w', out', results) →
  ∃ f',
    WaterDetectionProducts.write_products data result_dir w out
    = Ok (WaterDetection.with_task
            (λ t, WaterDetection.update_status "OK"
                    "All products have been generated. Your result will be loaded on the map."
                    (WaterDetection.set_complete true t)) w, out', results)
    ∧ rmtree (fs w) (WaterDetection.temp_path (task w)) = inr f'
    ∧ b = true
    ∧ w' = mkWorld
             (WaterDetection.update_status "OK"
                "All products have been generated. Your result will be loaded on the map."
                (WaterDetection.set_complete true (task w)))
             f' (fetched w) (canvas w).
Proof.
  unfold WaterDetectionProducts.create_output_products. intros Hrun.
  destruct (WaterDetectionProducts.write_products data result_dir w out)
    as [[[w1 out1] results1]|e] eqn:Hwrite; [|discriminate].
  destruct (water_write_products_world _ _ _ _ _ _ _ Hwrite) as [-> _].
  simpl in Hrun.
  destruct (rmtree (fs w) (WaterDetection.temp_path (task w))) as [e|f'] eqn:Hrm;
    [discriminate|].
  injection Hrun as <- <- <- <-. exists f'. repeat split; reflexivity.
Qed.

(** X16: a finalizer that returns, in either application, returns
    [True] after marking the task complete with status ["OK"]; the
    counters, the record of queries and the canvas are as before.  The
    temporary directory is no longer a directory, every file and
    directory below it is gone, in particular every artifact of the
    stages, and every other file and directory is as before. *)
Theorem create_output_products_removes_temporary_directory
    (data : ChunkResult) (result_dir : string) (out : ResultDir) :
  (∀ (w w' : CoastalChange.W) b out' results,
     CoastalChangeProducts.create_output_products data result_dir w out
     = inr (b, w', out', results) →
     let temp := CoastalChange.temp_path (task w) in
     b = true
     ∧ CoastalChange.complete (task w') = true
     ∧ CoastalChange.status (task w') = "OK"
     ∧ CoastalChange.message (task w')
       = "All products have been generated. Your result will be loaded on the map."
     ∧ CoastalChange.total_scenes (task w') = CoastalChange.total_scenes (task w)
     ∧ CoastalChange.scenes_processed (task w') = CoastalChange.scenes_processed (task w)
     ∧ CoastalChange.temp_path (task w') = temp
     ∧ fetched w' = fetched w ∧ canvas w' = canvas w
     ∧ temp ∈ dirs (fs w) ∧ (temp ∉ dirs (fs w'))
     ∧ (∀ d, d ∈ dirs (fs w') ↔ d ∈ dirs (fs w) ∧ d ≠ temp ∧ below temp d = false)
     ∧ (∀ path, files (fs w') !! path
                = if below temp path then None else files (fs w) !! path)
     ∧ (∀ name, temp ≠ EmptyString → startswith_sep name = false →
                files (fs w') !! os_path_join temp name = None))
  ∧ (∀ (w w' : WaterDetection.W) b out' results,
       WaterDetectionProducts.create_output_products data result_dir w out
       = inr (b, w', out', results) →
       let temp := WaterDetection.temp_path (task w) in
       b = true
       ∧ WaterDetection.complete (task w') = true
       ∧ WaterDetection.status (task w') = "OK"
       ∧ WaterDetection.message (task w')
         = "All products have been generated. Your result will be loaded on the map."
       ∧ WaterDetection.total_scenes (task w') = WaterDetection.total_scenes (task w)
       ∧ WaterDetection.scenes_processed (task w')
         = WaterDetection.scenes_processed (task w)
       ∧ WaterDetection.temp_path (task w') = temp
       ∧ fetched w' = fetched w ∧ canvas w' = canvas w
       ∧ temp ∈ dirs (fs w) ∧ (temp ∉ dirs (fs w'))
       ∧ (∀ d, d ∈ dirs (fs w') ↔ d ∈ dirs (fs w) ∧ d ≠ temp ∧ below temp d = false)
       ∧ (∀ path, files (fs w') !! path
                  = if below temp path then None else files (fs w) !! path)
       ∧ (∀ name, temp ≠ EmptyString → startswith_sep name = false →
                  files (fs w') !! os_path_join temp name = None)).
Proof.
  split.
  - intros w w' b out' results Hrun. cbv zeta.
    apply coastal_finalizer_inv in Hrun as (f' & _ & Hrm & -> & ->).
    apply rmtree_spec in Hrm as (Hdir & Hgone & Hdirs & Hfiles). simpl.
    do 9 (split; [reflexivity|]).
    split; [exact Hdir|]. split; [exact Hgone|]. split; [exact Hdirs|].
    split; [exact Hfiles|].
    intros name Htemp Hname. rewrite Hfiles, below_os_path_join by assumption.
    reflexivity.
  - intros w w' b out' results Hrun. cbv zeta.
    apply water_finalizer_inv in Hrun as (f' & _ & Hrm & -> & ->).
    apply rmtree_spec in Hrm as (Hdir & Hgone & Hdirs & Hfiles). simpl.
    do 9 (split; [reflexivity|]).
    split; [exact Hdir|]. split; [exact Hgone|]. split; [exact Hdirs|].
    split; [exact Hfiles|].
    intros name Htemp Hname. rewrite Hfiles, below_os_path_join by assumption.
    reflexivity.
Qed.

(** X17: once a finalizer has returned, a chunk job that is delivered
    (again) does nothing: when the temporary path was a directory and
    not also a file, [processing_task] returns [None] on the world the
    finalizer left, whatever the job, and leaves that world as it is. *)
Theorem processing_task_after_create_output_products
    (data : ChunkResult) (result_dir : string) (out : ResultDir)
    (g t : nat) (gc : GeographicChunk) :
  (∀ (w w' : CoastalChange.W) b out' results tc p,
     files (fs w) !! CoastalChange.temp_path (task w) = None →
     CoastalChangeProducts.create_output_products data result_dir w out
     = inr (b, w', out', results) →
     CoastalChange.processing_task g t gc tc p w' = Ok (None, w'))
  ∧ (∀ (w w' : WaterDetection.W) b out' results tc p,
       files (fs w) !! WaterDetection.temp_path (task w) = None →
       WaterDetectionProducts.create_output_products data result_dir w out
       = inr (b, w', out', results) →
       WaterDetection.processing_task g t gc tc p w' = Ok (None, w')).
Proof.
  split.
  - intros w w' b out' results tc p Hfile Hrun.
    apply coastal_finalizer_inv in Hrun as (f' & _ & Hrm & -> & ->).
    apply rmtree_spec in Hrm as (_ & Hgone & _ & Hfiles).
    unfold CoastalChange.processing_task, os_path_exists. simpl.
    rewrite (bool_decide_eq_false_2 _ Hgone), Hfiles, Hfile.
    destruct (below _ _); reflexivity.
  - intros w w' b out' results tc p Hfile Hrun.
    apply water_finalizer_inv in Hrun as (f' & _ & Hrm & -> & ->).
    apply rmtree_spec in Hrm as (_ & Hgone & _ & Hfiles).
    unfold WaterDetection.processing_task, os_path_exists. simpl.
    rewrite (bool_decide_eq_false_2 _ Hgone), Hfiles, Hfile.
    destruct (below _ _); reflexivity.
Qed.

Ltac other_product :=
  let Heq := fresh "Heq" in
  intros Heq; apply os_path_join_inj in Heq;
  [discriminate Heq|reflexivity|reflexivity].

Lemma coastal_write_products_spec
    (data : ChunkResult) (result_dir : string) (w w1 : CoastalChange.W)
    (out out1 : ResultDir) (results : CoastalChangeProducts.Results) :
  CoastalChangeProducts.write_products data result_dir w out = Ok (w1, out1, results) →
  ∃ dataset,
    files (fs w) !! cr_path data = Some (NetCDF dataset)
    ∧ results
      = CoastalChangeProducts.mkResults
          (os_path_join result_dir "coastline_change.png")
          (os_path_join result_dir "coastal_change.png")
          (os_path_join result_dir "mosaic.png")
          (os_path_join result_dir "data_tif.tif")
          (os_path_join result_dir "data_netcdf.nc")
          (if negb (String.eqb (CoastalChange.animation_id (task w)) "none")
           then os_path_join result_dir "animation.gif" else EmptyString)
    ∧ ∃ stills,
        stills
        = <[os_path_join result_dir "mosaic.png"
            := PNG dataset CoastalChangeProducts.png_bands]>
          (<[os_path_join result_dir "coastal_change.png"
             := PNG (CoastalChange.mask_mosaic_with_coastal_change dataset)
                    CoastalChangeProducts.png_bands]>
           (<[os_path_join result_dir "coastline_change.png"
              := PNG (CoastalChange.mask_mosaic_with_coastlines dataset)
                     CoastalChangeProducts.png_bands]>
            (<[os_path_join result_dir "data_tif.tif"
               := GeoTIFF (CoastalChangeProducts.astype "int32" dataset)
                          (CoastalChangeProducts.geotiff_bands dataset)]>
             (<[os_path_join result_dir "data_netcdf.nc" := ProductNetCDF dataset]> out))))
        ∧ if negb (String.eqb (CoastalChange.animation_id (task w)) "none") then
            ∃ frames,
              append_frames (fs w) (CoastalChange.temp_path (task w))
                (range (CoastalChange.time_end (task w) - CoastalChange.time_start (task w)))
                [] = Ok frames
              ∧ out1 = <[os_path_join result_dir "animation.gif" := GIF frames]> stills
          else out1 = stills.
Proof.
  unfold CoastalChangeProducts.write_products. intros Hrun.
  bind_inv Hrun. rename a into dataset. exists dataset.
  split.
  { unfold open_dataset in Hstep.
    destruct (files (fs w) !! cr_path data) as [[d|d b]|]; [|discriminate..].
    injection Hstep as ->. reflexivity. }
  bind_inv Hrun. rename a into out2. injection Hrun as _ <- <-.
  split; [reflexivity|]. eexists. split; [reflexivity|].
  cbn [CoastalChangeProducts.result_path CoastalChangeProducts.result_coastal_change_path
       CoastalChangeProducts.result_mosaic_path CoastalChangeProducts.data_path
       CoastalChangeProducts.data_netcdf_path CoastalChangeProducts.animation_path]
    in Hstep0.
  destruct (negb (String.eqb (CoastalChange.animation_id (task w)) "none")).
  - bind_inv Hstep0. rename a into frames. injection Hstep0 as <-.
    exists frames. split; [exact Hstep1|reflexivity].
  - injection Hstep0 as <-. reflexivity.
Qed.

Lemma water_write_products_spec
    (data : ChunkResult) (result_dir : string) (w w1 : WaterDetection.W)
    (out out1 : ResultDir) (results : WaterDetectionProducts.Results) :
  WaterDetectionProducts.write_products data result_dir w out = Ok (w1, out1, results) →
  ∃ stored,
    files (fs w) !! cr_path data = Some (NetCDF stored)
    ∧ results
      = WaterDetectionProducts.mkResults
          (os_path_join result_dir "water_percentage.png")
          (os_path_join result_dir "water_observations.png")
          (os_path_join result_dir "clear_observations.png")
          (os_path_join result_dir "data_tif.tif")
          (os_path_join result_dir "data_netcdf.nc")
          (if negb (String.eqb (WaterDetection.animation_id (task w)) "none")
           then os_path_join result_dir "animation.gif" else EmptyString)
    ∧ ∃ stills,
        let dataset := WaterDetectionProducts.astype "float64" stored in
        stills
        = <[os_path_join result_dir "clear_observations.png"
            := PNG dataset ["total_clean"]]>
          (<[os_path_join result_dir "water_observations.png"
             := PNG dataset ["total_data"]]>
           (<[os_path_join result_dir "water_percentage.png"
              := PNG dataset ["normalized_data"]]>
            (<[os_path_join result_dir "data_tif.tif"
               := GeoTIFF dataset WaterDetectionProducts.bands]>
             (<[os_path_join result_dir "data_netcdf.nc" := ProductNetCDF dataset]> out))))
        ∧ if negb (String.eqb (WaterDetection.animation_id (task w)) "none") then
            ∃ frames,
              append_frames (fs w) (WaterDetection.temp_path (task w))
                (range (Z.of_nat (size (cr_metadata data)))) [] = Ok frames
              ∧ out1 = <[os_path_join result_dir "animation.gif" := GIF frames]> stills
          else out1 = stills.
Proof.
  unfold WaterDetectionProducts.write_products. intros Hrun.
  bind_inv Hrun. rename a into stored. exists stored.
  split.
  { unfold open_dataset in Hstep.
    destruct (files (fs w) !! cr_path data) as [[d|d b]|]; [|discriminate..].
    injection Hstep as ->. reflexivity. }
  bind_inv Hrun. rename a into out2. injection Hrun as _ <- <-.
  split; [reflexivity|]. eexists. split; [reflexivity|].
  cbn [WaterDetectionProducts.result_path WaterDetectionProducts.water_observations_path
       WaterDetectionProducts.clear_observations_path WaterDetectionProducts.data_path
       WaterDetectionProducts.data_netcdf_path WaterDetectionProducts.animation_path]
    in Hstep0.
  destruct (negb (String.eqb (WaterDetection.animation_id (task w)) "none")).
  - bind_inv Hstep0. rename a into frames. injection Hstep0 as <-.
    exists frames. split; [exact Hstep1|reflexivity].
  - injection Hstep0 as <-. reflexivity.
Qed.

(** X18: the animation a finalizer that returns has written.  For
    a task without animation the row's [animation_path] is empty and
    no file [animation.gif] is written.  Otherwise [animation.gif] of
    the result directory holds the pictures [animation_<index>.png] of
    the temporary directory that exist, in ascending order of [index],
    for the indices below a bound: [time_end - time_start] in the
    coastal-change finalizer, the number of metadata keys
    ([len(full_metadata)]) in the water-detection finalizer.  No more
    frames than this bound are written, and a picture with an index
    at or above it is not looked at. *)
Theorem create_output_products_animation_frames
    (data : ChunkResult) (result_dir : string) (out : ResultDir) :
  (∀ (w w' : CoastalChange.W) b out' results,
     CoastalChangeProducts.create_output_products data result_dir w out
     = inr (b, w', out', results) →
     let bound := CoastalChange.time_end (task w) - CoastalChange.time_start (task w) in
     let picture := λ index,
       match files (fs w) !! os_path_join (CoastalChange.temp_path (task w))
                                          (animation_png index) with
       | Some (Image d bands) => Some (d, bands)
       | _ => None
       end in
     if String.eqb (CoastalChange.animation_id (task w)) "none" then
       CoastalChangeProducts.animation_path results = EmptyString
       ∧ out' !! os_path_join result_dir "animation.gif"
         = out !! os_path_join result_dir "animation.gif"
     else
       CoastalChangeProducts.animation_path results
       = os_path_join result_dir "animation.gif"
       ∧ out' !! CoastalChangeProducts.animation_path results
         = Some (GIF (omap picture (range bound)))
       ∧ (length (omap picture (range bound)) ≤ Z.to_nat bound)%nat)
  ∧ (∀ (w w' : WaterDetection.W) b out' results,
       WaterDetectionProducts.create_output_products data result_dir w out
       = inr (b, w', out', results) →
       let bound := Z.of_nat (size (cr_metadata data)) in
       let picture := λ index,
         match files (fs w) !! os_path_join (WaterDetection.temp_path (task w))
                                            (animation_png index) with
         | Some (Image d bands) => Some (d, bands)
         | _ => None
         end in
       if String.eqb (WaterDetection.animation_id (task w)) "none" then
         WaterDetectionProducts.animation_path results = EmptyString
         ∧ out' !! os_path_join result_dir "animation.gif"
           = out !! os_path_join result_dir "animation.gif"
       else
         WaterDetectionProducts.animation_path results
         = os_path_join result_dir "animation.gif"
         ∧ out' !! WaterDetectionProducts.animation_path results
           = Some (GIF (omap picture (range bound)))
         ∧ (length (omap picture (range bound)) ≤ Z.to_nat bound)%nat).
Proof.
  split.
  - intros w w' b out' results Hrun. cbv zeta.
    apply coastal_finalizer_inv in Hrun as (f' & Hwrite & _).
    apply coastal_write_products_spec in Hwrite
      as (dataset & _ & -> & stills & -> & Hout).
    destruct (String.eqb (CoastalChange.animation_id (task w)) "none");
      cbn [negb CoastalChangeProducts.animation_path] in *.
    + subst out'. split; [reflexivity|].
      rewrite !lookup_insert_ne by other_product. reflexivity.
    + destruct Hout as (frames & Hframes & ->).
      apply append_frames_spec in Hframes. simpl in Hframes. subst frames.
      split; [reflexivity|]. split; [apply lookup_insert_eq|].
      etransitivity; [apply length_omap_le|]. rewrite length_range. reflexivity.
  - intros w w' b out' results Hrun. cbv zeta.
    apply water_finalizer_inv in Hrun as (f' & Hwrite & _).
    apply water_write_products_spec in Hwrite
      as (stored & _ & -> & stills & Hstills & Hout).
    cbv zeta in Hstills. subst stills.
    destruct (String.eqb (WaterDetection.animation_id (task w)) "none");
      cbn [negb WaterDetectionProducts.animation_path] in *.
    + subst out'. split; [reflexivity|].
      rewrite !lookup_insert_ne by other_product. reflexivity.
    + destruct Hout as (frames & Hframes & ->).
      apply append_frames_spec in Hframes. simpl in Hframes. subst frames.
      split; [reflexivity|]. split; [apply lookup_insert_eq|].
      etransitivity; [apply length_omap_le|]. rewrite length_range. reflexivity.
Qed.

(** X19: the products a finalizer that returns has left in the result
    directory.  None overwrites another: the dataset stored at the
    path it was given is there as [data_netcdf.nc] (converted to
    [float64] in the water-detection finalizer) and as [data_tif.tif]
    with the finalizer's bands, the three pictures are there, and every
    other file of the result directory than these and [animation.gif]
    is as before. *)
Theorem create_output_products_writes_products
    (data : ChunkResult) (result_dir : string) (out : ResultDir) :
  (∀ (w w' : CoastalChange.W) b out' results,
     CoastalChangeProducts.create_output_products data result_dir w out
     = inr (b, w', out', results) →
     ∃ dataset,
       files (fs w) !! cr_path data = Some (NetCDF dataset)
       ∧ out' !! CoastalChangeProducts.data_netcdf_path results
         = Some (ProductNetCDF dataset)
       ∧ out' !! CoastalChangeProducts.data_path results
         = Some (GeoTIFF (CoastalChangeProducts.astype "int32" dataset)
                         (CoastalChangeProducts.geotiff_bands dataset))
       ∧ out' !! CoastalChangeProducts.result_path results
         = Some (PNG (CoastalChange.mask_mosaic_with_coastlines dataset)
                     ["red"; "green"; "blue"])
       ∧ out' !! CoastalChangeProducts.result_coastal_change_path results
         = Some (PNG (CoastalChange.mask_mosaic_with_coastal_change dataset)
                     ["red"; "green"; "blue"])
       ∧ out' !! CoastalChangeProducts.result_mosaic_path results
         = Some (PNG dataset ["red"; "green"; "blue"])
       ∧ ∀ path,
           path ∉ [CoastalChangeProducts.data_netcdf_path results;
                   CoastalChangeProducts.data_path results;
                   CoastalChangeProducts.result_path results;
                   CoastalChangeProducts.result_coastal_change_path results;
                   CoastalChangeProducts.result_mosaic_path results;
                   os_path_join result_dir "animation.gif"] →
           out' !! path = out !! path)
  ∧ (∀ (w w' : WaterDetection.W) b out' results,
       WaterDetectionProducts.create_output_products data result_dir w out
       = inr (b, w', out', results) →
       ∃ stored,
         files (fs w) !! cr_path data = Some (NetCDF stored)
         ∧ let dataset := WaterDetectionProducts.astype "float64" stored in
           out' !! WaterDetectionProducts.data_netcdf_path results
           = Some (ProductNetCDF dataset)
           ∧ out' !! WaterDetectionProducts.data_path results
             = Some (GeoTIFF dataset ["normalized_data"; "total_data"; "total_clean"])
           ∧ out' !! WaterDetectionProducts.result_path results
             = Some (PNG dataset ["normalized_data"])
           ∧ out' !! WaterDetectionProducts.water_observations_path results
             = Some (PNG dataset ["total_data"])
           ∧ out' !! WaterDetectionProducts.clear_observations_path results
             = Some (PNG dataset ["total_clean"])
           ∧ ∀ path,
               path ∉ [WaterDetectionProducts.data_netcdf_path results;
                       WaterDetectionProducts.data_path results;
                       WaterDetectionProducts.result_path results;
                       WaterDetectionProducts.water_observations_path results;
                       WaterDetectionProducts.clear_observations_path results;
                       os_path_join result_dir "animation.gif"] →
               out' !! path = out !! path).
Proof.
  split.
  - intros w w' b out' results Hrun.
    apply coastal_finalizer_inv in Hrun as (f' & Hwrite & _).
    apply coastal_write_products_spec in Hwrite
      as (dataset & Hfile & -> & stills & -> & Hout).
    exists dataset. split; [exact Hfile|].
    cbn [CoastalChangeProducts.result_path CoastalChangeProducts.result_coastal_change_path
         CoastalChangeProducts.result_mosaic_path CoastalChangeProducts.data_path
         CoastalChangeProducts.data_netcdf_path].
    assert (∀ path, path ≠ os_path_join result_dir "animation.gif" →
                    out' !! path
                    = <[os_path_join result_dir "mosaic.png"
                        := PNG dataset CoastalChangeProducts.png_bands]>
                      (<[os_path_join result_dir "coastal_change.png"
                         := PNG (CoastalChange.mask_mosaic_with_coastal_change dataset)
                                CoastalChangeProducts.png_bands]>
                       (<[os_path_join result_dir "coastline_change.png"
                          := PNG (CoastalChange.mask_mosaic_with_coastlines dataset)
                                 CoastalChangeProducts.png_bands]>
                        (<[os_path_join result_dir "data_tif.tif"
                           := GeoTIFF (CoastalChangeProducts.astype "int32" dataset)
                                      (CoastalChangeProducts.geotiff_bands dataset)]>
                         (<[os_path_join result_dir "data_netcdf.nc"
                            := ProductNetCDF dataset]> out)))) !! path) as Hstills.
    { intros path Hne.
      destruct (negb (String.eqb (CoastalChange.animation_id (task w)) "none")).
      - destruct Hout as (frames & _ & ->). apply lookup_insert_ne. congruence.
      - subst out'. reflexivity. }
    repeat split.
    + rewrite Hstills by other_product.
      rewrite !lookup_insert_ne by other_product. apply lookup_insert_eq.
    + rewrite Hstills by other_product.
      rewrite !lookup_insert_ne by other_product. apply lookup_insert_eq.
    + rewrite Hstills by other_product.
      rewrite !lookup_insert_ne by other_product. apply lookup_insert_eq.
    + rewrite Hstills by other_product.
      rewrite !lookup_insert_ne by other_product. apply lookup_insert_eq.
    + rewrite Hstills by other_product. apply lookup_insert_eq.
    + intros path Hpath. rewrite !not_elem_of_cons in Hpath.
      destruct Hpath as (H1 & H2 & H3 & H4 & H5 & H6 & _).
      rewrite Hstills by exact H6.
      rewrite !lookup_insert_ne by congruence. reflexivity.
  - intros w w' b out' results Hrun.
    apply water_finalizer_inv in Hrun as (f' & Hwrite & _).
    apply water_write_products_spec in Hwrite
      as (stored & Hfile & -> & stills & Hstills0 & Hout).
    cbv zeta in Hstills0. subst stills.
    exists stored. split; [exact Hfile|]. cbv zeta.
    cbn [WaterDetectionProducts.result_path WaterDetectionProducts.water_observations_path
         WaterDetectionProducts.clear_observations_path WaterDetectionProducts.data_path
         WaterDetectionProducts.data_netcdf_path].
    set (dataset := WaterDetectionProducts.astype "float64" stored) in *.
    assert (∀ path, path ≠ os_path_join result_dir "animation.gif" →
                    out' !! path
                    = <[os_path_join result_dir "clear_observations.png"
                        := PNG dataset ["total_clean"]]>
                      (<[os_path_join result_dir "water_observations.png"
                         := PNG dataset ["total_data"]]>
                       (<[os_path_join result_dir "water_percentage.png"
                          := PNG dataset ["normalized_data"]]>
                        (<[os_path_join result_dir "data_tif.tif"
                           := GeoTIFF dataset WaterDetectionProducts.bands]>
                         (<[os_path_join result_dir "data_netcdf.nc"
                            := ProductNetCDF dataset]> out)))) !! path) as Hstills.
    { intros path Hne.
      destruct (negb (String.eqb (WaterDetection.animation_id (task w)) "none")).
      - destruct Hout as (frames & _ & ->). apply lookup_insert_ne. congruence.
      - subst out'. reflexivity. }
    repeat split.
    + rewrite Hstills by other_product.
      rewrite !lookup_insert_ne by other_product. apply lookup_insert_eq.
    + rewrite Hstills by other_product.
      rewrite !lookup_insert_ne by other_product. apply lookup_insert_eq.
    + rewrite Hstills by other_product.
      rewrite !lookup_insert_ne by other_product. apply lookup_insert_eq.
    + rewrite Hstills by other_product.
      rewrite !lookup_insert_ne by other_product. apply lookup_insert_eq.
    + rewrite Hstills by other_product. apply lookup_insert_eq.
    + intros path Hpath. rewrite !not_elem_of_cons in Hpath.
      destruct Hpath as (H1 & H2 & H3 & H4 & H5 & H6 & _).
      rewrite Hstills by exact H6.
      rewrite !lookup_insert_ne by congruence. reflexivity.
Qed.

(** X20: what the finalizers need.  Without a file at the path they
    are given they raise [FileNotFoundError]
    ([xr.open_dataset(data[0])]).  A finalizer therefore cannot return twice
    for a final artifact that lies below the temporary directory: the
    second run raises [FileNotFoundError].  And with the final artifact
    in place but no temporary path left, the finalizer of a task
    without animation raises [FileNotFoundError] from
    [shutil.rmtree]. *)
Theorem create_output_products_needs_final_artifact
    (data : ChunkResult) (result_dir : string) (out : ResultDir) :
  (∀ (w : CoastalChange.W),
     (files (fs w) !! cr_path data = None →
      CoastalChangeProducts.create_output_products data result_dir w out
      = inl (Stage FileNotFoundError))
     ∧ (∀ b w' out' results out2,
          below (CoastalChange.temp_path (task w)) (cr_path data) = true →
          CoastalChangeProducts.create_output_products data result_dir w out
          = inr (b, w', out', results) →
          CoastalChangeProducts.create_output_products data result_dir w' out2
          = inl (Stage FileNotFoundError))
     ∧ (∀ dataset,
          files (fs w) !! cr_path data = Some (NetCDF dataset) →
          CoastalChange.animation_id (task w) = "none" →
          os_path_exists (fs w) (CoastalChange.temp_path (task w)) = false →
          CoastalChangeProducts.create_output_products data result_dir w out
          = inl (Stage FileNotFoundError)))
  ∧ (∀ (w : WaterDetection.W),
       (files (fs w) !! cr_path data = None →
        WaterDetectionProducts.create_output_products data result_dir w out
        = inl (Stage FileNotFoundError))
       ∧ (∀ b w' out' results out2,
            below (WaterDetection.temp_path (task w)) (cr_path data) = true →
            WaterDetectionProducts.create_output_products data result_dir w out
            = inr (b, w', out', results) →
            WaterDetectionProducts.create_output_products data result_dir w' out2
            = inl (Stage FileNotFoundError))
       ∧ (∀ dataset,
            files (fs w) !! cr_path data = Some (NetCDF dataset) →
            WaterDetection.animation_id (task w) = "none" →
            os_path_exists (fs w) (WaterDetection.temp_path (task w)) = false →
            WaterDetectionProducts.create_output_products data result_dir w out
            = inl (Stage FileNotFoundError))).
Proof.
  assert (∀ (w : CoastalChange.W) out0,
            files (fs w) !! cr_path data = None →
            CoastalChangeProducts.create_output_products data result_dir w out0
            = inl (Stage FileNotFoundError)) as Hcoastal.
  { intros w out0 Hnone.
    unfold CoastalChangeProducts.create_output_products,
      CoastalChangeProducts.write_products, open_dataset.
    rewrite Hnone. reflexivity. }
  assert (∀ (w : WaterDetection.W) out0,
            files (fs w) !! cr_path data = None →
            WaterDetectionProducts.create_output_products data result_dir w out0
            = inl (Stage FileNotFoundError)) as Hwater.
  { intros w out0 Hnone.
    unfold WaterDetectionProducts.create_output_products,
      WaterDetectionProducts.write_products, open_dataset.
    rewrite Hnone. reflexivity. }
  split.
  - intros w. split; [apply Hcoastal|]. split.
    + intros b w' out' results out2 Hbelow Hrun. apply Hcoastal.
      apply coastal_finalizer_inv in Hrun as (f' & _ & Hrm & _ & ->).
      apply rmtree_spec in Hrm as (_ & _ & _ & Hfiles). simpl.
      rewrite Hfiles, Hbelow. reflexivity.
    + intros dataset Hfile Hnone Htemp.
      unfold CoastalChangeProducts.create_output_products,
        CoastalChangeProducts.write_products, open_dataset.
      rewrite Hfile, Hnone. simpl. unfold rmtree.
      unfold os_path_exists in Htemp. apply orb_false_iff in Htemp as [-> ->].
      reflexivity.
  - intros w. split; [apply Hwater|]. split.
    + intros b w' out' results out2 Hbelow Hrun. apply Hwater.
      apply water_finalizer_inv in Hrun as (f' & _ & Hrm & _ & ->).
      apply rmtree_spec in Hrm as (_ & _ & _ & Hfiles). simpl.
      rewrite Hfiles, Hbelow. reflexivity.
    + intros dataset Hfile Hnone Htemp.
      unfold WaterDetectionProducts.create_output_products,
        WaterDetectionProducts.write_products, open_dataset.
      rewrite Hfile, Hnone. simpl. unfold rmtree.
      unfold os_path_exists in Htemp. apply orb_false_iff in Htemp as [-> ->].
      reflexivity.
Qed.

Lemma dict_pop_length (k : Z) (d rest : list (Z * list datetime)) (v : list datetime) :
  CoastalChange.dict_pop k d = Ok (v, rest) → length d = S (length rest).
Proof.
  revert rest. induction d as [|[k' v'] d IH]; intros rest; simpl; [discriminate|].
  destruct (k' =? k).
  - intros [= _ <-]. reflexivity.
  - intros Hpop. bind_inv Hpop. destruct a as [x rest']. injection Hpop as <- <-.
    simpl. f_equal. eapply IH. exact Hstep.
Qed.

Lemma animation_png_of_nat (t : nat) :
  animation_png (Z.of_nat t) = "animation_" +:+ str t +:+ ".png".
Proof.
  unfold animation_png, str_int.
  destruct (Z.ltb_spec (Z.of_nat t) 0) as [Hneg|_]; [lia|].
  rewrite Nat2Z.id. reflexivity.
Qed.

(** X21: the coastal-change finalizer looks for the frame of every time
    chunk of the plan.  When the acquisitions listed for the task lie
    in the years [time_start] to [time_end], an animated task has at
    most [time_end - time_start] time chunks, so the picture
    [animation_<t>.png] that the geographic recombiner writes for time
    chunk [t] has an index the finalizer's loop reaches, under the very
    name the loop builds. *)
Theorem coastal_animation_frames_within_range
    (p : CoastalChange.Parameters) (w w' : CoastalChange.W)
    (d : CoastalChange.ChunkDetails) :
  CoastalChange.animation_id (task w) ≠ "none" →
  (∀ x, x ∈ CoastalChange.list_acquisition_dates p →
        CoastalChange.time_start (task w) ≤ year x ≤ CoastalChange.time_end (task w)) →
  CoastalChange.perform_task_chunking (Some p) w = Ok (Some d, w') →
  (Z.of_nat (length (CoastalChange.cd_time_chunks d))
   ≤ CoastalChange.time_end (task w) - CoastalChange.time_start (task w))
  ∧ ∀ t, (t < length (CoastalChange.cd_time_chunks d))%nat →
      Z.of_nat t ∈ range (CoastalChange.time_end (task w)
                          - CoastalChange.time_start (task w))
      ∧ os_path_join (CoastalChange.temp_path (task w))
                     ("animation_" +:+ str t +:+ ".png")
        = os_path_join (CoastalChange.temp_path (task w))
                       (animation_png (Z.of_nat t)).
Proof.
  intros Hanim Hyears Hrun.
  set (s := CoastalChange.time_start (task w)) in *.
  set (e := CoastalChange.time_end (task w)) in *.
  assert (Z.of_nat (length (CoastalChange.cd_time_chunks d)) ≤ e - s) as Hbound.
  { unfold CoastalChange.perform_task_chunking in Hrun.
    bind_inv Hrun. rename a into tcs. injection Hrun as <- _. simpl.
    unfold CoastalChange.time_chunks_of in Hstep.
    destruct (String.eqb_spec (CoastalChange.animation_id (task w)) "none")
      as [Hnone|_]; [contradiction|].
    bind_inv Hstep. destruct a as [initial_year grouped]. injection Hstep as <-.
    rewrite length_fmap. apply dict_pop_length in Hstep0.
    unfold CoastalChange.group_datetimes_by_year in Hstep0.
    rewrite length_fmap in Hstep0.
    pose proof (length_distinct_subset
                  (remove_dups (year <$> CoastalChange.list_acquisition_dates p))
                  (seqZ s (e - s + 1)) (NoDup_remove_dups _)) as Hpigeon.
    rewrite length_seqZ in Hpigeon.
    assert (length (remove_dups (year <$> CoastalChange.list_acquisition_dates p))
            ≤ Z.to_nat (e - s + 1))%nat as Hle.
    { apply Hpigeon. intros y Hy. rewrite elem_of_remove_dups in Hy.
      apply list_elem_of_fmap in Hy as (x & -> & Hx). apply Hyears in Hx.
      apply elem_of_seqZ. lia. }
    lia. }
  split; [exact Hbound|].
  intros t Ht. split.
  - unfold range. apply list_elem_of_fmap. exists t. split; [reflexivity|].
    apply elem_of_seq. lia.
  - rewrite animation_png_of_nat. reflexivity.
Qed.



End FinalizerCoverage.

(** *** Parsing and the chain of [run] *)




Section RunCoverage.
Context {R : Raster}.
Context {coastal : CoastalChange.Collaborators}.
Context {water : WaterDetection.Collaborators}.









End RunCoverage.

(* ===================================================================== *)
(** ** The further properties on the small data cube *)
(* ===================================================================== *)

Section CoverageInstances.
#[local] Existing Instance Scenario.raster.
#[local] Existing Instance Scenario.coastal.
#[local] Existing Instance Scenario.water.
#[local] Existing Instance Scenario.coastal_output.
#[local] Existing Instance Scenario.water_output.
Import Scenario.


(** The only job of the coastal-change plan, delivered once. *)
Lemma coastal_processing_task_outcome_witness :
  os_path_exists (fs dispatched) (CoastalChange.temp_path (task dispatched)) = true
  ∧ ∃ chunk,
      deliver coastal_job dispatched = Ok (Some chunk, delivered_once)
      ∧ length (fetched delivered_once) = (2 + length (fetched dispatched))%nat
      ∧ task delivered_once = CoastalChange.increment_scenes_processed (task dispatched).
Proof.
  assert (os_path_exists (fs dispatched) (CoastalChange.temp_path (task dispatched)) = true)
    as Htemp by (vm_compute; reflexivity).
  split; [exact Htemp|].
  destruct (produced_value (None, dispatched) (deliver coastal_job dispatched))
    as [chunk Hrun]; [vm_compute; reflexivity|].
  fold delivered_once in Hrun. exists chunk. split; [exact Hrun|].
  destruct (coastal_processing_task_outcome 0 0 extent (dates_2000, dates_2002)
              (coastal_parameters 2000 2002) dispatched (Some chunk) delivered_once
              Htemp Hrun)
    as (s & c & _ & _ & Hfetched & _ & _ & _ & Hsome).
  split; [rewrite Hfetched; reflexivity|].
  destruct (Hsome chunk eq_refl) as (old & new & mo & mn & _ & _ & _ & _ & Htask & _).
  exact Htask.
Defined.

(** The cube without acquisitions in 2001: validation lets the task
    over 2000 to 2001 through, and the chain raises. *)
Lemma coastal_chunking_missing_year_witness :
  (∃ validated w1,
     CoastalChange.validate_parameters (H0 := gap_coastal)
       (coastal_parameters 2000 2001) gap_world = Ok (Some validated, w1))
  ∧ CoastalChange.run_chain (H0 := gap_coastal) (coastal_parameters 2000 2001) gap_world
    = Raise KeyError.
Proof.
  destruct (produced_value (None, gap_world)
              (CoastalChange.validate_parameters (H0 := gap_coastal)
                 (coastal_parameters 2000 2001) gap_world))
    as [validated Hval]; [vm_compute; reflexivity|].
  split; [eauto|].
  destruct (coastal_chunking_missing_year_key_error (coastal := gap_coastal)
              (coastal_parameters 2000 2001) gap_world) as [_ Hchain].
  apply (Hchain _ _ Hval). right. split; [reflexivity|].
  assert (validated = coastal_parameters 2000 2001) as ->.
  { pose proof (f_equal (λ x, fst (value (None, gap_world) x)) Hval) as Hfst.
    simpl in Hfst. injection Hfst as <-. vm_compute. reflexivity. }
  vm_compute. intros Hin. apply list_elem_of_singleton in Hin. discriminate Hin.
Defined.


(** The chain of the water-detection task over 2000 to 2002: four
    acquisitions in time chunks of three, one geographic chunk. *)
Lemma water_run_chain_witness :
  WaterDetection.list_combined_acquisition_dates (water_parameters 2000 2002) ≠ []
  ∧ ∃ w',
      WaterDetection.run_chain (water_parameters 2000 2002)
        (water_world "none" (Some 3) empty_temp) = Ok (Some true, w')
      ∧ WaterDetection.total_scenes (task w') = 6
      ∧ WaterDetection.scenes_processed (task w') = 0.
Proof.
  assert (WaterDetection.list_combined_acquisition_dates (water_parameters 2000 2002) ≠ [])
    as Hdates by (vm_compute; discriminate).
  split; [exact Hdates|].
  destruct (water_run_chain_dispatches (water_parameters 2000 2002)
              (water_world "none" (Some 3) empty_temp) Hdates)
    as (w' & Hrun & _ & Htask & _).
  exists w'. split; [exact Hrun|]. rewrite Htask.
  split; vm_compute; reflexivity.
Defined.

(** The time chunk of three dates taken as one window. *)
Lemma water_whole_range_witness :
  os_path_exists (fs water_whole_world)
                 (WaterDetection.temp_path (task water_whole_world)) = true
  ∧ WaterDetection.processing_task 0 0 extent [] (water_parameters 2000 2002)
      water_whole_world = Raise IndexError
  ∧ ∃ r w',
      WaterDetection.processing_task 0 0 extent water_dates (water_parameters 2000 2002)
        water_whole_world = Ok (r, w')
      ∧ length (fetched w') = 1%nat.
Proof.
  assert (os_path_exists (fs water_whole_world)
            (WaterDetection.temp_path (task water_whole_world)) = true)
    as Htemp by (vm_compute; reflexivity).
  split; [exact Htemp|]. split.
  - exact (proj1 (water_processing_task_whole_range 0 0 extent []
                    (water_parameters 2000 2002) water_whole_world Htemp) eq_refl).
  - assert (returns (WaterDetection.processing_task 0 0 extent water_dates
              (water_parameters 2000 2002) water_whole_world) = true)
      as Hret by (vm_compute; reflexivity).
    destruct (WaterDetection.processing_task 0 0 extent water_dates
                (water_parameters 2000 2002) water_whole_world)
      as [[r w']|e] eqn:Hrun; [|discriminate Hret].
    exists r, w'. split; [reflexivity|].
    destruct (proj2 (water_processing_task_whole_range 0 0 extent water_dates
                       (water_parameters 2000 2002) water_whole_world Htemp)
                    eq_refl r w' Hrun)
      as (a & b & _ & _ & Hfetched & _).
    rewrite Hfetched. reflexivity.
Defined.



(** Results that are all [None], and a [None] among the results. *)
Lemma recombine_time_chunks_none_results_witness :
  WaterDetection.recombine_time_chunks (ResultList [None; None])
    (water_world "none" (Some 1) recombined_temp) = Raise IndexError
  ∧ CoastalChange.recombine_time_chunks (ResultList [Some (recombined 0 2); None])
      (coastal_world "none" recombined_temp) = Raise TypeError.
Proof.
  split.
  - apply (recombine_time_chunks_none_results (coastal_world "none" recombined_temp)
             (water_world "none" (Some 1) recombined_temp) (ResultList [None; None])).
    repeat constructor.
  - apply (recombine_time_chunks_none_results (coastal_world "none" recombined_temp)
             (water_world "none" (Some 1) recombined_temp)
             (ResultList [Some (recombined 0 2); None])).
    right. left.
Defined.

(** The results of time chunks 0 and 1 in both arrival orders. *)
Lemma recombine_time_chunks_arrival_order_witness :
  [Some (recombined 0 2); Some (recombined 1 4)]
    ≡ₚ [Some (recombined 1 4); Some (recombined 0 2)]
  ∧ NoDup (cr_path <$> drop_none [Some (recombined 0 2); Some (recombined 1 4)])
  ∧ WaterDetection.recombine_time_chunks
      (ResultList [Some (recombined 0 2); Some (recombined 1 4)])
      (water_world "none" (Some 1) recombined_temp)
    = WaterDetection.recombine_time_chunks
        (ResultList [Some (recombined 1 4); Some (recombined 0 2)])
        (water_world "none" (Some 1) recombined_temp).
Proof.
  assert ([Some (recombined 0 2); Some (recombined 1 4)]
            ≡ₚ [Some (recombined 1 4); Some (recombined 0 2)]) as Hperm
    by apply perm_swap.
  assert (NoDup (cr_path <$> drop_none [Some (recombined 0 2); Some (recombined 1 4)]))
    as Hnodup by (apply (bool_decide_unpack _); vm_compute; exact I).
  split; [exact Hperm|]. split; [exact Hnodup|].
  exact (proj1 (proj2 (recombine_time_chunks_arrival_order _ _
                         (coastal_world "none" recombined_temp)
                         (water_world "none" (Some 1) recombined_temp) Hperm Hnodup))).
Defined.

(** The merged metadata of two results that count acquisitions. *)
Lemma recombine_time_chunks_metadata_keys_witness :
  ∃ r w',
    CoastalChange.recombine_time_chunks
      (ResultList [Some (recombined 0 2); Some (recombined 1 4)])
      (coastal_world "none" recombined_temp) = Ok (r, w')
    ∧ is_Some (cr_metadata r !! "acquisitions")
    ∧ cr_metadata r !! "scenes" = None.
Proof.
  assert (returns (CoastalChange.recombine_time_chunks
                     (ResultList [Some (recombined 0 2); Some (recombined 1 4)])
                     (coastal_world "none" recombined_temp)) = true)
    as Hret by (vm_compute; reflexivity).
  destruct (CoastalChange.recombine_time_chunks _ _) as [[r w']|e] eqn:Hrun;
    [|discriminate Hret].
  exists r, w'. split; [reflexivity|]. split.
  - destruct (proj1 (recombine_time_chunks_metadata_keys
                       (ResultList [Some (recombined 0 2); Some (recombined 1 4)])
                       "acquisitions") _ _ _ Hrun) as [Hnone _].
    destruct (cr_metadata r !! "acquisitions") as [v|]; [eauto|].
    apply proj1 in Hnone. specialize (Hnone eq_refl).
    apply Forall_cons in Hnone as [Hfirst _]. vm_compute in Hfirst. discriminate Hfirst.
  - apply (proj1 (recombine_time_chunks_metadata_keys
                    (ResultList [Some (recombined 0 2); Some (recombined 1 4)])
                    "scenes") _ _ _ Hrun).
    repeat constructor.
Defined.

(** The artifacts of the jobs (0, 1) and (1, 0) of task 7. *)
Lemma artifact_names_witness :
  os_path_join temp (CoastalChange.chunk_id 0 1 +:+ ".nc")
  ≠ os_path_join temp (CoastalChange.chunk_id 1 0 +:+ ".nc")
  ∧ os_path_join temp (recombined_geo_name 2)
    ≠ os_path_join temp (recombined_geo_name 10).
Proof.
  destruct (artifact_names_do_not_collide temp) as (Hchunk & _ & Hgeo & _).
  split.
  - intros Heq. apply Hchunk in Heq as [Hg _]. discriminate Hg.
  - intros Heq. apply Hgeo in Heq. discriminate Heq.
Defined.

(** The delivered job leaves the artifact of job (1, 0) alone. *)
Lemma processing_task_leaves_other_artifacts_witness :
  ∃ chunk,
    deliver coastal_job dispatched = Ok (Some chunk, delivered_once)
    ∧ files (fs delivered_once) !! os_path_join temp (CoastalChange.chunk_id 1 0 +:+ ".nc")
      = files (fs dispatched) !! os_path_join temp (CoastalChange.chunk_id 1 0 +:+ ".nc")
    ∧ dirs (fs delivered_once) = dirs (fs dispatched).
Proof.
  destruct (produced_value (None, dispatched) (deliver coastal_job dispatched))
    as [chunk Hrun]; [vm_compute; reflexivity|].
  fold delivered_once in Hrun. exists chunk. split; [exact Hrun|].
  destruct (proj1 (processing_task_leaves_other_artifacts 0 0) _ _ _ _ _ _ Hrun)
    as (Hdirs & _ & Hother & _).
  split; [|exact Hdirs]. apply (Hother 1%nat 0%nat). discriminate.
Defined.

(** The two stored accumulators, summed in the reverse order. *)
Lemma temporal_totals_in_any_order_witness :
  ∃ r w' ds acc,
    WaterDetection.recombine_time_chunks
      (ResultList [Some (recombined 1 4); None; Some (recombined 0 2)])
      (water_world "none" (Some 1) recombined_temp) = Ok (r, w')
    ∧ files (fs w') !! cr_path r = Some (NetCDF acc)
    ∧ acc !! "total_data" = WaterDetection.band_sum "total_data" (rev ds)
    ∧ acc !! "total_clean" = WaterDetection.band_sum "total_clean" (rev ds).
Proof.
  assert (returns (WaterDetection.recombine_time_chunks
                     (ResultList [Some (recombined 1 4); None; Some (recombined 0 2)])
                     (water_world "none" (Some 1) recombined_temp)) = true)
    as Hret by (vm_compute; reflexivity).
  destruct (WaterDetection.recombine_time_chunks _ _) as [[r w']|e] eqn:Hrun;
    [|discriminate Hret].
  destruct (temporal_totals_in_any_order (R := raster) _ _ _ _
              (λ x y, Z.add_comm x y) (λ x y z, Z.add_assoc x y z) Hrun)
    as (ds & acc & _ & Hfile & Hany).
  exists r, w', ds, acc. split; [reflexivity|]. split; [exact Hfile|].
  destruct (Hany (rev ds)) as (Hd & Hc & _); [symmetry; apply Permutation_rev|].
  split; assumption.
Defined.

(** *** The finalizers on the small data cube *)

(** The finalizers at the end of an animated task. *)
Lemma create_output_products_removes_temporary_directory_witness :
  (∃ w' out' results,
     CoastalChangeProducts.create_output_products (recombined 1 4) result_dir
       (coastal_world "coastline_change" finished_temp) ∅
     = inr (true, w', out', results)
     ∧ CoastalChange.complete (task w') = true
     ∧ files (fs w') !! os_path_join temp (recombined_geo_name 1) = None)
  ∧ (∃ w' out' results,
       WaterDetectionProducts.create_output_products (recombined 1 4) result_dir
         (water_world "scene" (Some 1) finished_temp) ∅
       = inr (true, w', out', results)
       ∧ WaterDetection.complete (task w') = true
       ∧ files (fs w') !! os_path_join temp (recombined_geo_name 1) = None).
Proof.
  destruct (create_output_products_removes_temporary_directory
              (recombined 1 4) result_dir ∅) as [Hcoastal Hwater].
  split.
  - assert (match CoastalChangeProducts.create_output_products (recombined 1 4) result_dir
                    (coastal_world "coastline_change" finished_temp) ∅ with
            | inr _ => true
            | inl _ => false
            end = true) as Hret by (vm_compute; reflexivity).
    destruct (CoastalChangeProducts.create_output_products _ _ _ _)
      as [e|[[[b w'] out'] results]] eqn:Hrun; [discriminate Hret|].
    destruct (Hcoastal _ _ _ _ _ Hrun)
      as (-> & Hcomplete & _ & _ & _ & _ & _ & _ & _ & _ & _ & _ & _ & Hgone).
    exists w', out', results. split; [reflexivity|]. split; [exact Hcomplete|].
    apply (Hgone (recombined_geo_name 1)); [discriminate|reflexivity].
  - assert (match WaterDetectionProducts.create_output_products (recombined 1 4) result_dir
                    (water_world "scene" (Some 1) finished_temp) ∅ with
            | inr _ => true
            | inl _ => false
            end = true) as Hret by (vm_compute; reflexivity).
    destruct (WaterDetectionProducts.create_output_products _ _ _ _)
      as [e|[[[b w'] out'] results]] eqn:Hrun; [discriminate Hret|].
    destruct (Hwater _ _ _ _ _ Hrun)
      as (-> & Hcomplete & _ & _ & _ & _ & _ & _ & _ & _ & _ & _ & _ & Hgone).
    exists w', out', results. split; [reflexivity|]. split; [exact Hcomplete|].
    apply (Hgone (recombined_geo_name 1)); [discriminate|reflexivity].
Defined.

(** The only job of the plan, delivered after the finalizer. *)
Lemma processing_task_after_create_output_products_witness :
  files (fs (coastal_world "coastline_change" finished_temp))
    !! CoastalChange.temp_path (task (coastal_world "coastline_change" finished_temp))
  = None
  ∧ ∃ w' out' results,
      CoastalChangeProducts.create_output_products (recombined 1 4) result_dir
        (coastal_world "coastline_change" finished_temp) ∅
      = inr (true, w', out', results)
      ∧ CoastalChange.processing_task 0 0 extent (dates_2000, dates_2002)
          (coastal_parameters 2000 2002) w' = Ok (None, w').
Proof.
  assert (files (fs (coastal_world "coastline_change" finished_temp))
            !! CoastalChange.temp_path (task (coastal_world "coastline_change" finished_temp))
          = None) as Hfile by (apply missing_artifact; vm_compute; reflexivity).
  split; [exact Hfile|].
  assert (match CoastalChangeProducts.create_output_products (recombined 1 4) result_dir
                  (coastal_world "coastline_change" finished_temp) ∅ with
          | inr (b, _, _, _) => b
          | inl _ => false
          end = true) as Hret by (vm_compute; reflexivity).
  destruct (CoastalChangeProducts.create_output_products _ _ _ _)
    as [e|[[[b w'] out'] results]] eqn:Hrun; [discriminate Hret|].
  subst b. exists w', out', results. split; [reflexivity|].
  exact (proj1 (processing_task_after_create_output_products
                  (recombined 1 4) result_dir ∅ 0 0 extent)
               _ _ _ _ _ _ _ Hfile Hrun).
Defined.

(** The animation of both finalizers: three pictures are stored; the
    coastal-change task spans two years and the final metadata of the
    water-detection task have one key. *)
Lemma create_output_products_animation_frames_witness :
  (∃ w' out' results frames,
     CoastalChangeProducts.create_output_products (recombined 1 4) result_dir
       (coastal_world "coastline_change" finished_temp) ∅
     = inr (true, w', out', results)
     ∧ out' !! os_path_join result_dir "animation.gif" = Some (GIF frames)
     ∧ (length frames ≤ 2)%nat)
  ∧ (∃ w' out' results frames,
       WaterDetectionProducts.create_output_products (recombined 1 4) result_dir
         (water_world "scene" (Some 1) finished_temp) ∅
       = inr (true, w', out', results)
       ∧ out' !! os_path_join result_dir "animation.gif" = Some (GIF frames)
       ∧ (length frames ≤ 1)%nat).
Proof.
  destruct (create_output_products_animation_frames (recombined 1 4) result_dir ∅)
    as [Hcoastal Hwater].
  split.
  - assert (match CoastalChangeProducts.create_output_products (recombined 1 4) result_dir
                    (coastal_world "coastline_change" finished_temp) ∅ with
            | inr (b, _, _, _) => b
            | inl _ => false
            end = true) as Hret by (vm_compute; reflexivity).
    destruct (CoastalChangeProducts.create_output_products _ _ _ _)
      as [e|[[[b w'] out'] results]] eqn:Hrun; [discriminate Hret|].
    subst b. specialize (Hcoastal _ _ _ _ _ Hrun). cbv zeta in Hcoastal.
    change (String.eqb (CoastalChange.animation_id
                          (task (coastal_world "coastline_change" finished_temp))) "none")
      with false in Hcoastal.
    destruct Hcoastal as (Hpath & Hgif & Hlen). rewrite Hpath in Hgif.
    eexists w', out', results, _. split; [reflexivity|]. split; [exact Hgif|].
    exact Hlen.
  - assert (match WaterDetectionProducts.create_output_products (recombined 1 4) result_dir
                    (water_world "scene" (Some 1) finished_temp) ∅ with
            | inr (b, _, _, _) => b
            | inl _ => false
            end = true) as Hret by (vm_compute; reflexivity).
    destruct (WaterDetectionProducts.create_output_products _ _ _ _)
      as [e|[[[b w'] out'] results]] eqn:Hrun; [discriminate Hret|].
    subst b. specialize (Hwater _ _ _ _ _ Hrun). cbv zeta in Hwater.
    change (String.eqb (WaterDetection.animation_id
                          (task (water_world "scene" (Some 1) finished_temp))) "none")
      with false in Hwater.
    destruct Hwater as (Hpath & Hgif & Hlen). rewrite Hpath in Hgif.
    eexists w', out', results, _. split; [reflexivity|]. split; [exact Hgif|].
    assert (Z.to_nat (Z.of_nat (size (cr_metadata (recombined 1 4)))) = 1%nat) as Hsize
      by (vm_compute; reflexivity).
    rewrite Hsize in Hlen. exact Hlen.
Defined.

(** The products of the coastal-change finalizer. *)
Lemma create_output_products_writes_products_witness :
  ∃ w' out' results dataset,
    CoastalChangeProducts.create_output_products (recombined 1 4) result_dir
      (coastal_world "coastline_change" finished_temp) ∅
    = inr (true, w', out', results)
    ∧ out' !! os_path_join result_dir "data_netcdf.nc" = Some (ProductNetCDF dataset)
    ∧ out' !! os_path_join result_dir "mosaic.png"
      = Some (PNG dataset ["red"; "green"; "blue"]).
Proof.
  assert (match CoastalChangeProducts.create_output_products (recombined 1 4) result_dir
                  (coastal_world "coastline_change" finished_temp) ∅ with
          | inr (b, _, _, _) => b
          | inl _ => false
          end = true) as Hret by (vm_compute; reflexivity).
  destruct (CoastalChangeProducts.create_output_products _ _ _ _)
    as [e|[[[b w'] out'] results]] eqn:Hrun; [discriminate Hret|].
  subst b.
  pose proof (coastal_finalizer_inv _ _ _ _ _ _ _ _ Hrun) as (f' & Hwrite & _).
  apply coastal_write_products_spec in Hwrite as (_ & _ & Hresults & _).
  destruct (proj1 (create_output_products_writes_products (recombined 1 4) result_dir ∅)
                  _ _ _ _ _ Hrun)
    as (dataset & _ & Hnetcdf & _ & _ & _ & Hmosaic & _).
  rewrite Hresults in Hnetcdf, Hmosaic.
  exists w', out', results, dataset. split; [reflexivity|].
  split; [exact Hnetcdf|exact Hmosaic].
Defined.

(** A finalizer without its final artifact, and a finalizer run twice. *)
Lemma create_output_products_needs_final_artifact_witness :
  CoastalChangeProducts.create_output_products (recombined 0 2) result_dir
    (coastal_world "none" empty_temp) ∅ = inl (Stage FileNotFoundError)
  ∧ ∃ w' out' results,
      WaterDetectionProducts.create_output_products (recombined 1 4) result_dir
        (water_world "scene" (Some 1) finished_temp) ∅
      = inr (true, w', out', results)
      ∧ WaterDetectionProducts.create_output_products (recombined 1 4) result_dir w' out'
        = inl (Stage FileNotFoundError).
Proof.
  destruct (create_output_products_needs_final_artifact (recombined 1 4) result_dir ∅)
    as [_ Hwater].
  split.
  - apply (proj1 (create_output_products_needs_final_artifact
                    (recombined 0 2) result_dir ∅)).
    apply missing_artifact. vm_compute. reflexivity.
  - assert (match WaterDetectionProducts.create_output_products (recombined 1 4) result_dir
                    (water_world "scene" (Some 1) finished_temp) ∅ with
            | inr (b, _, _, _) => b
            | inl _ => false
            end = true) as Hret by (vm_compute; reflexivity).
    destruct (WaterDetectionProducts.create_output_products _ _ _ _)
      as [e|[[[b w'] out'] results]] eqn:Hrun; [discriminate Hret|].
    subst b. exists w', out', results. split; [reflexivity|].
    destruct (Hwater (water_world "scene" (Some 1) finished_temp)) as (_ & Htwice & _).
    apply (Htwice true w' out' results out'); [|exact Hrun].
    vm_compute. reflexivity.
Defined.

(** The animated plan over the years 2000 to 2002. *)
Lemma coastal_animation_frames_within_range_witness :
  ∃ d w',
    CoastalChange.perform_task_chunking (Some (coastal_parameters 2000 2002))
      (coastal_world "coastline_change" empty_temp) = Ok (Some d, w')
    ∧ Z.of_nat (length (CoastalChange.cd_time_chunks d)) ≤ 2.
Proof.
  destruct (produced_value (None, coastal_world "coastline_change" empty_temp)
              (CoastalChange.perform_task_chunking (Some (coastal_parameters 2000 2002))
                 (coastal_world "coastline_change" empty_temp)))
    as [d Hrun]; [vm_compute; reflexivity|].
  eexists d, _. split; [exact Hrun|].
  refine (proj1 (coastal_animation_frames_within_range
                   (coastal_parameters 2000 2002)
                   (coastal_world "coastline_change" empty_temp) _ d _ _ Hrun)).
  - discriminate.
  - intros x Hx.
    assert (CoastalChange.list_acquisition_dates (coastal_parameters 2000 2002)
            = acquisitions) as Hdates by (vm_compute; reflexivity).
    rewrite Hdates in Hx. unfold acquisitions in Hx.
    repeat (apply elem_of_cons in Hx as [->|Hx]; [simpl; lia|]).
    inversion Hx.
Defined.

(** *** Parsing on the small data cube *)




(** *** The results of the recombiners on the small data cube *)

(** The results of time chunks 2 and 10: the path of chunk 2 is the
    greatest, the ids are those of chunk 10. *)
Lemma recombine_time_chunks_least_and_greatest_witness :
  ∃ r w',
    CoastalChange.recombine_time_chunks
      (ResultList [Some (recombined 2 2); Some (recombined 10 10)])
      (coastal_world "none" late_temp) = Ok (r, w')
    ∧ w' = coastal_world "none" late_temp
    ∧ ∃ greatest,
        greatest ∈ [recombined 2 2; recombined 10 10]
        ∧ cr_path r = cr_path greatest.
Proof.
  assert (returns (CoastalChange.recombine_time_chunks
                     (ResultList [Some (recombined 2 2); Some (recombined 10 10)])
                     (coastal_world "none" late_temp)) = true)
    as Hret by (vm_compute; reflexivity).
  destruct (CoastalChange.recombine_time_chunks _ _) as [[r w']|e] eqn:Hrun;
    [|discriminate Hret].
  exists r, w'. split; [reflexivity|].
  destruct (proj1 (recombine_time_chunks_least_and_greatest
                     (ResultList [Some (recombined 2 2); Some (recombined 10 10)]))
                  _ _ _ Hrun)
    as (Hworld & least & greatest & _ & Hin & _ & Hpath & _).
  split; [exact Hworld|]. exists greatest. split; [exact Hin|exact Hpath].
Defined.



(** *** The chunk workers on the small data cube *)


(** The worker of the animated task over the three dates of
    [water_dates] leaves a frame of step 3 alone. *)
Lemma water_processing_task_frames_witness :
  ∃ r w',
    water_deliver water_job (water_world "scene" (Some 3) empty_temp) = Ok (r, w')
    ∧ files (fs w') !! "/tmp/7/animation_0_3.nc"
      = files (fs (water_world "scene" (Some 3) empty_temp)) !! "/tmp/7/animation_0_3.nc".
Proof.
  assert (returns (water_deliver water_job (water_world "scene" (Some 3) empty_temp))
          = true) as Hret by (vm_compute; reflexivity).
  destruct (water_deliver water_job (water_world "scene" (Some 3) empty_temp))
    as [[r w']|e] eqn:Hrun; [|discriminate Hret].
  exists r, w'. split; [reflexivity|].
  unfold water_deliver in Hrun.
  assert (WaterDetection.iterative (task (water_world "scene" (Some 3) empty_temp)) = true)
    as Hmode by reflexivity.
  apply (water_processing_task_frames _ _ _ _ _ _ _ _ Hmode Hrun).
  - vm_compute. discriminate.
  - right. intros i Hi.
    destruct i as [|[|[|i]]]; [vm_compute; discriminate ..|].
    exfalso. cbn [length water_job job_time_chunk water_dates] in Hi. lia.
Defined.

(** The temporal recombiner of the animated task over two chunks draws
    no picture of step 2. *)
Lemma water_recombine_time_chunks_pictures_witness :
  ∃ r w',
    WaterDetection.recombine_time_chunks
      (ResultList [Some (recombined 1 4); None; Some (recombined 0 2)])
      (water_world "scene" (Some 1) framed_temp) = Ok (r, w')
    ∧ files (fs w') !! "/tmp/7/animation_0.png" ≠ None
    ∧ ¬ (files (fs w') !! "/tmp/7/animation_2.png"
         ≠ files framed_temp !! "/tmp/7/animation_2.png").
Proof.
  assert (returns (WaterDetection.recombine_time_chunks
                     (ResultList [Some (recombined 1 4); None; Some (recombined 0 2)])
                     (water_world "scene" (Some 1) framed_temp)) = true)
    as Hret by (vm_compute; reflexivity).
  assert (String.eqb
            (cr_path (fst (value (recombined 0 0, water_world "scene" (Some 1) framed_temp)
                             (WaterDetection.recombine_time_chunks
                                (ResultList [Some (recombined 1 4); None;
                                             Some (recombined 0 2)])
                                (water_world "scene" (Some 1) framed_temp)))))
            "/tmp/7/animation_2.png" = false
          ∧ bool_decide
              (is_Some
                 (files (fs (snd (value (recombined 0 0,
                                         water_world "scene" (Some 1) framed_temp)
                                    (WaterDetection.recombine_time_chunks
                                       (ResultList [Some (recombined 1 4); None;
                                                    Some (recombined 0 2)])
                                       (water_world "scene" (Some 1) framed_temp)))))
                  !! "/tmp/7/animation_0.png")) = true)
    as [Hpath Hdrawn] by (split; vm_compute; reflexivity).
  destruct (WaterDetection.recombine_time_chunks _ _) as [[r w']|e] eqn:Hrun;
    [|discriminate Hret].
  cbn [value fst snd] in Hpath, Hdrawn.
  exists r, w'. split; [reflexivity|]. split.
  { apply bool_decide_eq_true in Hdrawn as [x Hx]. rewrite Hx. discriminate. }
  intros Hchanged.
  destruct (water_recombine_time_chunks_pictures _ _ _ _ Hrun "/tmp/7/animation_2.png"
              Hchanged)
    as [Heq|(_ & k & d & img & Hk & Hframe & _)].
  - rewrite <- Heq, String.eqb_refl in Hpath. discriminate Hpath.
  - change (WaterDetection.time_chunk_size_or_1
              (task (water_world "scene" (Some 1) framed_temp))) with 1 in Hk.
    change (length (WaterDetection.total_chunks_by_time
                      (ResultList [Some (recombined 1 4); None; Some (recombined 0 2)])))
      with 2%nat in Hk.
    assert (k = 0 ∨ k = 1) as [-> | ->] by lia; vm_compute in Hframe; discriminate Hframe.
Defined.

End CoverageInstances.
